(** * ft_parsers: fetch, normalize, reconcile

    A shallow embedding of the pipeline of [vk_tg_parsers.py] and
    [notion_parser.py]: the Google Sheets upsert of [BaseParser], the
    Telegram and VK normalizers, and the cursor pagination of
    [BaseNotionParser.get_records_by_batch].

    Python strings are byte strings in UTF-8 ([string]); integers are [Z];
    [None] is a constructor of [value]; a [dict] with string keys is an
    association list in insertion order; an exception is a value of [exn]
    carried by [result]. *)

From Stdlib Require Import List String Ascii ZArith Bool Lia PeanoNat.
From Stdlib Require Import DecimalString Permutation.
From Stdlib Require DecimalPos DecimalZ.
Import ListNotations.
Open Scope string_scope.

Set Implicit Arguments.

(** ** Python values, exceptions *)

Module Py.

Inductive value : Type :=
| VNone
| VInt (z : Z)
| VStr (s : string).

(** [a == b] on the values of a record. *)
Definition value_eqb (a b : value) : bool :=
  match a, b with
  | VNone, VNone => true
  | VInt x, VInt y => Z.eqb x y
  | VStr x, VStr y => String.eqb x y
  | _, _ => false
  end.

Definition str_of_nat (n : nat) : string :=
  NilEmpty.string_of_uint (Nat.to_uint n).

Definition str_of_Z (z : Z) : string :=
  NilZero.string_of_int (Z.to_int z).

(** [str(v)], as an f-string renders a value. *)
Definition py_str (v : value) : string :=
  match v with
  | VNone => "None"
  | VInt z => str_of_Z z
  | VStr s => s
  end.

Definition of_opt_str (o : option string) : value :=
  match o with Some s => VStr s | None => VNone end.

Definition of_opt_Z (o : option Z) : value :=
  match o with Some z => VInt z | None => VNone end.

(** Truth value of an optional string: [None] and [""] are false. *)
Definition truthy_str (o : option string) : bool :=
  match o with
  | Some s => negb (String.eqb s "")
  | None => false
  end.

Inductive exn : Type :=
| KeyError (key : string)
| IndexError
| TypeError (msg : string)
| AttributeError (msg : string)
| ValueError (msg : string)
| HttpError (msg : string).

(** [str(e)] of a caught exception. *)
Definition exn_str (e : exn) : string :=
  match e with
  | KeyError k => "'" ++ k ++ "'"
  | IndexError => "list index out of range"
  | TypeError m => m
  | AttributeError m => m
  | ValueError m => m
  | HttpError m => m
  end.

Inductive result (A : Type) : Type :=
| Ok (a : A)
| Raise (e : exn).

Arguments Ok {A} a.
Arguments Raise {A} e.

Definition rbind {A B} (m : result A) (k : A -> result B) : result B :=
  match m with
  | Ok a => k a
  | Raise e => Raise e
  end.

(** A dict with string keys, in insertion order. *)
Definition dict := list (string * value).

Fixpoint dict_get (d : dict) (k : string) : option value :=
  match d with
  | [] => None
  | (k', v) :: d' => if String.eqb k' k then Some v else dict_get d' k
  end.

(** [d[k]]: raises [KeyError] on a missing key. *)
Definition getitem (d : dict) (k : string) : result value :=
  match dict_get d k with
  | Some v => Ok v
  | None => Raise (KeyError k)
  end.

(** [v in l] for a list of strings read from a sheet. *)
Definition contains (l : list string) (v : value) : bool :=
  existsb (value_eqb v) (map VStr l).

(** [l.index(v)]: the first position that holds [v]. *)
Fixpoint index (l : list string) (v : value) : option nat :=
  match l with
  | [] => None
  | s :: l' =>
      if value_eqb v (VStr s) then Some 0
      else option_map S (index l' v)
  end.

End Py.
Import Py.

Declare Scope result_scope.
Delimit Scope result_scope with result.
Notation "x <- m ;; k" := (rbind m (fun x => k))
  (at level 61, m at next level, right associativity) : result_scope.

(** ** The Google Sheets service

    [google_service] is an external collaborator.  Its state is what it will
    answer and what it was asked: [sheet n r] is the answer to the [n]-th
    [values().get] of the run when it asks for range [r] (other users may edit
    the sheet between two reads, so the answer depends on [n]), [issued] lists
    the calls made so far, oldest first, and [log] the lines written by
    [logger] and [print]. *)

Module Sheets.

Inductive Response : Type :=
| HttpFail (msg : string)
  (** [execute()] raises *)
| Values (v : option (list (list string))).
  (** the response body; [None] when it has no ["values"] key *)

(** One entry of the ["data"] list of a [batchUpdate] body. *)
Record ValueRange : Type := mkValueRange {
  range : string;
  majorDimension : string;
  values : list (option (list value))
}.

Inductive Request : Type :=
| Get (spreadsheetId range : string)
| BatchUpdate (spreadsheetId valueInputOption : string) (data : list ValueRange).

Inductive LogLine : Type :=
| Info (msg : string)
| Error (msg : string)
| Print (msg : string).

Record World : Type := mkWorld {
  sheet : nat -> string -> Response;
  reads : nat;
  issued : list Request;
  log : list LogLine
}.

(** State and exceptions: a raised exception keeps the state reached. *)
Definition M (A : Type) : Type := World -> result A * World.

Definition ret {A} (a : A) : M A := fun w => (Ok a, w).

Definition bind {A B} (m : M A) (k : A -> M B) : M B :=
  fun w =>
    match m w with
    | (Ok a, w') => k a w'
    | (Raise e, w') => (Raise e, w')
    end.

Definition lift {A} (r : result A) : M A := fun w => (r, w).

(** [try: m except Exception as e: h e]. *)
Definition try_except {A} (m : M A) (h : exn -> M A) : M A :=
  fun w =>
    match m w with
    | (Ok a, w') => (Ok a, w')
    | (Raise e, w') => h e w'
    end.

Definition write_log (l : LogLine) : M unit :=
  fun w => (Ok tt, mkWorld (sheet w) (reads w) (issued w) (log w ++ [l])).

(** [google_service.spreadsheets().values().get(...).execute()]. *)
Definition values_get (spreadsheetId rng : string)
  : M (option (list (list string))) :=
  fun w =>
    let w' := mkWorld (sheet w) (S (reads w))
                      (issued w ++ [Get spreadsheetId rng]) (log w) in
    match sheet w (reads w) rng with
    | HttpFail msg => (Raise (HttpError msg), w')
    | Values v => (Ok v, w')
    end.

(** [google_service.spreadsheets().values().batchUpdate(...).execute()];
    the write is recorded and taken to succeed. *)
Definition values_batchUpdate (spreadsheetId : string) (option : string)
    (data : list ValueRange) : M unit :=
  fun w =>
    (Ok tt, mkWorld (sheet w) (reads w)
                    (issued w ++ [BatchUpdate spreadsheetId option data]) (log w)).

End Sheets.
Import Sheets.

Declare Scope sheets_scope.
Delimit Scope sheets_scope with sheets.
Notation "x <- m ;; k" := (bind m (fun x => k))
  (at level 61, m at next level, right associativity) : sheets_scope.
Notation "m ;;; k" := (bind m (fun _ => k))
  (at level 61, right associativity) : sheets_scope.

(** ** BaseParser *)

Module BaseParser.

(** [column_letters]: a dict from 1..14 to "A".."N". *)
Definition column_letters (n : nat) : result string :=
  match n with
  | 1 => Ok "A" | 2 => Ok "B" | 3 => Ok "C" | 4 => Ok "D" | 5 => Ok "E"
  | 6 => Ok "F" | 7 => Ok "G" | 8 => Ok "H" | 9 => Ok "I" | 10 => Ok "J"
  | 11 => Ok "K" | 12 => Ok "L" | 13 => Ok "M" | 14 => Ok "N"
  | _ => Raise (KeyError (str_of_nat n))
  end.

(** [[post[k] for k in keys]], evaluated left to right. *)
Fixpoint project (post : dict) (keys : list string) : result (list value) :=
  match keys with
  | [] => Ok []
  | k :: ks =>
      (v <- getitem post k ;;
       vs <- project post ks ;;
       Ok (v :: vs))%result
  end.

Definition vk_posts_columns : list string :=
  [ "Группа"; "Пост"; "Текст оригинального поста"; "Дата-время"; "Лайки";
    "Репосты"; "Комментарии"; "Просмотры"; "Текст репоста";
    "Ссылка на оригинальный пост"; "Ссылка в посте" ].

Definition tg_posts_columns : list string :=
  [ "Канал"; "Пост"; "Текст поста"; "Дата-время"; "Реакции"; "Комментарии";
    "Просмотры"; "Количество репостов"; "Ссылка на оригинальный пост";
    "Ссылка в посте" ].

Definition channel_columns : list string :=
  [ "Канал"; "Дата-время"; "Количество подписчиков" ].

(** [_get_row_from_post]: the [match] on [parser_flag]; a flag that matches
    no case falls through and the function returns [None]. *)
Definition _get_row_from_post (post : dict) (parser_flag : string)
  : result (option (list value)) :=
  if String.eqb parser_flag "vk_posts_parser" then
    (r <- project post vk_posts_columns ;; Ok (Some r))%result
  else if String.eqb parser_flag "tg_posts_parser" then
    (r <- project post tg_posts_columns ;; Ok (Some r))%result
  else if String.eqb parser_flag "vk_channel_parser" then
    (r <- project post channel_columns ;; Ok (Some r))%result
  else if String.eqb parser_flag "tg_channel_parser" then
    (r <- project post channel_columns ;; Ok (Some r))%result
  else Ok None.

(** [_make_sheet_ready_data]. *)
Fixpoint _make_sheet_ready_data (posts_info_list : list dict)
    (parser_flag : string) : result (list (option (list value))) :=
  match posts_info_list with
  | [] => Ok []
  | post :: rest =>
      (row <- _get_row_from_post post parser_flag ;;
       rows <- _make_sheet_ready_data rest parser_flag ;;
       Ok (row :: rows))%result
  end.

(** [[item[0] for item in existing_posts]]. *)
Fixpoint first_cells (rows : list (list string)) : result (list string) :=
  match rows with
  | [] => Ok []
  | [] :: _ => Raise IndexError
  | (c :: _) :: rest => (cs <- first_cells rest ;; Ok (c :: cs))%result
  end.

(** [_get_existing_posts]: the identity column B, below the header; any
    exception is logged and answered by the empty list. *)
Definition _get_existing_posts (spreadsheet_id : string) : M (list string) :=
  try_except
    (response <- values_get spreadsheet_id "Лист1!B2:B" ;;
     match response with
     | Some ((_ :: _) as existing_posts) => lift (first_cells existing_posts)
     | _ => ret []
     end)%sheets
    (fun error =>
       write_log (Error ("Ошибка при получении существующих данных из Google Sheets: "
                         ++ exn_str error)) ;;;
       ret [])%sheets.

(** [row[1]] on a projected row; [None[1]] is a [TypeError]. *)
Definition row_item1 (row : option (list value)) : result value :=
  match row with
  | None => Raise (TypeError "'NoneType' object is not subscriptable")
  | Some r =>
      match nth_error r 1 with
      | Some v => Ok v
      | None => Raise IndexError
      end
  end.

(** The row addressed for [post_link]: [existing_posts.index(post_link) + 2]. *)
Definition update_row_index (existing_posts : list string) (post_link : value)
  : option nat :=
  option_map (fun i => i + 2) (index existing_posts post_link).

Definition update_range (row_index : nat) (column_letter : string) : string :=
  "Лист1!A" ++ str_of_nat row_index ++ ":" ++ column_letter
            ++ str_of_nat row_index.

(** The loop of [_update_existing_rows] over [rebuild_data]; a row whose link
    is not in [existing_posts] is passed over. *)
Fixpoint update_loop (existing_posts : list string) (column_letter : string)
    (rebuild_data : list (option (list value)))
    (update_requests : list ValueRange) : result (list ValueRange) :=
  match rebuild_data with
  | [] => Ok update_requests
  | row :: rest =>
      (post_link <- row_item1 row ;;
       if contains existing_posts post_link then
         match update_row_index existing_posts post_link with
         | Some row_index =>
             update_loop existing_posts column_letter rest
               (update_requests ++
                  [mkValueRange (update_range row_index column_letter)
                                "ROWS" [row]])
         | None => Raise (ValueError (py_str post_link ++ " is not in list"))
         end
       else update_loop existing_posts column_letter rest update_requests)%result
  end.

(** [_update_existing_rows]: it reads the identity column again. *)
Definition _update_existing_rows (spreadsheet_id : string)
    (rows_to_update : list dict) (parser_flag : string) : M unit :=
  (first <- lift (match rows_to_update with
                  | [] => Raise IndexError
                  | p :: _ => Ok p
                  end) ;;
   column_letter <- lift (column_letters (List.length first)) ;;
   rebuild_data <- lift (_make_sheet_ready_data rows_to_update parser_flag) ;;
   existing_posts <- _get_existing_posts spreadsheet_id ;;
   update_requests <- lift (update_loop existing_posts column_letter
                                        rebuild_data []) ;;
   match update_requests with
   | [] => ret tt
   | _ :: _ =>
       values_batchUpdate spreadsheet_id "USER_ENTERED" update_requests ;;;
       write_log (Info ("Успешно обновлены строки: "
                        ++ str_of_nat (List.length update_requests)))
   end)%sheets.

(** [last_row] of [_insert_new_rows]: the number of rows the read of column A
    returned, plus one. *)
Definition last_row (response : option (list (list string))) : nat :=
  List.length (match response with Some v => v | None => [] end) + 1.

(** [_insert_new_rows]. *)
Definition _insert_new_rows (spreadsheet_id : string)
    (rows_to_insert : list dict) (parser_flag : string) : M unit :=
  (rebuild_data <- lift (_make_sheet_ready_data rows_to_insert parser_flag) ;;
   response <- values_get spreadsheet_id "Лист1!A:A" ;;
   let number_sheet := "Лист1!A" ++ str_of_nat (last_row response) in
   values_batchUpdate spreadsheet_id "USER_ENTERED"
     [mkValueRange number_sheet "ROWS" rebuild_data] ;;;
   write_log (Info ("Успешно добавлены новые строки: "
                    ++ str_of_nat (List.length rows_to_insert))))%sheets.

(** The partition loop of [run_google_upsert]. *)
Fixpoint partition_loop (existing_posts : list string) (posts_info_list : list dict)
    (rows_to_update rows_to_insert : list dict)
  : result (list dict * list dict) :=
  match posts_info_list with
  | [] => Ok (rows_to_update, rows_to_insert)
  | post :: rest =>
      (link <- getitem post "Пост" ;;
       if contains existing_posts link then
         partition_loop existing_posts rest (rows_to_update ++ [post])
                        rows_to_insert
       else
         partition_loop existing_posts rest rows_to_update
                        (rows_to_insert ++ [post]))%result
  end.

(** [run_google_upsert]. *)
Definition run_google_upsert (spreadsheet_id : string)
    (posts_info_list : list dict) (parser_flag : string) : M unit :=
  (existing_posts <- _get_existing_posts spreadsheet_id ;;
   parts <- lift (partition_loop existing_posts posts_info_list [] []) ;;
   let '(rows_to_update, rows_to_insert) := parts in
   write_log (Info "Выгружаем данные в Google Sheets") ;;;
   match rows_to_update with
   | [] => ret tt
   | _ :: _ => _update_existing_rows spreadsheet_id rows_to_update parser_flag
   end ;;;
   match rows_to_insert with
   | [] => ret tt
   | _ :: _ => _insert_new_rows spreadsheet_id rows_to_insert parser_flag
   end)%sheets.

End BaseParser.

(** ** BaseNotionParser.get_records_by_batch

    The generator is modelled by the trace of what it does when it is
    drained: each request sent, each record yielded, each log line, in
    order.  A consumer that stops early sees a prefix of the trace.
    [server n payload] is the decoded answer to the [n]-th request of the
    run. *)

Module Notion.

Section Reader.

Variable Item : Type.

(** The decoded JSON of one response; a key that is missing is [None]. *)
Record Page : Type := mkPage {
  results : option (list Item);
  has_more : option bool;
  next_cursor : option string
}.

Inductive Event : Type :=
| Request (start_cursor : option string)
| Yield (record : Item)
| Logged (line : LogLine).

Inductive Outcome : Type :=
| Exhausted
  (** the generator returned *)
| Raised (e : exn)
| OutOfFuel.

Variable server : nat -> option string -> result Page.

(** The payload: ["start_cursor"] is set only for a true [next_cursor]. *)
Definition payload_of (next_cursor : option string) : option string :=
  if truthy_str next_cursor then next_cursor else None.

(** The line logged when the loop is left. *)
Definition processed_line (counter : nat) : Event :=
  Logged (Info ("Обработанно " ++ str_of_nat counter ++ " записей")).

(** The [while has_more] loop, entered with [has_more] true; [n] requests
    were sent before.  One unit of fuel is one iteration. *)
Fixpoint batch_loop (fuel n : nat) (cursor : option string) (counter : nat)
  : list Event * Outcome :=
  match fuel with
  | 0 => ([], OutOfFuel)
  | S fuel' =>
      let payload := payload_of cursor in
      match server n payload with
      | Raise e => ([Request payload], Raised e)
      | Ok data =>
          match results data with
          | None => ([Request payload], Raised (KeyError "results"))
          | Some rs =>
              let counter := counter + List.length rs in
              match has_more data with
              | Some true =>
                  let (t, o) := batch_loop fuel' (S n) (next_cursor data) counter in
                  (Request payload :: map Yield rs ++ t, o)
              | _ =>
                  (Request payload :: map Yield rs ++ [processed_line counter],
                   Exhausted)
              end
          end
      end
  end.

(** [get_records_by_batch], drained. *)
Definition get_records_by_batch (db_name : string) (fuel : nat)
  : list Event * Outcome :=
  let (t, o) := batch_loop fuel 0 None 0 in
  (Logged (Info ("Получение записей из базы " ++ db_name)) :: t, o).

(** What a trace yields, and what it requests. *)
Fixpoint yielded (t : list Event) : list Item :=
  match t with
  | [] => []
  | Yield r :: t' => r :: yielded t'
  | _ :: t' => yielded t'
  end.

Fixpoint requested (t : list Event) : list (option string) :=
  match t with
  | [] => []
  | Request c :: t' => c :: requested t'
  | _ :: t' => requested t'
  end.

(** A paginated source, as the reader meets it from request [n] and cursor
    [cursor] on: the pages [ps] are served in turn, each carries its
    results, all but the last report [has_more] true, the last does not. *)
Fixpoint serves (n : nat) (cursor : option string) (ps : list Page) : Prop :=
  match ps with
  | [] => False
  | p :: ps' =>
      server n (payload_of cursor) = Ok p /\
      results p <> None /\
      match ps' with
      | [] => has_more p <> Some true
      | _ :: _ => has_more p = Some true /\ serves (S n) (next_cursor p) ps'
      end
  end.

Definition items_of (p : Page) : list Item :=
  match results p with Some rs => rs | None => [] end.

(** The trace of one page: the request, then its records. *)
Definition page_trace (cursor : option string) (p : Page) : list Event :=
  Request (payload_of cursor) :: map Yield (items_of p).

(** The trace of the pages [ps], the first asked for with [cursor]. *)
Fixpoint pages_trace (cursor : option string) (ps : list Page) : list Event :=
  match ps with
  | [] => []
  | p :: ps' => page_trace cursor p ++ pages_trace (next_cursor p) ps'
  end.

End Reader.

End Notion.

(** ** Regular expressions

    The fragment of Python's [re] that the three patterns of
    [vk_tg_parsers.py] use, with its backtracking order: alternatives left
    to right, repetitions greedy.  A text is the bytes of its UTF-8 form and
    the engine reads it byte after byte.  The classes between brackets and
    the dot are looked up on one byte; [\s] and [\S] are asked of the text
    from the position on, since the whitespace of Unicode outside ASCII
    takes two or three bytes. *)

Module Re.

Inductive regex : Type :=
| Lit (s : list ascii)
| Cls (f : ascii -> bool)
| Rep (f : ascii -> bool) (lo : nat) (hi : option nat)
  (** [f{lo,hi}] on a class, greedy; [hi = None] is unbounded *)
| RepAt (f : list ascii -> bool) (lo : nat)
  (** [f{lo,}], greedy, on a class whose characters can take more than one
      byte: [f] is asked of the text from the position on *)
| Seq (r1 r2 : regex)
| Alt (r1 r2 : regex)
| Group (r : regex)
  (** the one capturing group *)
| Behind (s : list ascii)
  (** [(?<=s)] *)
| Ahead (s : list ascii)
  (** [(?=s)] *)
| Eos.
  (** [\Z] *)

(** A position in the text: what was read, reversed, and what is left. *)
Definition answer : Type := (list ascii * list ascii * option (list ascii))%type.

Fixpoint starts_with (p l : list ascii) : option (list ascii) :=
  match p, l with
  | [], _ => Some l
  | a :: p', b :: l' => if Ascii.eqb a b then starts_with p' l' else None
  | _ :: _, [] => None
  end.

Definition dec_hi (hi : option nat) : option nat :=
  match hi with Some h => Some (pred h) | None => None end.

Definition hi_open (hi : option nat) : bool :=
  match hi with Some 0 => false | _ => true end.

(** Greedy repetition of a class: one more character first, then fewer. *)
Fixpoint rep (f : ascii -> bool) (lo : nat) (hi : option nat)
    (before after : list ascii)
    (k : list ascii -> list ascii -> option answer) : option answer :=
  let stop := if Nat.eqb lo 0 then k before after else None in
  match after with
  | c :: after' =>
      if f c && hi_open hi then
        match rep f (pred lo) (dec_hi hi) (c :: before) after' k with
        | Some a => Some a
        | None => stop
        end
      else stop
  | [] => stop
  end.

(** Greedy repetition of a class that is read off the text at the
    position, byte after byte. *)
Fixpoint rep_at (f : list ascii -> bool) (lo : nat)
    (before after : list ascii)
    (k : list ascii -> list ascii -> option answer) : option answer :=
  let stop := if Nat.eqb lo 0 then k before after else None in
  match after with
  | c :: after' =>
      if f after then
        match rep_at f (pred lo) (c :: before) after' k with
        | Some a => Some a
        | None => stop
        end
      else stop
  | [] => stop
  end.

Fixpoint rmatch (r : regex) (before after : list ascii)
    (cap : option (list ascii))
    (k : list ascii -> list ascii -> option (list ascii) -> option answer)
  : option answer :=
  match r with
  | Lit s =>
      match starts_with s after with
      | Some after' => k (rev s ++ before)%list after' cap
      | None => None
      end
  | Cls f =>
      match after with
      | c :: after' => if f c then k (c :: before) after' cap else None
      | [] => None
      end
  | Rep f lo hi => rep f lo hi before after (fun b a => k b a cap)
  | RepAt f lo => rep_at f lo before after (fun b a => k b a cap)
  | Seq r1 r2 =>
      rmatch r1 before after cap (fun b a c => rmatch r2 b a c k)
  | Alt r1 r2 =>
      match rmatch r1 before after cap k with
      | Some a => Some a
      | None => rmatch r2 before after cap k
      end
  | Group r1 =>
      rmatch r1 before after cap
        (fun b a _ =>
           k b a (Some (rev (firstn (List.length b - List.length before) b))))
  | Behind s =>
      match starts_with (rev s) before with
      | Some _ => k before after cap
      | None => None
      end
  | Ahead s =>
      match starts_with s after with
      | Some _ => k before after cap
      | None => None
      end
  | Eos =>
      match after with
      | [] => k before after cap
      | _ :: _ => None
      end
  end.

(** A match of [r] that starts at the position. *)
Definition match_here (r : regex) (before after : list ascii) : option answer :=
  rmatch r before after None (fun b a c => Some (b, a, c)).

(** What [findall] lists for a match: the group if the pattern has one,
    the whole match otherwise. *)
Definition found (grouped : bool) (before : list ascii) (a : answer)
  : list ascii :=
  let '(b, _, cap) := a in
  if grouped then match cap with Some g => g | None => [] end
  else rev (firstn (List.length b - List.length before) b).

(** [re.findall]: matches from left to right, without overlap.  [skip]
    counts the characters of the last match still to pass.  The patterns
    here match no empty string; an empty match is listed and the scan moves
    on by one character. *)
Fixpoint scan (r : regex) (grouped : bool) (skip : nat)
    (before after : list ascii) : list (list ascii) :=
  match after with
  | [] =>
      match skip, match_here r before [] with
      | 0, Some a => [found grouped before a]
      | _, _ => []
      end
  | c :: after' =>
      match skip with
      | S skip' => scan r grouped skip' (c :: before) after'
      | 0 =>
          match match_here r before after with
          | Some ((b, _, _) as a) =>
              found grouped before a
                :: scan r grouped (pred (List.length b - List.length before))
                        (c :: before) after'
          | None => scan r grouped 0 (c :: before) after'
          end
      end
  end.

Definition findall (r : regex) (grouped : bool) (text : string) : list string :=
  map string_of_list_ascii (scan r grouped 0 [] (list_ascii_of_string text)).

(** [re.search(...).group(1)]: the group of the leftmost match. *)
Fixpoint search_group (r : regex) (before after : list ascii)
  : option (option (list ascii)) :=
  match match_here r before after with
  | Some (_, _, cap) => Some cap
  | None =>
      match after with
      | [] => None
      | c :: after' => search_group r (c :: before) after'
      end
  end.

(** [", ".join(l)]. *)
Fixpoint join (sep : string) (l : list string) : string :=
  match l with
  | [] => ""
  | [s] => s
  | s :: l' => s ++ sep ++ join sep l'
  end.

Definition lit (s : string) : regex := Lit (list_ascii_of_string s).

Definition in_range (lo hi : nat) (c : ascii) : bool :=
  Nat.leb lo (nat_of_ascii c) && Nat.leb (nat_of_ascii c) hi.

(** [\s] on ASCII: tab to carriage return, the separators 28..31, space. *)
Definition is_space (c : ascii) : bool :=
  in_range 9 13 c || in_range 28 32 c.

(** The other characters of [\s] on [str], as the bytes of their UTF-8
    form: U+0085, U+00A0, U+1680, U+2000 to U+200A, U+2028, U+2029, U+202F,
    U+205F and U+3000. *)
Definition wide_spaces : list (list ascii) :=
  map (map ascii_of_nat)
    [ [194; 133]; [194; 160]; [225; 154; 128];
      [226; 128; 128]; [226; 128; 129]; [226; 128; 130]; [226; 128; 131];
      [226; 128; 132]; [226; 128; 133]; [226; 128; 134]; [226; 128; 135];
      [226; 128; 136]; [226; 128; 137]; [226; 128; 138];
      [226; 128; 168]; [226; 128; 169]; [226; 128; 175];
      [226; 129; 159]; [227; 128; 128] ].

Definition begins (w l : list ascii) : bool :=
  match starts_with w l with Some _ => true | None => false end.

(** A character of [\s] begins the text [l]. *)
Definition space_at (l : list ascii) : bool :=
  match l with
  | [] => false
  | c :: _ => is_space c || existsb (fun w => begins w l) wide_spaces
  end.

(** [\S], asked of a text in UTF-8 at a position: the character that
    begins there is no whitespace.  The patterns below begin with an ASCII
    character and go on after [\S+] with an ASCII character or not at all,
    so their matches begin and end between characters. *)
Definition not_space (l : list ascii) : bool := negb (space_at l).

(** [.]: any character but a newline. *)
Definition dot (c : ascii) : bool := negb (Nat.eqb (nat_of_ascii c) 10).

Definition is_alpha (c : ascii) : bool :=
  in_range 97 122 c || in_range 65 90 c.

Definition is_digit (c : ascii) : bool := in_range 48 57 c.

Definition is_char (x : ascii) (c : ascii) : bool := Ascii.eqb x c.

(** [https?://\S+]. *)
Definition url : regex :=
  Seq (lit "http")
      (Seq (Rep (is_char "s") 0 (Some 1))
           (Seq (lit "://") (RepAt not_space 1))).

End Re.

(** ** Dates *)

Module Datetime.

Record datetime : Type := mkDatetime {
  year : nat; month : nat; day : nat;
  hour : nat; minute : nat; second : nat
}.

Definition pad2 (n : nat) : string :=
  if Nat.ltb n 10 then "0" ++ str_of_nat n else str_of_nat n.

(** [strftime("%Y-%m-%d %H:%M:%S")], for a year of four digits. *)
Definition strftime (d : datetime) : string :=
  str_of_nat (year d) ++ "-" ++ pad2 (month d) ++ "-" ++ pad2 (day d) ++ " "
    ++ pad2 (hour d) ++ ":" ++ pad2 (minute d) ++ ":" ++ pad2 (second d).

End Datetime.
Import Datetime.

(** ** TgPostsParser and TgChannelParser *)

Module Tg.

Inductive Peer : Type :=
| PeerUser (user_id : Z)
| PeerChat (chat_id : Z)
| PeerChannel (channel_id : Z).

(** [message.forward]. *)
Record Forward : Type := mkForward {
  is_channel : bool;
  from_id : option Peer;
  channel_post : option Z;
  from_name : option string
}.

(** The attributes of a Telethon message that the parser reads.
    [reactions] holds the [count] of each entry of [reactions.results],
    [replies] holds [replies.replies]. *)
Record Message : Type := mkMessage {
  is_service : bool;
  grouped_id : option Z;
  reactions : option (list Z);
  replies : option Z;
  forward : option Forward;
  text : option string;
  id : Z;
  date : option datetime;
  views : option Z;
  forwards : option Z
}.

Record Channel : Type := mkChannel {
  username : option string
}.

(** The Telegram client: each call answers or raises. *)
Record TelegramClient : Type := mkClient {
  get_entity : string -> result Channel;
  get_entity_by_id : Z -> result Channel;
  get_messages : Channel -> result (list Message);
  get_full_channel : string -> result (option Z)
  (** [GetFullChannelRequest(link)], read at
      [.full_chat.participants_count] *)
}.

(** [tg_links_pattern]:
    [(?<=\]\()(?:https?://\S+)(?=\))|https?://\S+]. *)
Definition tg_links_pattern : Re.regex :=
  Re.Alt (Re.Seq (Re.Behind (list_ascii_of_string "]("))
                 (Re.Seq Re.url (Re.Ahead (list_ascii_of_string ")"))))
         Re.url.

Definition opt_str (o : option string) : string :=
  match o with Some s => s | None => "None" end.

Definition opt_Z_str (o : option Z) : string :=
  match o with Some z => str_of_Z z | None => "None" end.

(** [peer.channel_id]. *)
Definition channel_id_of (p : option Peer) : result Z :=
  match p with
  | Some (PeerChannel c) => Ok c
  | Some (PeerUser _) =>
      Raise (AttributeError "'PeerUser' object has no attribute 'channel_id'")
  | Some (PeerChat _) =>
      Raise (AttributeError "'PeerChat' object has no attribute 'channel_id'")
  | None =>
      Raise (AttributeError "'NoneType' object has no attribute 'channel_id'")
  end.

(** The link to the original post of a forward. *)
Definition original_channel_link (client : TelegramClient) (m : Message)
  : result (option string) :=
  match forward m with
  | Some f =>
      if is_channel f then
        (channel_id <- channel_id_of (from_id f) ;;
         channel <- get_entity_by_id client channel_id ;;
         Ok (Some ("https://t.me/" ++ opt_str (username channel) ++ "/"
                   ++ opt_Z_str (channel_post f))))%result
      else if truthy_str (from_name f) then
        Ok (Some ("Репост от " ++ opt_str (from_name f)))
      else Ok None
  | None => Ok None
  end.

(** The links found in the text of the post. *)
Definition links_in_post (m : Message) : option string :=
  if truthy_str (text m) then
    match Re.findall tg_links_pattern false (opt_str (text m)) with
    | [] => None
    | (_ :: _) as found => Some (Re.join ", " found)
    end
  else None.

Definition sum_Z (l : list Z) : Z := fold_left Z.add l 0%Z.

(** [message.date.strftime(...)]. *)
Definition date_str (m : Message) : result string :=
  match date m with
  | Some d => Ok (strftime d)
  | None =>
      Raise (AttributeError "'NoneType' object has no attribute 'strftime'")
  end.

(** [message_info] for one message of [channel_link]. *)
Definition message_info (client : TelegramClient) (channel_link : string)
    (m : Message) : result dict :=
  (original <- original_channel_link client m ;;
   let links := links_in_post m in
   when <- date_str m ;;
   Ok [ ("Канал", VStr channel_link);
        ("Пост", VStr (channel_link ++ "/" ++ str_of_Z (id m)));
        ("Текст поста", of_opt_str (text m));
        ("Дата-время", VStr when);
        ("Реакции", VInt (match reactions m with
                          | Some counts => sum_Z counts
                          | None => 0%Z
                          end));
        ("Комментарии", VInt (match replies m with
                              | Some n => n
                              | None => 0%Z
                              end));
        ("Просмотры", of_opt_Z (views m));
        ("Количество репостов", of_opt_Z (forwards m));
        ("Ссылка на оригинальный пост",
          VStr (match original with
                | Some s => if String.eqb s "" then "" else s
                | None => ""
                end));
        ("Ссылка в посте", of_opt_str links) ])%result.

(** [isinstance(message, MessageService) or message.grouped_id]. *)
Definition passed_over (m : Message) : bool :=
  is_service m ||
  match grouped_id m with
  | Some g => negb (Z.eqb g 0)
  | None => false
  end.

(** The loop over the messages of one channel.  It appends to the list of
    the whole run; an exception leaves what was appended before it. *)
Fixpoint messages_loop (client : TelegramClient) (channel_link : string)
    (messages : list Message) (tg_posts_info_list : list dict)
  : list dict * option exn :=
  match messages with
  | [] => (tg_posts_info_list, None)
  | m :: rest =>
      if passed_over m then
        messages_loop client channel_link rest tg_posts_info_list
      else
        match message_info client channel_link m with
        | Ok info =>
            messages_loop client channel_link rest
                          (tg_posts_info_list ++ [info])
        | Raise e => (tg_posts_info_list, Some e)
        end
  end.

(** The body of [try] for one channel. *)
Definition channel_posts (client : TelegramClient) (channel_link : string)
    (tg_posts_info_list : list dict) : list dict * option exn :=
  match get_entity client channel_link with
  | Raise e => (tg_posts_info_list, Some e)
  | Ok channel =>
      match get_messages client channel with
      | Raise e => (tg_posts_info_list, Some e)
      | Ok messages =>
          messages_loop client channel_link messages tg_posts_info_list
      end
  end.

Definition posts_info_line (channel_link : string) (counter : Z) : LogLine :=
  Info ("Получение постов из канале: " ++ channel_link ++ ".Осталось "
        ++ str_of_Z (counter - 1) ++ " канал(-а, -ов).").

Definition channel_error_line (channel_link : string) (e : exn) : LogLine :=
  Print ("Произошла ошибка при обработке канала " ++ channel_link ++ ": "
         ++ exn_str e).

(** The loop of [tg_posts_info_list] over the channel links; the pause
    between two links is not modelled. *)
Fixpoint posts_loop (client : TelegramClient) (channel_links : list string)
    (tg_groups_counter : Z) (tg_posts_info_list : list dict)
    (out : list LogLine) : list dict * list LogLine :=
  match channel_links with
  | [] => (tg_posts_info_list, out)
  | channel_link :: rest =>
      let out := (out ++ [posts_info_line channel_link tg_groups_counter])%list in
      match channel_posts client channel_link tg_posts_info_list with
      | (l, None) => posts_loop client rest (tg_groups_counter - 1) l out
      | (l, Some e) =>
          posts_loop client rest (tg_groups_counter - 1) l
                     (out ++ [channel_error_line channel_link e])
      end
  end.

(** [TgPostsParser.tg_posts_info_list]. *)
Definition tg_posts_info_list (client : TelegramClient)
    (channel_links : list string) : list dict * list LogLine :=
  posts_loop client channel_links (Z.of_nat (List.length channel_links)) [] [].

Definition channels_info_line (channel_link : string) (counter : Z) : LogLine :=
  Info ("Получение подписчиков канала: " ++ channel_link ++ ".Осталось "
        ++ str_of_Z (counter - 1) ++ " канал(-а, -ов).").

(** [channel_info] of [tg_channels_info_list]. *)
Definition channel_info (channel_link : string) (when : datetime)
    (subscribers_count : option Z) : dict :=
  [ ("Канал", VStr channel_link);
    ("Дата-время", VStr (strftime when));
    ("Количество подписчиков", of_opt_Z subscribers_count) ].

(** The loop of [tg_channels_info_list]; [now k] is the clock when the
    [k]-th link is handled. *)
Fixpoint channels_loop (client : TelegramClient) (now : nat -> datetime)
    (channel_links : list string) (k : nat) (tg_groups_counter : Z)
    (tg_channels_info_list : list dict) (out : list LogLine)
  : list dict * list LogLine :=
  match channel_links with
  | [] => (tg_channels_info_list, out)
  | channel_link :: rest =>
      let out := (out ++ [channels_info_line channel_link tg_groups_counter])%list in
      match get_full_channel client channel_link with
      | Raise e =>
          channels_loop client now rest (S k) (tg_groups_counter - 1)
                        tg_channels_info_list
                        (out ++ [channel_error_line channel_link e])
      | Ok subscribers_count =>
          channels_loop client now rest (S k) (tg_groups_counter - 1)
                        (tg_channels_info_list
                           ++ [channel_info channel_link (now k) subscribers_count])
                        out
      end
  end.

(** [TgChannelParser.tg_channels_info_list]. *)
Definition tg_channels_info_list (client : TelegramClient)
    (now : nat -> datetime) (channel_links : list string)
  : list dict * list LogLine :=
  channels_loop client now channel_links 0
                (Z.of_nat (List.length channel_links)) [] [].

End Tg.

(** ** VkPostsParser *)

Module Vk.

(** The last entry of ["copy_history"]. *)
Record Original : Type := mkOriginal {
  o_text : option string;
  o_owner_id : option Z;
  o_id : option Z
}.

Record Attachment : Type := mkAttachment {
  a_type : option string;
  a_video : option (option string)
  (** ["video"], read at [.get("description")] *)
}.

(** One item of [wall.get]; a key that is missing is [None]. *)
Record Post : Type := mkPost {
  owner_id : option Z;
  id : option Z;
  date : option Z;
  text : option string;
  copy_history : option (list Original);
  attachments : option (list Attachment);
  likes : option dict;
  reposts : option dict;
  comments : option dict;
  views : option dict
}.

Record HttpResponse : Type := mkHttpResponse {
  status_code : nat;
  items : result (list Post)
  (** [response.json()["response"]["items"]] *)
}.

(** What the parser calls outside itself. *)
Record Api : Type := mkApi {
  requests_get : string -> result HttpResponse;
  fromtimestamp : Z -> result datetime
}.

(** How a piece of the parser ends: a value, an exception that leaves it,
    or [sys.exit]. *)
Inductive Run (A : Type) : Type :=
| Finished (a : A)
| Crashed (e : exn)
| Exit (msg : string).

Arguments Finished {A} a.
Arguments Crashed {A} e.
Arguments Exit {A} msg.

(** [vk_domain_pattern]: any characters, [vk\.com/], the group of any
    characters, an optional [/], the end of the string. *)
Definition vk_domain_pattern : Re.regex :=
  Re.Seq (Re.Rep Re.dot 0 None)
    (Re.Seq (Re.lit "vk.com/")
       (Re.Seq (Re.Group (Re.Rep Re.dot 0 None))
          (Re.Seq (Re.Rep (Re.is_char "/") 0 (Some 1)) Re.Eos))).

(** [link_pattern], one group of two alternatives: [https?://\S+], or
    [[a-zA-Z0-9.-]+\.[a-zA-Z]{2,6}] followed by any run of [\S]. *)
Definition link_pattern : Re.regex :=
  Re.Group
    (Re.Alt Re.url
       (Re.Seq (Re.Rep (fun c => Re.is_alpha c || Re.is_digit c
                                 || Re.is_char "." c || Re.is_char "-" c)
                       1 None)
          (Re.Seq (Re.lit ".")
             (Re.Seq (Re.Rep Re.is_alpha 2 (Some 6))
                     (Re.RepAt Re.not_space 0))))).

(** [_get_vk_wall]: the list of posts, or [None] after a logged exception. *)
Definition _get_vk_wall (api : Api) (domain : string)
  : Run (option (list Post)) * list LogLine :=
  match requests_get api domain with
  | Raise error =>
      (Finished None, [Error ("Ошибка при получении постов: " ++ exn_str error)])
  | Ok response =>
      if negb (Nat.eqb (status_code response) 200) then
        (Exit ("Статус код не равен 200. Получен статус: "
               ++ str_of_nat (status_code response)), [])
      else
        match items response with
        | Ok data => (Finished (Some data), [])
        | Raise error =>
            (Finished None,
             [Error ("Ошибка при получении постов: " ++ exn_str error)])
        end
  end.

Definition need (key : string) (o : option Z) : result Z :=
  match o with Some z => Ok z | None => Raise (KeyError key) end.

(** [f'vk.com/wall{d["owner_id"]}_{d["id"]}']. *)
Definition wall_url (owner id : option Z) : result string :=
  (o <- need "owner_id" owner ;;
   i <- need "id" id ;;
   Ok ("vk.com/wall" ++ str_of_Z o ++ "_" ++ str_of_Z i))%result.

Definition truthy_list {A} (o : option (list A)) : bool :=
  match o with Some (_ :: _) => true | _ => false end.

(** [post[k].get("count") if post.get(k) else 0]. *)
Definition counter (o : option dict) : value :=
  match o with
  | Some ((_ :: _) as d) =>
      match dict_get d "count" with Some v => v | None => VNone end
  | _ => VInt 0
  end.

(** The text of the post, or of the video of its first attachment. *)
Definition post_text (post : Post) : result (option string) :=
  if negb (truthy_str (text post)) && truthy_list (attachments post) then
    match attachments post with
    | Some (a :: _) =>
        match a_type a with
        | Some "video" =>
            match a_video a with
            | Some description => Ok description
            | None => Raise (KeyError "video")
            end
        | _ => Ok (text post)
        end
    | _ => Ok (text post)
    end
  else Ok (text post).

Definition links_of (t : option string) : list string :=
  if truthy_str t then
    Re.findall link_pattern true (match t with Some s => s | None => "" end)
  else [].

Definition links_in_post (post_text original_post_text repost_text : option string)
  : option string :=
  if truthy_str post_text || truthy_str original_post_text
     || truthy_str repost_text then
    match (links_of post_text ++ links_of original_post_text
             ++ links_of repost_text)%list with
    | [] => None
    | (_ :: _) as links_collector => Some (Re.join ", " links_collector)
    end
  else None.

(** The dict built under [try]. *)
Definition post_info (api : Api) (link : string) (post : Post)
    (original_post_text post_text repost_text original_post_url
       links : option string) : result dict :=
  (url <- wall_url (owner_id post) (id post) ;;
   stamp <- match date post with
            | Some d => Ok d
            | None => Raise (KeyError "date")
            end ;;
   when <- fromtimestamp api stamp ;;
   Ok [ ("Группа", VStr link);
        ("Пост", VStr url);
        ("Текст оригинального поста",
          VStr ("'" ++ py_str (of_opt_str (if truthy_str original_post_text
                                           then original_post_text
                                           else post_text))));
        ("Дата-время", VStr (strftime when));
        ("Лайки", counter (likes post));
        ("Репосты", counter (reposts post));
        ("Комментарии", counter (comments post));
        ("Просмотры", counter (views post));
        ("Текст репоста", of_opt_str repost_text);
        ("Ссылка на оригинальный пост", of_opt_str original_post_url);
        ("Ссылка в посте", of_opt_str links) ])%result.

(** What one post of the wall adds: a record, or a logged error; an
    exception outside [try], or inside the handler, leaves the loop. *)
Definition normalize (api : Api) (link : string) (post : Post)
  : result (option dict * list LogLine) :=
  (repost <-
     (if truthy_list (copy_history post) then
        let original_post :=
          last (match copy_history post with Some h => h | None => [] end)
               (mkOriginal None None None) in
        url <- wall_url (o_owner_id original_post) (o_id original_post) ;;
        Ok (o_text original_post, text post, Some url)
      else Ok (None, None, None)) ;;
   let '(original_post_text, repost_text, original_post_url) := repost in
   post_text <- post_text post ;;
   let links := links_in_post post_text original_post_text repost_text in
   match post_info api link post original_post_text post_text repost_text
                   original_post_url links with
   | Ok info => Ok (Some info, [])
   | Raise error =>
       url <- wall_url (owner_id post) (id post) ;;
       Ok (None, [Error ("Ошибка при получении постов: " ++ exn_str error
                         ++ "," ++ String (ascii_of_nat 10) ""
                         ++ "Проблемный пост: " ++ url)])
   end)%result.

(** The loop over the posts of one wall. *)
Fixpoint wall_loop (api : Api) (link : string) (data : list Post)
    (vk_posts_info_list : list dict) (out : list LogLine)
  : result (list dict) * list LogLine :=
  match data with
  | [] => (Ok vk_posts_info_list, out)
  | post :: rest =>
      match normalize api link post with
      | Ok (Some info, lines) =>
          wall_loop api link rest (vk_posts_info_list ++ [info]) (out ++ lines)
      | Ok (None, lines) =>
          wall_loop api link rest vk_posts_info_list (out ++ lines)
      | Raise e => (Raise e, out)
      end
  end.

Definition wall_info_line (domain : string) (counter : Z) : LogLine :=
  Info ("Получение постов из группы " ++ domain ++ ".Осталось "
        ++ str_of_Z (counter - 1) ++ " групп(-ы, -а).").

(** The loop of [vk_posts_info_list] over the links.  [_get_vk_wall] may
    answer [None], and [for post in None] raises. *)
Fixpoint links_loop (api : Api) (links : list string) (vk_groups_counter : Z)
    (vk_posts_info_list : list dict) (out : list LogLine)
  : Run (list dict) * list LogLine :=
  match links with
  | [] => (Finished vk_posts_info_list, out)
  | link :: rest =>
      match Re.search_group vk_domain_pattern [] (list_ascii_of_string link) with
      | None =>
          (Crashed (AttributeError
                      "'NoneType' object has no attribute 'group'"), out)
      | Some group1 =>
          let domain :=
            match group1 with
            | Some g => string_of_list_ascii g
            | None => "None"
            end in
          let out := (out ++ [wall_info_line domain vk_groups_counter])%list in
          match _get_vk_wall api domain with
          | (Exit msg, lines) => (Exit msg, (out ++ lines)%list)
          | (Crashed e, lines) => (Crashed e, (out ++ lines)%list)
          | (Finished None, lines) =>
              (Crashed (TypeError "'NoneType' object is not iterable"),
               (out ++ lines)%list)
          | (Finished (Some data), lines) =>
              match wall_loop api link data vk_posts_info_list
                              (out ++ lines)%list with
              | (Ok l, out') =>
                  links_loop api rest (vk_groups_counter - 1) l out'
              | (Raise e, out') => (Crashed e, out')
              end
          end
      end
  end.

(** [VkPostsParser.vk_posts_info_list]. *)
Definition vk_posts_info_list (api : Api) (links : list string)
  : Run (list dict) * list LogLine :=
  links_loop api links (Z.of_nat (List.length links)) [] [].

End Vk.

(** ** The runs of the Telegram parsers *)

Module TgRun.

Definition with_output (out : list LogLine) (w : World) : World :=
  mkWorld (sheet w) (reads w) (issued w) (log w ++ out).

(** [TgPostsParser.run_tg_posts_parser]. *)
Definition run_tg_posts_parser (client : Tg.TelegramClient)
    (channel_links : list string) (tg_spreadsheet_id : string) : M unit :=
  fun w =>
    let (posts_info_list, out) := Tg.tg_posts_info_list client channel_links in
    BaseParser.run_google_upsert tg_spreadsheet_id posts_info_list
      "tg_posts_parser" (with_output out w).

(** [TgChannelParser.run_tg_channels_parser]. *)
Definition run_tg_channels_parser (client : Tg.TelegramClient)
    (now : nat -> datetime) (channel_links : list string)
    (tg_channels_spreadsheet_id : string) : M unit :=
  fun w =>
    let (channels_info_list, out) :=
      Tg.tg_channels_info_list client now channel_links in
    BaseParser._insert_new_rows tg_channels_spreadsheet_id channels_info_list
      "tg_channel_parser" (with_output out w).

End TgRun.

(** ** get_links_from_google *)

Module Links.

(** The loop over the rows of the links sheet: a row of one cell gives a
    link to posts, a row of two cells gives a link to posts, if the first
    cell is not empty, and a link to a channel; any other row gives
    nothing. *)
Fixpoint rows_loop (data : list (list string))
    (posts_parsing_links channels_parsing_links : list string)
  : list string * list string :=
  match data with
  | [] => (posts_parsing_links, channels_parsing_links)
  | elem :: rest =>
      match elem with
      | [a] => rows_loop rest (posts_parsing_links ++ [a]) channels_parsing_links
      | [a; b] =>
          rows_loop rest
            (if String.eqb a "" then posts_parsing_links
             else posts_parsing_links ++ [a])
            (channels_parsing_links ++ [b])
      | _ => rows_loop rest posts_parsing_links channels_parsing_links
      end
  end.

(** [get_links_from_google]: the two lists, or [None] after a logged
    exception. *)
Definition get_links_from_google (all_links_spreadsheet_id : string)
  : M (option (list string * list string)) :=
  try_except
    (response <- values_get all_links_spreadsheet_id "Лист1!A2:B" ;;
     match response with
     | Some data => ret (Some (rows_loop data [] []))
     | None => lift (Raise (TypeError "'NoneType' object is not iterable"))
     end)%sheets
    (fun error =>
       write_log (Error ("Ошибка при получении существующих данных из Google Sheets: "
                         ++ exn_str error)) ;;;
       ret None)%sheets.

End Links.

(** ** VkChannelParser *)

Module VkChannel.

(** The decoded answer of [groups.getMembers]: its ["error"] and its
    ["response"], each a dict when present. *)
Record ChannelData : Type := mkChannelData {
  error : option dict;
  response : option dict
}.

Record HttpResponse : Type := mkHttpResponse {
  status_code : nat;
  json : result ChannelData
}.

Record Api : Type := mkApi {
  requests_get : string -> result HttpResponse
}.

(** [get_channel_info]: the decoded answer, or [None] after a logged
    exception. *)
Definition get_channel_info (api : Api) (domain : string)
  : Vk.Run (option ChannelData) * list LogLine :=
  match requests_get api domain with
  | Raise error =>
      (Vk.Finished None,
       [Error ("Ошибка при получении информации о канале: " ++ exn_str error)])
  | Ok response =>
      if negb (Nat.eqb (status_code response) 200) then
        (Vk.Exit ("Статус код не равен 200. Получен статус: "
                  ++ str_of_nat (status_code response)), [])
      else
        match json response with
        | Ok data => (Vk.Finished (Some data), [])
        | Raise error =>
            (Vk.Finished None,
             [Error ("Ошибка при получении информации о канале: "
                     ++ exn_str error)])
        end
  end.

Definition truthy_dict (o : option dict) : bool :=
  match o with Some (_ :: _) => true | _ => false end.

(** [d.get(k)] on a dict that is there. *)
Definition get (o : option dict) (k : string) : value :=
  match o with
  | Some d => match dict_get d k with Some v => v | None => VNone end
  | None => VNone
  end.

(** [api_response.get("count", 0) if api_response else 0]. *)
Definition subscribers (api_response : option dict) : value :=
  if truthy_dict api_response then
    match api_response with
    | Some d => match dict_get d "count" with Some v => v | None => VInt 0 end
    | None => VInt 0
    end
  else VInt 0.

Definition members_line (domain : string) (counter : Z) : LogLine :=
  Info ("Получение подписчиков канала: " ++ domain ++ ". Осталось "
        ++ str_of_Z (counter - 1) ++ " канал(-а, -ов).").

Definition hidden_line (domain : string) : LogLine :=
  Info ("Канал " ++ domain ++ " скрыл количество подписчиков.").

Definition channel_record (link : string) (when : datetime) (count : value) : dict :=
  [ ("Канал", VStr link);
    ("Дата-время", VStr (strftime when));
    ("Количество подписчиков", count) ].

(** The loop of [vk_channel_info_list]; [now k] is the clock when the
    [k]-th link is handled.  [match] looks for the pattern at the start of
    the link only. *)
Fixpoint channels_loop (api : Api) (now : nat -> datetime)
    (channel_links : list string) (k : nat) (vk_channels_counter : Z)
    (vk_channel_info_list : list dict) (out : list LogLine)
  : Vk.Run (list dict) * list LogLine :=
  match channel_links with
  | [] => (Vk.Finished vk_channel_info_list, out)
  | link :: rest =>
      match Re.match_here Vk.vk_domain_pattern [] (list_ascii_of_string link) with
      | None =>
          (Vk.Crashed (AttributeError
                         "'NoneType' object has no attribute 'group'"), out)
      | Some (_, _, group1) =>
          let domain :=
            match group1 with
            | Some g => string_of_list_ascii g
            | None => "None"
            end in
          let out := (out ++ [members_line domain vk_channels_counter])%list in
          match get_channel_info api domain with
          | (Vk.Exit msg, lines) => (Vk.Exit msg, (out ++ lines)%list)
          | (Vk.Crashed e, lines) => (Vk.Crashed e, (out ++ lines)%list)
          | (Vk.Finished None, lines) =>
              (Vk.Crashed (AttributeError
                             "'NoneType' object has no attribute 'get'"),
               (out ++ lines)%list)
          | (Vk.Finished (Some channel_data), lines) =>
              let out := (out ++ lines)%list in
              if truthy_dict (error channel_data)
                 && value_eqb (get (error channel_data) "error_msg")
                              (VStr "Access denied: group hide members")
              then
                channels_loop api now rest (S k) (vk_channels_counter - 1)
                              vk_channel_info_list
                              (out ++ [hidden_line domain])
              else
                channels_loop api now rest (S k) (vk_channels_counter - 1)
                              (vk_channel_info_list
                                 ++ [channel_record link (now k)
                                       (subscribers (response channel_data))])
                              out
          end
      end
  end.

(** [VkChannelParser.vk_channel_info_list]. *)
Definition vk_channel_info_list (api : Api) (now : nat -> datetime)
    (channel_links : list string) : Vk.Run (list dict) * list LogLine :=
  channels_loop api now channel_links 0
                (Z.of_nat (List.length channel_links)) [] [].

End VkChannel.

(** ** JSON values, as Python reads them *)

Module Json.

#[local] Set Warnings "-register-all".

Inductive json : Type :=
| JNull
| JBool (b : bool)
| JNum (z : Z)
| JStr (s : string)
| JArr (l : list json)
| JObj (o : list (string * json)).

Definition truthy (j : json) : bool :=
  match j with
  | JNull => false
  | JBool b => b
  | JNum z => negb (Z.eqb z 0)
  | JStr s => negb (String.eqb s "")
  | JArr l => match l with [] => false | _ :: _ => true end
  | JObj o => match o with [] => false | _ :: _ => true end
  end.

Fixpoint lookup (o : list (string * json)) (k : string) : option json :=
  match o with
  | [] => None
  | (k', v) :: o' => if String.eqb k' k then Some v else lookup o' k
  end.

Definition type_name (j : json) : string :=
  match j with
  | JNull => "NoneType"
  | JBool _ => "bool"
  | JNum _ => "int"
  | JStr _ => "str"
  | JArr _ => "list"
  | JObj _ => "dict"
  end.

(** [j.get(k)]: only a dict has [get]. *)
Definition get (j : json) (k : string) : result json :=
  match j with
  | JObj o => Ok (match lookup o k with Some v => v | None => JNull end)
  | _ => Raise (AttributeError ("'" ++ type_name j
                                ++ "' object has no attribute 'get'"))
  end.

(** [j[k]] for a string [k]. *)
Definition item (j : json) (k : string) : result json :=
  match j with
  | JObj o =>
      match lookup o k with
      | Some v => Ok v
      | None => Raise (KeyError k)
      end
  | JArr _ => Raise (TypeError "list indices must be integers or slices, not str")
  | JStr _ => Raise (TypeError "string indices must be integers, not 'str'")
  | _ => Raise (TypeError ("'" ++ type_name j ++ "' object is not subscriptable"))
  end.

(** [j[0]]; on a dict it is the key 0, which no decoded object has. *)
Definition item0 (j : json) : result json :=
  match j with
  | JArr (x :: _) => Ok x
  | JArr [] => Raise IndexError
  | JStr (String c _) => Ok (JStr (String c ""))
  | JStr EmptyString => Raise IndexError
  | JObj _ => Raise (KeyError "0")
  | _ => Raise (TypeError ("'" ++ type_name j ++ "' object is not subscriptable"))
  end.

(** [for x in j]: the elements of a list, the keys of a dict, the
    characters of a string. *)
Definition iter (j : json) : result (list json) :=
  match j with
  | JArr l => Ok l
  | JObj o => Ok (map (fun kv => JStr (fst kv)) o)
  | JStr s => Ok (map (fun c => JStr (String c "")) (list_ascii_of_string s))
  | _ => Raise (TypeError ("'" ++ type_name j ++ "' object is not iterable"))
  end.

Fixpoint mapM {A B} (f : A -> result B) (l : list A) : result (list B) :=
  match l with
  | [] => Ok []
  | a :: l' => (b <- f a ;; bs <- mapM f l' ;; Ok (b :: bs))%result
  end.

Definition is_null (j : json) : bool :=
  match j with JNull => true | _ => false end.

(** The strings of a list that [str.join] accepts. *)
Fixpoint strings (n : nat) (l : list json) : result (list string) :=
  match l with
  | [] => Ok []
  | JStr s :: l' => (ss <- strings (S n) l' ;; Ok (s :: ss))%result
  | j :: _ =>
      Raise (TypeError ("sequence item " ++ str_of_nat n
                        ++ ": expected str instance, " ++ type_name j
                        ++ " found"))
  end.

(** [sep.join(l)]. *)
Definition join (sep : string) (l : list json) : result string :=
  (ss <- strings 0 l ;; Ok (Re.join sep ss))%result.

End Json.
Import Json.

(** ** The Notion tables: TasksDbParser and the write of BaseNotionParser *)

Module NotionTables.

(** A record of [table_info_list]: a dict in the order of its keys. *)
Definition record : Type := list (string * json).

(** [title[0].get("plain_text")] under [if p.get("title")]. *)
Definition title_text (p : json) : result json :=
  (t <- get p "title" ;;
   if truthy t then (e <- item0 t ;; get e "plain_text") else Ok JNull)%result.

(** [p.get(k1).get(k2)] under [if p.get(k1)]. *)
Definition sub (k1 k2 : string) (p : json) : result json :=
  (d <- get p k1 ;; if truthy d then get d k2 else Ok JNull)%result.

(** The names of the entries of [p.get(key)], joined by [", "]; with
    [filtered] the entries without a name are left out first. *)
Definition names (key : string) (filtered : bool) (p : json) : result json :=
  (l <- get p key ;;
   if truthy l then
     (xs <- iter l ;;
      ns <- mapM (fun e => get e "name") xs ;;
      s <- join ", " (if filtered then filter (fun n => negb (is_null n)) ns
                      else ns) ;;
      Ok (JStr s))
   else Ok JNull)%result.

(** [p.get("unique_id").get("number")], without a test. *)
Definition organic (p : json) : result json :=
  (u <- get p "unique_id" ;; get u "number")%result.

(** The [match] on [p.get("checkbox")]. *)
Definition checkbox (p : json) : result json :=
  (c <- get p "checkbox" ;;
   Ok (match c with
       | JBool true => JStr "Да"
       | JBool false => JStr "Нет"
       | _ => JNull
       end))%result.

(** The columns of [TasksDbParser.table_info_list], in the order the code
    computes them, which is the order of the keys of its dict. *)
Definition tasks_columns : list (string * (json -> result json)) :=
  [ ("Задача", title_text);
    ("Дедлайн [Р]", sub "date" "start");
    ("Назначен", names "people" true);
    ("Статус [Р]", sub "select" "name");
    ("Публикация (автоматическое поле)", sub "date" "start");
    ("UTM", sub "formula" "string");
    ("organic", organic);
    ("Гибкая публикация", checkbox);
    ("Дедлайн [К-П]", sub "date" "start");
    ("Статус [К-П]", sub "select" "name");
    ("Срочность [Дизайн]", sub "select" "name");
    ("Статус [Дайджест]", sub "select" "name");
    ("Статус [Д]", sub "select" "name");
    ("Сегмент", names "multi_select" true);
    ("Дедлайн[Д]", sub "date" "start");
    ("Группа", names "multi_select" true);
    ("Не использовать 1", names "people" false);
    ("Не использовать 2", names "people" false);
    ("Не использовать 3", names "people" false);
    ("Компания", names "multi_select" true) ].

(** The body of the loop of [TasksDbParser.table_info_list] for one record
    of the database. *)
Definition tasks_record (rec : json) : result record :=
  (properties <- item rec "properties" ;;
   mapM (fun column : string * (json -> result json) =>
           let (name, extract) := column in
           p <- item properties name ;;
           v <- extract p ;;
           Ok (name, v))
        tasks_columns)%result.

(** How the read of the database ends. *)
Inductive Fetched : Type :=
| Table (rows : list record)
| Failed (e : exn)
| Unfinished.



Definition tasks_headers : list string :=
  [ "Задача"; "Дедлайн [Р]"; "Назначен"; "Статус [Р]";
    "Публикация (автоматическое поле)"; "UTM"; "organic";
    "Гибкая публикация"; "Дедлайн [К-П]"; "Статус [К-П]";
    "Срочность [Дизайн]"; "Статус [Дайджест]"; "Статус [Д]"; "Сегмент";
    "Дедлайн[Д]"; "Группа"; "Не использовать 1"; "Не использовать 2";
    "Не использовать 3"; "Компания" ].

Definition urls_headers : list string :=
  [ ""; "URL"; "URL&UTM"; "Группа"; "utm_medium"; "utm_campaign"; "utm_tern";
    "Database ID"; "Инфоповод"; "Направления"; "Owner"; "Сегмент";
    "Основная задача" ].

(** [_get_table_headers]: a list of one row, or [None] for a flag that
    matches no case. *)
Definition _get_table_headers (parser_flag : string)
  : option (list (list string)) :=
  if String.eqb parser_flag "tasks" then Some [tasks_headers]
  else if String.eqb parser_flag "urls" then Some [urls_headers]
  else None.

Definition row_item (row : record) (k : string) : result json :=
  match lookup row k with
  | Some v => Ok v
  | None => Raise (KeyError k)
  end.

(** [_get_row_from_table]: the values of the record under the keys the code
    lists for the flag. *)
Definition _get_row_from_table (parser_flag : string) (row : record)
  : result (option (list json)) :=
  if String.eqb parser_flag "tasks" then
    (r <- mapM (row_item row)
            [ "Задача"; "Дедлайн [Р]"; "Назначен"; "Статус [Р]";
              "Публикация (автоматическое поле)"; "UTM"; "organic";
              "Гибкая публикация"; "Дедлайн [К-П]"; "Статус [К-П]";
              "Срочность [Дизайн]"; "Статус [Дайджест]"; "Статус [Д]";
              "Сегмент"; "Дедлайн[Д]"; "Группа"; "Не использовать 1";
              "Не использовать 2"; "Не использовать 3"; "Компания" ] ;;
     Ok (Some r))%result
  else if String.eqb parser_flag "urls" then
    (r <- mapM (row_item row)
            [ ""; "URL"; "URL&UTM"; "Группа"; "utm_medium"; "utm_campaign";
              "utm_tern"; "Database ID"; "Инфоповод"; "Направления"; "Owner";
              "Сегмент"; "Основная задача" ] ;;
     Ok (Some r))%result
  else Ok None.

(** [_make_sheet_ready_data]. *)
Definition _make_sheet_ready_data (parser_flag : string)
    (table_info_list : list record) : result (list (option (list json))) :=
  mapM (_get_row_from_table parser_flag) table_info_list.

(** The calls made on the Google service. *)
Inductive Call : Type :=
| Clear (spreadsheetId range : string)
| BatchUpdate (spreadsheetId valueInputOption range majorDimension : string)
              (values : list (option (list json)))
| Close.


(** What a piece of the run leaves behind: the calls made on the service
    and the lines logged so far, in order, with its value or the exception
    that ended it. *)
Definition Ran (A : Type) : Type := (list Call * list LogLine * result A)%type.

Definition ret {A} (a : A) : Ran A := ([], [], Ok a).

Definition lift {A} (r : result A) : Ran A := ([], [], r).

Definition bind {A B} (m : Ran A) (f : A -> Ran B) : Ran B :=
  let '(calls, lines, r) := m in
  match r with
  | Ok a =>
      let '(calls', lines', r') := f a in
      ((calls ++ calls')%list, (lines ++ lines')%list, r')
  | Raise e => (calls, lines, Raise e)
  end.



Declare Scope ran_scope.
Delimit Scope ran_scope with ran.
Notation "x <- m ;; k" := (bind m (fun x => k))
  (at level 61, m at next level, right associativity) : ran_scope.
Notation "m ;;; k" := (bind m (fun _ => k))
  (at level 61, right associativity) : ran_scope.

(** [self.table_info_list], as [_google_sheet_handling] sees it: the list,
    or the exception that ended the property. *)
Definition table_info_list (fetched : Fetched) : option (Ran (list record)) :=
  match fetched with
  | Table rows => Some (ret rows)
  | Failed e => Some (lift (Raise e))
  | Unfinished => None
  end.



End NotionTables.

(** * Vocabulary of the properties *)

Unset Implicit Arguments.
Import BaseParser.

(** The identity of a record is found in the snapshot. *)
Definition matched (existing : list string) (post : dict) : bool :=
  match dict_get post "Пост" with
  | Some link => contains existing link
  | None => false
  end.

Definition has_identity (post : dict) : Prop :=
  dict_get post "Пост" <> None.

(** [r] addresses the row that [existing] gives to the identity of its
    record. *)
Definition addressed_from (existing : list string) (letter : string)
    (r : ValueRange) : Prop :=
  exists row link i,
    values r = [row] /\
    row_item1 row = Ok link /\
    index existing link = Some i /\
    range r = update_range (i + 2) letter.

(** A record of the Telegram or the VK posts normalizer, with its flag. *)
Definition produced (post : dict) (parser_flag : string) : Prop :=
  (parser_flag = "tg_posts_parser" /\
   exists client channel_link m,
     Tg.message_info client channel_link m = Ok post) \/
  (parser_flag = "vk_posts_parser" /\
   exists api link p lines,
     Vk.normalize api link p = Ok (Some post, lines)).

(** The records of the messages [ms] of [channel_link] that are not passed
    over. *)
Definition normalized (client : Tg.TelegramClient) (channel_link : string)
    (ms : list Tg.Message) : list dict :=
  flat_map (fun m =>
              if Tg.passed_over m then []
              else match Tg.message_info client channel_link m with
                   | Ok info => [info]
                   | Raise _ => []
                   end) ms.

Definition normalizes (client : Tg.TelegramClient) (channel_link : string)
    (m : Tg.Message) : Prop :=
  Tg.passed_over m = true \/
  exists info, Tg.message_info client channel_link m = Ok info.

(** The records of the channels that answer, with the clock of their turn. *)
Fixpoint channel_records (client : Tg.TelegramClient) (now : nat -> datetime)
    (k : nat) (channel_links : list string) : list dict :=
  match channel_links with
  | [] => []
  | l :: rest =>
      match Tg.get_full_channel client l with
      | Ok count =>
          Tg.channel_info l (now k) count :: channel_records client now (S k) rest
      | Raise _ => channel_records client now (S k) rest
      end
  end.

(** * Sample data *)

Definition sample_post (link : value) : dict :=
  [ ("Канал", VStr "https://t.me/c"); ("Пост", link);
    ("Текст поста", VNone); ("Дата-время", VStr "2024-05-01 10:00:00");
    ("Реакции", VInt 0); ("Комментарии", VInt 0); ("Просмотры", VInt 7);
    ("Количество репостов", VInt 0); ("Ссылка на оригинальный пост", VStr "");
    ("Ссылка в посте", VNone) ].

(** A sheet that answers every read of column B with [column_b], and every
    read of column A with [column_a]. *)
Definition fixed_sheet (column_a column_b : list (list string))
  : nat -> string -> Response :=
  fun _ rng =>
    if String.eqb rng "Лист1!B2:B" then Values (Some column_b)
    else Values (Some column_a).

Definition fresh_world (s : nat -> string -> Response) : World :=
  mkWorld s 0 [] [].

(** A sheet edited between the two reads of column B: the first read sees
    ["a"] above ["b"], every later read sees ["b"] above ["a"]. *)
Definition edited_sheet : nat -> string -> Response :=
  fun n rng =>
    if String.eqb rng "Лист1!B2:B" then
      match n with
      | 0 => Values (Some [["a"]; ["b"]])
      | S _ => Values (Some [["b"]; ["a"]])
      end
    else Values (Some [["Канал"]; ["c"]; ["c"]]).

Definition sample_row (link : string) : option (list value) :=
  Some [ VStr "https://t.me/c"; VStr link; VNone; VStr "2024-05-01 10:00:00";
         VInt 0; VInt 0; VInt 7; VInt 0; VStr ""; VNone ].

(** Three pages of 10, 10 and 4 records, chained by the cursors ["c1"] and
    ["c2"]; the last page reports [has_more] false. *)
Definition page1 : Notion.Page nat :=
  Notion.mkPage (Some (seq 1 10)) (Some true) (Some "c1").
Definition page2 : Notion.Page nat :=
  Notion.mkPage (Some (seq 11 10)) (Some true) (Some "c2").
Definition page3 : Notion.Page nat :=
  Notion.mkPage (Some (seq 21 4)) (Some false) None.

Definition three_pages : nat -> option string -> result (Notion.Page nat) :=
  fun _ start_cursor =>
    match start_cursor with
    | None => Ok page1
    | Some c =>
        if String.eqb c "c1" then Ok page2
        else if String.eqb c "c2" then Ok page3
        else Raise (HttpError "bad cursor")
    end.

Definition sample_date : datetime := mkDatetime 2024 5 1 9 0 7.

(** A plain post, and the same post without a date: its [strftime] raises. *)
Definition plain_message (i : Z) : Tg.Message :=
  Tg.mkMessage false None None None None (Some "hello") i (Some sample_date)
               (Some 7%Z) (Some 0%Z).

Definition undated_message (i : Z) : Tg.Message :=
  Tg.mkMessage false None None None None (Some "hello") i None
               (Some 7%Z) (Some 0%Z).

(** A forward from a user named X, and a forward of post 5 of channel 100. *)
Definition forwarded_from_user : Tg.Message :=
  Tg.mkMessage false None None None
    (Some (Tg.mkForward false None None (Some "X")))
    (Some "see http://a.co and [link](https://b.co)") 5%Z (Some sample_date)
    None None.

Definition forwarded_from_channel : Tg.Message :=
  Tg.mkMessage false None (Some [1; 2; 3]%Z) (Some 4%Z)
    (Some (Tg.mkForward true (Some (Tg.PeerChannel 100)) (Some 5%Z) None))
    (Some "") 6%Z (Some sample_date) (Some 9%Z) (Some 1%Z).

(** A client that knows the channels a and b, and channel 100 as c; the
    second message of a has no date, and the link gone does not resolve. *)
Definition sample_client : Tg.TelegramClient :=
  Tg.mkClient
    (fun link =>
       if String.eqb link "https://t.me/gone"
       then Raise (ValueError "No user has gone as username")
       else Ok (Tg.mkChannel (Some link)))
    (fun channel_id =>
       if Z.eqb channel_id 100 then Ok (Tg.mkChannel (Some "c"))
       else Raise (ValueError "Could not find the input entity"))
    (fun channel =>
       match Tg.username channel with
       | Some "https://t.me/a" =>
           Ok [plain_message 1; undated_message 2; plain_message 3]
       | Some "https://t.me/b" => Ok [plain_message 4]
       | _ => Ok []
       end)
    (fun link =>
       if String.eqb link "https://t.me/gone"
       then Raise (ValueError "No user has gone as username")
       else Ok (Some 10%Z)).

Definition sample_vk_post : Vk.Post :=
  Vk.mkPost (Some (-1)%Z) (Some 2%Z) (Some 0%Z) (Some "text vk.com/x") None None
            (Some [("count", VInt 3)]) None (Some [("can_post", VInt 1)])
            (Some []).

Definition sample_api : Vk.Api :=
  Vk.mkApi
    (fun domain =>
       if String.eqb domain "down" then Raise (HttpError "Connection refused")
       else if String.eqb domain "limited"
            then Ok (Vk.mkHttpResponse 429 (Raise (KeyError "response")))
            else Ok (Vk.mkHttpResponse 200 (Ok [sample_vk_post])))
    (fun _ => Ok sample_date).

Definition sample_links : list string :=
  ["https://t.me/a"; "https://t.me/gone"; "https://t.me/b"].

(** * Vocabulary of the further properties *)

(** What [_get_existing_posts] makes of the answer to its read: the first
    cells, or nothing when the read raises, the body has no values, or a row
    has no cell. *)
Definition snapshot_of (r : Response) : list string :=
  match r with
  | Values (Some rows) =>
      match first_cells rows with
      | Ok cells => cells
      | Raise _ => []
      end
  | _ => []
  end.

(** The line [_get_existing_posts] logs for the answer, if any. *)
Definition snapshot_log (r : Response) : list LogLine :=
  let line e :=
    [Error ("Ошибка при получении существующих данных из Google Sheets: "
            ++ exn_str e)] in
  match r with
  | HttpFail msg => line (HttpError msg)
  | Values (Some rows) =>
      match first_cells rows with
      | Ok _ => []
      | Raise e => line e
      end
  | Values None => []
  end.

(** The world after one read of the identity column. *)
Definition after_snapshot (sid : string) (w : World) : World :=
  mkWorld (sheet w) (S (reads w))
          (issued w ++ [Get sid "Лист1!B2:B"])
          (log w ++ snapshot_log (sheet w (reads w) "Лист1!B2:B")).

Definition posts_flag (parser_flag : string) : Prop :=
  parser_flag = "tg_posts_parser" \/ parser_flag = "vk_posts_parser".

(** A row and the record it was projected from share their identity. *)
Definition row_of (post : dict) (row : option (list value)) : Prop :=
  exists link, getitem post "Пост" = Ok link /\ row_item1 row = Ok link.

(** The row of a record whose keys are the columns of its parser, in their
    order. *)
Definition row_of_record (d : dict) : option (list value) := Some (map snd d).

Definition newline : string := String (ascii_of_nat 10) "".

(** The line [vk_posts_info_list] logs for a post it could not build. *)
Definition vk_post_error_line (e : exn) (owner id : Z) : LogLine :=
  Error ("Ошибка при получении постов: " ++ exn_str e ++ "," ++ newline
         ++ "Проблемный пост: vk.com/wall" ++ str_of_Z owner ++ "_"
         ++ str_of_Z id).

(** A post that is no repost and whose text needs no video. *)
Definition plain_vk_post (post : Vk.Post) : Prop :=
  Vk.truthy_list (Vk.copy_history post) = false /\
  Vk.truthy_list (Vk.attachments post) = false.

(** The last entry of the history of a repost. *)
Definition original_of (post : Vk.Post) : Vk.Original :=
  last (match Vk.copy_history post with Some h => h | None => [] end)
       (Vk.mkOriginal None None None).

(** The statements of [vk_posts_info_list] that stand before [try] do not
    raise for the post: the original of a repost has its owner and its id,
    and the first attachment of a post without text, when it is a video,
    has its video. *)
Definition original_is_whole (post : Vk.Post) : Prop :=
  Vk.truthy_list (Vk.copy_history post) = true ->
  Vk.o_owner_id (original_of post) <> None /\
  Vk.o_id (original_of post) <> None.

Definition video_is_there (post : Vk.Post) : Prop :=
  truthy_str (Vk.text post) = false ->
  forall a l,
    Vk.attachments post = Some (a :: l) ->
    Vk.a_type a = Some "video" -> Vk.a_video a <> None.

Definition reaches_try (post : Vk.Post) : Prop :=
  original_is_whole post /\ video_is_there post.

(** What [vk_posts_info_list] takes from a repost: the text of the original
    post, the text of the repost and the link to the original post. *)
Definition repost_of (post : Vk.Post)
  : result (option string * option string * option string) :=
  if Vk.truthy_list (Vk.copy_history post) then
    let original_post :=
      last (match Vk.copy_history post with Some h => h | None => [] end)
           (Vk.mkOriginal None None None) in
    (url <- Vk.wall_url (Vk.o_owner_id original_post) (Vk.o_id original_post) ;;
     Ok (Vk.o_text original_post, Vk.text post, Some url))%result
  else Ok (None, None, None).

(** The links collected from the three texts of a VK post, before they are
    joined. *)
Definition links_collector (post_text original_post_text repost_text : option string)
  : list string :=
  (Vk.links_of post_text ++ Vk.links_of original_post_text
     ++ Vk.links_of repost_text)%list.

Definition joined_links (links : list string) : value :=
  match links with
  | [] => VNone
  | _ :: _ => VStr (Re.join ", " links)
  end.

(** The class [f] holds at every position of [s], when [after] follows. *)
Fixpoint all_at (f : list ascii -> bool) (s after : list ascii) : Prop :=
  match s with
  | [] => True
  | c :: s' => f (c :: s' ++ after)%list = true /\ all_at f s' after
  end.

(** The strings a pattern can consume when [after] follows them. *)
Fixpoint consumes (r : Re.regex) (s after : list ascii) : Prop :=
  match r with
  | Re.Lit t => s = t
  | Re.Cls f => exists c, s = [c] /\ f c = true
  | Re.Rep f lo hi =>
      Forall (fun c => f c = true) s /\
      lo <= List.length s /\
      match hi with Some h => List.length s <= h | None => True end
  | Re.RepAt f lo => all_at f s after /\ lo <= List.length s
  | Re.Seq r1 r2 =>
      exists s1 s2,
        s = (s1 ++ s2)%list /\
        consumes r1 s1 (s2 ++ after)%list /\ consumes r2 s2 after
  | Re.Alt r1 r2 => consumes r1 s after \/ consumes r2 s after
  | Re.Group r1 => consumes r1 s after
  | Re.Behind _ => s = []
  | Re.Ahead _ => s = []
  | Re.Eos => s = []
  end.

(** [p] occurs in [t]. *)
Definition occurs (p t : string) : Prop :=
  exists a b, t = a ++ p ++ b.

Definition one_line (t : string) : Prop :=
  Forall (fun c => Re.dot c = true) (list_ascii_of_string t).

(** The links that one row of the links sheet gives. *)
Definition posts_of_row (elem : list string) : list string :=
  match elem with
  | [a] => [a]
  | [a; _] => if String.eqb a "" then [] else [a]
  | _ => []
  end.

Definition channels_of_row (elem : list string) : list string :=
  match elem with
  | [_; b] => [b]
  | _ => []
  end.

(** The domain [re.match] gives for a link, as the VK channels parser reads
    it. *)
Definition matched_domain (link domain : string) : Prop :=
  exists b a g,
    Re.match_here Vk.vk_domain_pattern [] (list_ascii_of_string link)
      = Some (b, a, Some g) /\
    domain = string_of_list_ascii g.

(** The row of a record of a Notion table whose keys are the header. *)
Definition row_of_table_record (d : NotionTables.record) : option (list json) :=
  Some (map snd d).








(** * Further sample data *)

(** A sheet whose identity column cannot be read. *)
Definition unreadable_sheet : nat -> string -> Response :=
  fun _ rng =>
    if String.eqb rng "Лист1!B2:B" then HttpFail "503"
    else Values (Some [["Канал"]; ["c"]]).

(** A sheet that loses its only row between the two reads of column B. *)
Definition emptied_sheet : nat -> string -> Response :=
  fun n rng =>
    if String.eqb rng "Лист1!B2:B" then
      match n with
      | 0 => Values (Some [["https://t.me/a/1"]])
      | S _ => Values (Some [])
      end
    else Values (Some [["Канал"]]).

(** The record of the first message of channel a. *)
Definition sample_tg_record : dict :=
  [ ("Канал", VStr "https://t.me/a"); ("Пост", VStr "https://t.me/a/1");
    ("Текст поста", VStr "hello"); ("Дата-время", VStr "2024-05-01 09:00:07");
    ("Реакции", VInt 0); ("Комментарии", VInt 0); ("Просмотры", VInt 7);
    ("Количество репостов", VInt 0); ("Ссылка на оригинальный пост", VStr "");
    ("Ссылка в посте", VNone) ].

(** Another message with the id 1, without views and forwards. *)
Definition edited_message : Tg.Message :=
  Tg.mkMessage false None None None None (Some "other") 1%Z (Some sample_date)
               None None.

(** Posts of a wall: one without a date, one without an owner, and a repost
    with a text of its own. *)
Definition undated_vk_post : Vk.Post :=
  Vk.mkPost (Some (-1)%Z) (Some 3%Z) None (Some "t") None None None None None
            None.

Definition ownerless_vk_post : Vk.Post :=
  Vk.mkPost None (Some 3%Z) (Some 0%Z) (Some "t") None None None None None None.

(** A repost without a date, and a repost without an owner whose original
    has no id. *)
Definition undated_vk_repost : Vk.Post :=
  Vk.mkPost (Some (-1)%Z) (Some 5%Z) None (Some "t")
    (Some [Vk.mkOriginal (Some "o") (Some (-2)%Z) (Some 9%Z)])
    None None None None None.

Definition ownerless_vk_repost : Vk.Post :=
  Vk.mkPost None (Some 6%Z) (Some 0%Z) (Some "t")
    (Some [Vk.mkOriginal (Some "o") (Some (-2)%Z) None])
    None None None None None.

Definition reposted_vk_post : Vk.Post :=
  Vk.mkPost (Some (-1)%Z) (Some 4%Z) (Some 0%Z) (Some "see https://a.co")
    (Some [Vk.mkOriginal (Some "from https://b.co") (Some (-2)%Z) (Some 9%Z)])
    None None None None None.

(** The no-break space U+00A0, in UTF-8. *)
Definition nbsp : string :=
  String (ascii_of_nat 194) (String (ascii_of_nat 160) "").

(** A links sheet with a row of one cell, a row of two cells, a row whose
    first cell is empty and a row of three cells. *)
Definition links_sheet : nat -> string -> Response :=
  fun _ _ =>
    Values (Some [["p1"]; ["p2"; "c2"]; [""; "c3"]; ["p4"; "c4"; "x"]]).

(** An API of [groups.getMembers] whose group closed hides its members and
    whose group banned answers with another error. *)
Definition sample_channel_api : VkChannel.Api :=
  VkChannel.mkApi
    (fun domain =>
       if String.eqb domain "closed" then
         Ok (VkChannel.mkHttpResponse 200
               (Ok (VkChannel.mkChannelData
                      (Some [("error_code", VInt 15);
                             ("error_msg", VStr "Access denied: group hide members")])
                      None)))
       else if String.eqb domain "banned" then
         Ok (VkChannel.mkHttpResponse 200
               (Ok (VkChannel.mkChannelData
                      (Some [("error_code", VInt 203);
                             ("error_msg", VStr "Access to group denied")])
                      None)))
       else
         Ok (VkChannel.mkHttpResponse 200
               (Ok (VkChannel.mkChannelData None (Some [("count", VInt 5)]))))).

(** A task of the Notion database; [unused] is the people list of the
    column that is not filtered. *)
Definition empty_property : json := JObj [].

Definition person (name : json) : json :=
  JObj [("object", JStr "user"); ("name", name)].

Definition sample_task_properties (unused : json) : json :=
  JObj [ ("Задача", JObj [("title", JArr [JObj [("plain_text", JStr "Post")]])]);
         ("Дедлайн [Р]", JObj [("date", JObj [("start", JStr "2024-05-01")])]);
         ("Назначен",
          JObj [("people", JArr [person (JStr "Ann"); person JNull;
                                 person (JStr "Bob")])]);
         ("Статус [Р]", JObj [("select", JNull)]);
         ("Публикация (автоматическое поле)", empty_property);
         ("UTM", JObj [("formula", JObj [("string", JStr "utm")])]);
         ("organic", JObj [("unique_id", JObj [("number", JNum 7)])]);
         ("Гибкая публикация", JObj [("checkbox", JBool true)]);
         ("Дедлайн [К-П]", empty_property);
         ("Статус [К-П]", empty_property);
         ("Срочность [Дизайн]", empty_property);
         ("Статус [Дайджест]", empty_property);
         ("Статус [Д]", empty_property);
         ("Сегмент", JObj [("multi_select", JArr [])]);
         ("Дедлайн[Д]", empty_property);
         ("Группа",
          JObj [("multi_select", JArr [JObj [("name", JStr "g1")];
                                       JObj [("name", JStr "g2")]])]);
         ("Не использовать 1", JObj [("people", unused)]);
         ("Не использовать 2", empty_property);
         ("Не использовать 3", empty_property);
         ("Компания", empty_property) ].

Definition sample_task (unused : json) : json :=
  JObj [("id", JStr "t1"); ("properties", sample_task_properties unused)].

Definition sample_task_record : NotionTables.record :=
  [ ("Задача", JStr "Post"); ("Дедлайн [Р]", JStr "2024-05-01");
    ("Назначен", JStr "Ann, Bob"); ("Статус [Р]", JNull);
    ("Публикация (автоматическое поле)", JNull); ("UTM", JStr "utm");
    ("organic", JNum 7); ("Гибкая публикация", JStr "Да");
    ("Дедлайн [К-П]", JNull); ("Статус [К-П]", JNull);
    ("Срочность [Дизайн]", JNull); ("Статус [Дайджест]", JNull);
    ("Статус [Д]", JNull); ("Сегмент", JNull); ("Дедлайн[Д]", JNull);
    ("Группа", JStr "g1, g2"); ("Не использовать 1", JNull);
    ("Не использовать 2", JNull); ("Не использовать 3", JNull);
    ("Компания", JNull) ].



(** A links sheet that cannot be read. *)
Definition unreadable_sheet_all : nat -> string -> Response :=
  fun _ _ => HttpFail "503".

(** Closes [H : occurs p t] for literal strings in which [p] does not
    occur: every place where [p] could start is tried. *)
Local Ltac absent H :=
  let a := fresh "a" in
  let b := fresh "b" in
  destruct H as (a & b & H);
  repeat (destruct a as [|? a]; cbn in H; [congruence|injection H as _ H]);
  destruct a; discriminate H.

(** * Properties *)

(** ** The model at work *)

Example existing_posts_read :
  fst (_get_existing_posts "sheet"
         (fresh_world (fixed_sheet [] [["a"]; ["b"; "x"]; ["c"]])))
  = Ok ["a"; "b"; "c"].
Proof. reflexivity. Qed.

(** A row without a cell makes [item[0]] raise; the snapshot is then empty
    and the error is logged. *)
Example existing_posts_empty_row :
  _get_existing_posts "sheet" (fresh_world (fixed_sheet [] [["a"]; []; ["c"]]))
  = (Ok [],
     mkWorld (fixed_sheet [] [["a"]; []; ["c"]]) 1
       [Get "sheet" "Лист1!B2:B"]
       [Error "Ошибка при получении существующих данных из Google Sheets: list index out of range"]).
Proof. reflexivity. Qed.

Example upsert_run :
  issued (snd (run_google_upsert "sheet"
                 [sample_post (VStr "b"); sample_post (VStr "z")]
                 "tg_posts_parser"
                 (fresh_world (fixed_sheet [["Канал"]; ["c"]; ["c"]]
                                           [["a"]; ["b"]]))))
  = [ Get "sheet" "Лист1!B2:B";
      Get "sheet" "Лист1!B2:B";
      BatchUpdate "sheet" "USER_ENTERED"
        [ mkValueRange "Лист1!A3:J3" "ROWS" [sample_row "b"] ];
      Get "sheet" "Лист1!A:A";
      BatchUpdate "sheet" "USER_ENTERED"
        [ mkValueRange "Лист1!A4" "ROWS" [sample_row "z"] ] ].
Proof. reflexivity. Qed.

Example vk_domain_of_link :
  Re.search_group Vk.vk_domain_pattern [] (list_ascii_of_string "https://vk.com/durov")
  = Some (Some (list_ascii_of_string "durov")).
Proof. reflexivity. Qed.

Example vk_links_found :
  Re.findall Vk.link_pattern true "see http://a.co and vk.com/foo bar.ru, a.b"
  = ["http://a.co"; "vk.com/foo"; "bar.ru,"].
Proof. vm_compute. reflexivity. Qed.

Example tg_links_backtrack :
  Re.findall Tg.tg_links_pattern false "[x](http://d.e)) and (https://c.co)"
  = ["http://d.e)"; "https://c.co)"].
Proof. vm_compute. reflexivity. Qed.

Example strftime_pads : strftime sample_date = "2024-05-01 09:00:07".
Proof. reflexivity. Qed.

(** ** The partition of [run_google_upsert] *)

Lemma partition_loop_filter (existing : list string) (posts : list dict) :
  Forall has_identity posts ->
  forall upd ins,
    partition_loop existing posts upd ins =
    Ok ((upd ++ filter (matched existing) posts)%list,
        (ins ++ filter (fun p => negb (matched existing p)) posts)%list).
Proof.
  induction 1 as [|post rest Hid _ IH]; intros upd ins; simpl.
  - now rewrite !app_nil_r.
  - unfold matched, getitem. unfold has_identity in Hid.
    destruct (dict_get post "Пост") as [link|]; [|congruence]. simpl.
    destruct (contains existing link); simpl; rewrite IH, <- !app_assoc;
      reflexivity.
Qed.

Lemma filter_split_perm {A} (f : A -> bool) (l : list A) :
  Permutation (filter f l ++ filter (fun x => negb (f x)) l) l.
Proof.
  induction l as [|a l IH]; simpl; [constructor|].
  destruct (f a); simpl.
  - now constructor.
  - eapply perm_trans; [apply Permutation_sym, Permutation_middle|].
    now constructor.
Qed.

Lemma contains_In (existing : list string) (s : string) :
  contains existing (VStr s) = true <-> In s existing.
Proof.
  unfold contains. rewrite existsb_exists. split.
  - intros (v & Hv & E). apply in_map_iff in Hv as (t & <- & Ht).
    simpl in E. apply String.eqb_eq in E. now subst.
  - intros H. exists (VStr s). split; [now apply in_map|].
    simpl. apply String.eqb_refl.
Qed.

Lemma contains_None (existing : list string) :
  contains existing VNone = false.
Proof.
  unfold contains. induction existing; simpl; auto.
Qed.

Lemma partition_membership (existing : list string) (posts : list dict) :
  Forall has_identity posts ->
  exists rows_to_update rows_to_insert,
    partition_loop existing posts [] [] = Ok (rows_to_update, rows_to_insert) /\
    (forall p, In p rows_to_update <-> In p posts /\ matched existing p = true) /\
    (forall p, In p rows_to_insert <-> In p posts /\ matched existing p = false).
Proof.
  intros Hid.
  exists (filter (matched existing) posts),
         (filter (fun p => negb (matched existing p)) posts).
  split; [now rewrite partition_loop_filter|].
  split; intros p; rewrite filter_In; [tauto|].
  now rewrite negb_true_iff.
Qed.

(** C1. The partition of [run_google_upsert] puts every record in exactly
    one of [rows_to_update] and [rows_to_insert]: a record goes to
    [rows_to_update] exactly when its identity [post["Пост"]] is in the
    list of existing identities; both keep the order of the input, and
    their sizes add up to the size of the input. *)
Theorem upsert_partition (existing : list string) (posts : list dict) :
  Forall has_identity posts ->
  exists rows_to_update rows_to_insert,
    partition_loop existing posts [] [] = Ok (rows_to_update, rows_to_insert) /\
    rows_to_update = filter (matched existing) posts /\
    rows_to_insert = filter (fun p => negb (matched existing p)) posts /\
    List.length rows_to_update + List.length rows_to_insert = List.length posts /\
    Permutation (rows_to_update ++ rows_to_insert) posts /\
    (forall p, In p rows_to_update <-> In p posts /\ matched existing p = true) /\
    (forall p, In p rows_to_insert <-> In p posts /\ matched existing p = false) /\
    (forall p s, dict_get p "Пост" = Some (VStr s) ->
                 (matched existing p = true <-> In s existing)).
Proof.
  intros Hid.
  exists (filter (matched existing) posts),
         (filter (fun p => negb (matched existing p)) posts).
  split; [now rewrite partition_loop_filter|].
  split; [reflexivity|]. split; [reflexivity|].
  split.
  - rewrite <- length_app. apply Permutation_length, filter_split_perm.
  - split; [apply filter_split_perm|].
    split; [intros p; rewrite filter_In; tauto|].
    split; [intros p; rewrite filter_In; now rewrite negb_true_iff|].
    intros p s H. unfold matched. rewrite H. apply contains_In.
Qed.

Lemma upsert_partition_witness :
  exists rows_to_update rows_to_insert,
    partition_loop ["a"; "b"]
      [sample_post (VStr "b"); sample_post (VStr "z"); sample_post (VStr "a")]
      [] [] = Ok (rows_to_update, rows_to_insert) /\
    rows_to_update = [sample_post (VStr "b"); sample_post (VStr "a")] /\
    rows_to_insert = [sample_post (VStr "z")].
Proof.
  destruct (upsert_partition ["a"; "b"]
              [sample_post (VStr "b"); sample_post (VStr "z"); sample_post (VStr "a")])
    as (u & i & E & Hu & Hi & _).
  - repeat constructor; discriminate.
  - exists u, i. split; [exact E|]. split; [rewrite Hu|rewrite Hi]; reflexivity.
Defined.

(** ** Empty and null identities *)

(** C3, as the code has it.  A record whose identity is [None] goes to
    [rows_to_insert] whatever the snapshot holds, since the snapshot holds
    strings.  A record whose identity is the empty string goes to
    [rows_to_insert] when the snapshot holds no empty string, and to
    [rows_to_update] when it holds one: the empty string is matched like any
    other. *)
Theorem empty_identity_routing (existing : list string) (posts : list dict)
    (p : dict) :
  Forall has_identity posts ->
  In p posts ->
  exists rows_to_update rows_to_insert,
    partition_loop existing posts [] [] = Ok (rows_to_update, rows_to_insert) /\
    (dict_get p "Пост" = Some VNone ->
       In p rows_to_insert /\ ~ In p rows_to_update) /\
    (dict_get p "Пост" = Some (VStr "") -> ~ In "" existing ->
       In p rows_to_insert /\ ~ In p rows_to_update) /\
    (dict_get p "Пост" = Some (VStr "") -> In "" existing ->
       In p rows_to_update /\ ~ In p rows_to_insert).
Proof.
  intros Hid Hin.
  destruct (partition_membership existing posts Hid)
    as (u & i & E & Hu & Hi).
  exists u, i. split; [exact E|].
  assert (Hnone : dict_get p "Пост" = Some VNone -> matched existing p = false).
  { intros H. unfold matched. rewrite H. apply contains_None. }
  assert (Hstr : forall s, dict_get p "Пост" = Some (VStr s) ->
                           (matched existing p = true <-> In s existing)).
  { intros s H. unfold matched. rewrite H. apply contains_In. }
  repeat split.
  - apply Hi. auto.
  - rewrite Hu. intros [_ F]. rewrite Hnone in F; auto. discriminate.
  - apply Hi. split; [assumption|].
    destruct (matched existing p) eqn:M; [|reflexivity].
    exfalso. apply H0. now apply (Hstr "" H).
  - rewrite Hu. intros [_ F]. apply H0. now apply (Hstr "" H).
  - apply Hu. split; [assumption|]. now apply (Hstr "" H).
  - rewrite Hi. intros [_ F].
    assert (T : matched existing p = true) by now apply (Hstr "" H).
    congruence.
Qed.

Lemma empty_identity_routing_witness :
  exists rows_to_update rows_to_insert,
    partition_loop ["a"] [sample_post VNone; sample_post (VStr "")] [] []
      = Ok (rows_to_update, rows_to_insert) /\
    In (sample_post (VStr "")) rows_to_insert /\
    ~ In (sample_post (VStr "")) rows_to_update.
Proof.
  destruct (empty_identity_routing ["a"]
              [sample_post VNone; sample_post (VStr "")] (sample_post (VStr "")))
    as (u & i & E & _ & H & _).
  - repeat constructor; discriminate.
  - simpl; auto.
  - exists u, i. split; [exact E|]. apply H; [reflexivity|].
    simpl. intros [F|[]]. discriminate.
Defined.

(** C3 fails as stated: with an empty string in the snapshot, the record
    whose identity is the empty string is routed to [rows_to_update]. *)
Lemma empty_identity_matched :
  dict_get (sample_post (VStr "")) "Пост" = Some (VStr "") /\
  partition_loop [""] [sample_post (VStr "")] [] []
  = Ok ([sample_post (VStr "")], []) /\
  issued (snd (run_google_upsert "sheet" [sample_post (VStr "")]
                 "tg_posts_parser"
                 (fresh_world (fixed_sheet [["Канал"]; ["c"]] [[""]]))))
  = [ Get "sheet" "Лист1!B2:B";
      Get "sheet" "Лист1!B2:B";
      BatchUpdate "sheet" "USER_ENTERED"
        [ mkValueRange "Лист1!A2:J2" "ROWS" [sample_row ""] ] ].
Proof. repeat split. Qed.

(** ** Row numbers *)

Lemma index_first (existing : list string) (s : string) :
  forall i,
    nth_error existing i = Some s ->
    ~ In s (firstn i existing) ->
    index existing (VStr s) = Some i.
Proof.
  induction existing as [|t l IH]; intros [|i] Hn Hf; simpl in *;
    try discriminate.
  - injection Hn as ->. now rewrite String.eqb_refl.
  - destruct (String.eqb s t) eqn:E.
    + apply String.eqb_eq in E. subst. exfalso. auto.
    + rewrite (IH i); auto.
Qed.

Lemma index_contains (existing : list string) (link : value) (i : nat) :
  index existing link = Some i -> contains existing link = true.
Proof.
  revert i. unfold contains.
  induction existing as [|t l IH]; intros i; simpl; [discriminate|].
  destruct (value_eqb link (VStr t)); [reflexivity|]. simpl.
  destruct (index l link) eqn:E; [|discriminate]. intros _. now apply (IH n).
Qed.

(** C2, as the code has it.  When the read of column A returns the header
    and [N] rows, [_insert_new_rows] writes from row [N + 2] on.  For a row
    whose identity occurs first at position [i] (from 0) of the existing
    identities, the loop of [_update_existing_rows] addresses row [i + 2]. *)
Theorem row_index_correctness :
  (forall (w : World) (sid : string) (rows : list dict) (flag : string)
          (data : list (option (list value))) (col : list (list string))
          (N : nat),
      _make_sheet_ready_data rows flag = Ok data ->
      sheet w (reads w) "Лист1!A:A" = Values (Some col) ->
      List.length col = N + 1 ->
      last_row (Some col) = N + 2 /\
      issued (snd (_insert_new_rows sid rows flag w)) =
        (issued w ++
           [ Get sid "Лист1!A:A";
             BatchUpdate sid "USER_ENTERED"
               [ mkValueRange ("Лист1!A" ++ str_of_nat (N + 2)) "ROWS" data ] ])%list)
  /\
  (forall (existing : list string) (letter : string)
          (row : option (list value)) (rest : list (option (list value)))
          (acc : list ValueRange) (s : string) (i : nat),
      row_item1 row = Ok (VStr s) ->
      nth_error existing i = Some s ->
      ~ In s (firstn i existing) ->
      update_row_index existing (VStr s) = Some (i + 2) /\
      update_loop existing letter (row :: rest) acc =
        update_loop existing letter rest
          (acc ++ [ mkValueRange (update_range (i + 2) letter) "ROWS" [row] ])).
Proof.
  split.
  - intros w sid rows flag data col N Hdata Hsheet Hlen.
    assert (L : last_row (Some col) = N + 2) by (unfold last_row; lia).
    split; [exact L|].
    unfold _insert_new_rows, bind, lift. rewrite Hdata.
    unfold values_get. rewrite Hsheet. rewrite L. simpl.
    now rewrite <- app_assoc.
  - intros existing letter row rest acc s i Hrow Hn Hf.
    assert (I : index existing (VStr s) = Some i) by now apply index_first.
    assert (U : update_row_index existing (VStr s) = Some (i + 2))
      by (unfold update_row_index; now rewrite I).
    split; [exact U|].
    simpl. rewrite Hrow. simpl.
    rewrite (index_contains _ _ _ I), U. reflexivity.
Qed.

Lemma row_index_correctness_witness :
  issued (snd (_insert_new_rows "sheet" [sample_post (VStr "z")] "tg_posts_parser"
                 (fresh_world (fixed_sheet [["Канал"]; ["c"]; ["c"]] [["a"]; ["b"]]))))
  = [ Get "sheet" "Лист1!A:A";
      BatchUpdate "sheet" "USER_ENTERED"
        [ mkValueRange "Лист1!A4" "ROWS"
            [ Some [ VStr "https://t.me/c"; VStr "z"; VNone;
                     VStr "2024-05-01 10:00:00"; VInt 0; VInt 0; VInt 7;
                     VInt 0; VStr ""; VNone ] ] ] ]
  /\ update_row_index ["a"; "b"; "a"] (VStr "b") = Some 3.
Proof.
  destruct row_index_correctness as [Hins Hupd]. split.
  - refine (proj2 (Hins (fresh_world (fixed_sheet [["Канал"]; ["c"]; ["c"]]
                                                  [["a"]; ["b"]]))
                        "sheet" [sample_post (VStr "z")] "tg_posts_parser"
                        _ [["Канал"]; ["c"]; ["c"]] 2 _ _ _)); reflexivity.
  - refine (proj1 (Hupd ["a"; "b"; "a"] "J" (Some [VNone; VStr "b"]) [] []
                        "b" 1 _ _ _)); [reflexivity|reflexivity|].
    simpl. intros [F|[]]. discriminate.
Defined.

(** C2 fails as stated when an identity occurs twice in the column: the
    record is at position 1 as well, and the row addressed is 2, not 3. *)
Lemma duplicate_identity_row :
  nth_error ["p"; "p"] 1 = Some "p" /\
  update_row_index ["p"; "p"] (VStr "p") = Some 2 /\
  issued (snd (_update_existing_rows "sheet" [sample_post (VStr "p")]
                 "tg_posts_parser"
                 (fresh_world (fixed_sheet [] [["p"]; ["p"]]))))
  = [ Get "sheet" "Лист1!B2:B";
      BatchUpdate "sheet" "USER_ENTERED"
        [ mkValueRange "Лист1!A2:J2" "ROWS"
            [ Some [ VStr "https://t.me/c"; VStr "p"; VNone;
                     VStr "2024-05-01 10:00:00"; VInt 0; VInt 0; VInt 7;
                     VInt 0; VStr ""; VNone ] ] ] ].
Proof. repeat split. Qed.

(** ** The two reads of one upsert *)

Lemma get_existing_posts_total (sid : string) (w : World) :
  exists e w',
    _get_existing_posts sid w = (Ok e, w') /\
    sheet w' = sheet w /\
    reads w' = S (reads w) /\
    (exists more, issued w' = (issued w ++ more)%list).
Proof.
  unfold _get_existing_posts, try_except, bind, values_get, write_log, ret, lift.
  destruct (sheet w (reads w) "Лист1!B2:B") as [msg|[[|r rs]|]];
    cbv beta iota zeta;
    try destruct (first_cells (r :: rs));
    cbv beta iota zeta;
    (eexists; eexists; split; [reflexivity|]);
    cbn [sheet reads issued]; repeat split; eexists; reflexivity.
Qed.

Lemma update_loop_addressed (existing : list string) (letter : string) :
  forall data acc reqs,
    update_loop existing letter data acc = Ok reqs ->
    exists new, reqs = (acc ++ new)%list /\
                Forall (addressed_from existing letter) new.
Proof.
  induction data as [|row rest IH]; intros acc reqs; simpl.
  - intros [= <-]. exists []. now rewrite app_nil_r.
  - destruct (row_item1 row) as [link|] eqn:R; simpl; [|discriminate].
    destruct (contains existing link).
    + unfold update_row_index.
      destruct (index existing link) as [i|] eqn:I; simpl; [|discriminate].
      intros H. apply IH in H as (new & -> & F).
      eexists. rewrite <- app_assoc. split; [reflexivity|].
      constructor; [|exact F].
      exists row, link, i. auto.
    + apply IH.
Qed.

Lemma insert_new_rows_issued (sid : string) (rows : list dict) (flag : string)
    (w : World) :
  exists more, issued (snd (_insert_new_rows sid rows flag w))
               = (issued w ++ more)%list.
Proof.
  unfold _insert_new_rows, bind, lift, values_get, values_batchUpdate, write_log.
  destruct (_make_sheet_ready_data rows flag); simpl.
  - destruct (sheet w (reads w) "Лист1!A:A"); simpl.
    + eexists; reflexivity.
    + rewrite <- app_assoc. eexists; reflexivity.
  - exists []. now rewrite app_nil_r.
Qed.

Lemma update_existing_rows_run (sid flag : string) (u : dict)
    (upd : list dict) (w w2 : World) (letter : string)
    (data : list (option (list value))) (e2 : list string)
    (r : ValueRange) (reqs : list ValueRange) :
  column_letters (List.length u) = Ok letter ->
  _make_sheet_ready_data (u :: upd) flag = Ok data ->
  _get_existing_posts sid w = (Ok e2, w2) ->
  update_loop e2 letter data [] = Ok (r :: reqs) ->
  _update_existing_rows sid (u :: upd) flag w =
  (Ok tt,
   mkWorld (sheet w2) (reads w2)
     (issued w2 ++ [BatchUpdate sid "USER_ENTERED" (r :: reqs)])
     (log w2 ++ [Info ("Успешно обновлены строки: "
                       ++ str_of_nat (List.length (r :: reqs)))])).
Proof.
  intros Hletter Hdata H2 Hloop.
  unfold _update_existing_rows, bind, lift.
  rewrite Hletter, Hdata, H2, Hloop. reflexivity.
Qed.

(** C4, as the code has it.  [run_google_upsert] partitions with one read of
    the identity column, and [_update_existing_rows] reads the column again:
    every update it issues addresses the row that this second read gives to
    the identity of its record. *)
Theorem update_rows_from_second_read
    (sid flag : string) (posts : list dict) (w w1 w2 : World)
    (e1 e2 : list string) (u : dict) (upd ins : list dict) (letter : string)
    (data : list (option (list value))) (reqs : list ValueRange) :
  _get_existing_posts sid w = (Ok e1, w1) ->
  partition_loop e1 posts [] [] = Ok (u :: upd, ins) ->
  column_letters (List.length u) = Ok letter ->
  _make_sheet_ready_data (u :: upd) flag = Ok data ->
  _get_existing_posts sid
    (snd (write_log (Info "Выгружаем данные в Google Sheets") w1))
    = (Ok e2, w2) ->
  update_loop e2 letter data [] = Ok reqs ->
  reqs <> [] ->
  reads w1 = S (reads w) /\
  reads w2 = S (S (reads w)) /\
  In (BatchUpdate sid "USER_ENTERED" reqs)
     (issued (snd (run_google_upsert sid posts flag w))) /\
  Forall (addressed_from e2 letter) reqs.
Proof.
  intros H1 Hpart Hletter Hdata H2 Hloop Hne.
  destruct (get_existing_posts_total sid w) as (e & w' & E & _ & R1 & _).
  rewrite H1 in E. injection E as <- <-.
  destruct (get_existing_posts_total sid
              (snd (write_log (Info "Выгружаем данные в Google Sheets") w1)))
    as (e & w' & E & _ & R2 & _).
  rewrite H2 in E. injection E as <- <-. simpl in R2.
  split; [exact R1|]. split; [congruence|]. split.
  - destruct reqs as [|r reqs]; [congruence|].
    pose proof (update_existing_rows_run sid flag u upd _ _ letter data e2 r reqs
                  Hletter Hdata H2 Hloop) as U.
    unfold run_google_upsert. unfold bind at 1. rewrite H1.
    unfold bind at 1. unfold lift at 1. rewrite Hpart.
    unfold bind at 1.
    destruct (write_log (Info "Выгружаем данные в Google Sheets") w1)
      as [[[]|] w1'] eqn:L; [|discriminate L].
    simpl in U. unfold bind at 1. rewrite U.
    match goal with
    | |- In _ (issued (snd (_ ?w0))) =>
        assert (X : exists more,
                   issued (snd (match ins with
                                | [] => ret tt
                                | _ :: _ => _insert_new_rows sid ins flag
                                end w0)) = (issued w0 ++ more)%list)
    end.
    { destruct ins; [exists []; simpl; now rewrite app_nil_r|].
      apply insert_new_rows_issued. }
    destruct X as (more & ->). simpl.
    apply in_or_app. left. apply in_or_app. right. now left.
  - apply update_loop_addressed in Hloop as (new & -> & F). exact F.
Qed.

Lemma update_rows_from_second_read_witness :
  In (BatchUpdate "sheet" "USER_ENTERED"
        [ mkValueRange "Лист1!A3:J3" "ROWS" [sample_row "a"] ])
     (issued (snd (run_google_upsert "sheet" [sample_post (VStr "a")]
                     "tg_posts_parser" (fresh_world edited_sheet))))
  /\ Forall (addressed_from ["b"; "a"] "J")
       [ mkValueRange "Лист1!A3:J3" "ROWS" [sample_row "a"] ].
Proof.
  refine (proj2 (proj2
    (update_rows_from_second_read "sheet" "tg_posts_parser"
       [sample_post (VStr "a")] (fresh_world edited_sheet)
       (mkWorld edited_sheet 1 [Get "sheet" "Лист1!B2:B"] [])
       (mkWorld edited_sheet 2
          [Get "sheet" "Лист1!B2:B"; Get "sheet" "Лист1!B2:B"]
          [Info "Выгружаем данные в Google Sheets"])
       ["a"; "b"] ["b"; "a"] (sample_post (VStr "a")) [] [] "J"
       [sample_row "a"]
       [ mkValueRange "Лист1!A3:J3" "ROWS" [sample_row "a"] ]
       _ _ _ _ _ _ _))); try reflexivity.
  discriminate.
Defined.

(** C4 fails as stated: the record with identity ["a"] is put in
    [rows_to_update] by the first read, where ["a"] is in row 2, and the
    update issued addresses row 3, where the second read finds it. *)
Lemma update_row_from_later_read :
  fst (_get_existing_posts "sheet" (fresh_world edited_sheet)) = Ok ["a"; "b"] /\
  partition_loop ["a"; "b"] [sample_post (VStr "a")] [] []
    = Ok ([sample_post (VStr "a")], []) /\
  update_row_index ["a"; "b"] (VStr "a") = Some 2 /\
  issued (snd (run_google_upsert "sheet" [sample_post (VStr "a")]
                 "tg_posts_parser" (fresh_world edited_sheet)))
  = [ Get "sheet" "Лист1!B2:B";
      Get "sheet" "Лист1!B2:B";
      BatchUpdate "sheet" "USER_ENTERED"
        [ mkValueRange "Лист1!A3:J3" "ROWS" [sample_row "a"] ] ].
Proof. repeat split. Qed.

(** ** The identity column of a row *)

Lemma project_posts_item1 (post : dict) (k0 : string) (ks : list string)
    (row : list value) :
  project post (k0 :: "Пост" :: ks) = Ok row ->
  exists link, getitem post "Пост" = Ok link /\ nth_error row 1 = Some link.
Proof.
  simpl. destruct (getitem post k0); simpl; [|discriminate].
  destruct (getitem post "Пост") as [v|]; simpl; [|discriminate].
  destruct (project post ks); simpl; [|discriminate].
  intros [= <-]. now exists v.
Qed.

Lemma tg_message_info_keys (client : Tg.TelegramClient) (link : string)
    (m : Tg.Message) (post : dict) :
  Tg.message_info client link m = Ok post ->
  map fst post = tg_posts_columns.
Proof.
  unfold Tg.message_info.
  destruct (Tg.original_channel_link client m); simpl; [|discriminate].
  destruct (Tg.date_str m); simpl; [|discriminate].
  now intros [= <-].
Qed.

Lemma vk_normalize_keys (api : Vk.Api) (link : string) (p : Vk.Post)
    (post : dict) (lines : list LogLine) :
  Vk.normalize api link p = Ok (Some post, lines) ->
  map fst post = vk_posts_columns.
Proof.
  unfold Vk.normalize.
  match goal with |- context [rbind ?x _] => destruct x as [[[a b] c]|] end;
    simpl; [|discriminate].
  destruct (Vk.post_text p); simpl; [|discriminate].
  match goal with |- context [Vk.post_info ?a ?b ?c ?d ?e ?f ?g ?h] =>
    destruct (Vk.post_info a b c d e f g h) as [info|] eqn:E end.
  - intros [= <- <-]. revert E. unfold Vk.post_info.
    destruct (Vk.wall_url _ _); simpl; [|discriminate].
    destruct (Vk.date p); simpl; [|discriminate].
    destruct (Vk.fromtimestamp api z); simpl; [|discriminate].
    now intros [= <-].
  - destruct (Vk.wall_url _ _); simpl; discriminate.
Qed.

(** A dict that has the keys [keys], in this order, projects on them. *)
Lemma project_total (post : dict) (keys : list string) :
  incl keys (map fst post) ->
  exists row, project post keys = Ok row.
Proof.
  induction keys as [|k ks IH]; intros Hk; simpl; [now eexists|].
  assert (exists v, getitem post k = Ok v) as (v & ->).
  { assert (In k (map fst post)) as Hin by (apply Hk; now left).
    unfold getitem. clear -Hin.
    induction post as [|[k' v'] d IHd]; simpl in *; [contradiction|].
    destruct (String.eqb k' k) eqn:E; [now eexists|].
    destruct Hin as [->|Hin]; [now rewrite String.eqb_refl in E|auto]. }
  destruct IH as (row & ->); [intros x Hx; apply Hk; now right|].
  simpl. now eexists.
Qed.

Lemma get_row_tg_posts (post : dict) :
  _get_row_from_post post "tg_posts_parser" =
  (r <- project post tg_posts_columns ;; Ok (Some r))%result.
Proof. reflexivity. Qed.

Lemma get_row_vk_posts (post : dict) :
  _get_row_from_post post "vk_posts_parser" =
  (r <- project post vk_posts_columns ;; Ok (Some r))%result.
Proof. reflexivity. Qed.

(** C10. For a record of the VK or the Telegram posts normalizer and the
    flag of its parser, [_get_row_from_post] returns a row that holds the
    identity [post["Пост"]] at index 1: what [_update_existing_rows] matches
    as [row[1]] is the value [run_google_upsert] partitioned on. *)
Theorem row_identity_at_index_1 (post : dict) (parser_flag : string) :
  produced post parser_flag ->
  exists row link,
    _get_row_from_post post parser_flag = Ok (Some row) /\
    getitem post "Пост" = Ok link /\
    nth_error row 1 = Some link /\
    row_item1 (Some row) = getitem post "Пост".
Proof.
  assert (G : forall keys0 k0 ks,
             keys0 = k0 :: "Пост" :: ks ->
             map fst post = keys0 ->
             exists row link,
               project post keys0 = Ok row /\
               getitem post "Пост" = Ok link /\
               nth_error row 1 = Some link /\
               row_item1 (Some row) = getitem post "Пост").
  { intros keys0 k0 ks K H.
    destruct (project_total post keys0) as (row & P);
      [rewrite H; apply incl_refl|].
    pose proof P as P'. rewrite K in P'.
    destruct (project_posts_item1 _ _ _ _ P') as (link & L & N).
    exists row, link. repeat split; auto.
    unfold row_item1. now rewrite N, L. }
  intros [[-> (client & l & m & H)]|[-> (api & l & p & lines & H)]].
  - apply tg_message_info_keys in H.
    destruct (G tg_posts_columns _ _ eq_refl H) as (row & link & P & L & N & I).
    exists row, link. rewrite get_row_tg_posts, P. auto.
  - apply vk_normalize_keys in H.
    destruct (G vk_posts_columns _ _ eq_refl H) as (row & link & P & L & N & I).
    exists row, link. rewrite get_row_vk_posts, P. auto.
Qed.

Lemma row_identity_at_index_1_witness :
  exists row link,
    _get_row_from_post
      [ ("Канал", VStr "https://t.me/a"); ("Пост", VStr "https://t.me/a/1");
        ("Текст поста", VStr "hello"); ("Дата-время", VStr "2024-05-01 09:00:07");
        ("Реакции", VInt 0); ("Комментарии", VInt 0); ("Просмотры", VInt 7);
        ("Количество репостов", VInt 0); ("Ссылка на оригинальный пост", VStr "");
        ("Ссылка в посте", VNone) ]
      "tg_posts_parser" = Ok (Some row) /\
    link = VStr "https://t.me/a/1" /\
    nth_error row 1 = Some link.
Proof.
  destruct (row_identity_at_index_1
              [ ("Канал", VStr "https://t.me/a"); ("Пост", VStr "https://t.me/a/1");
                ("Текст поста", VStr "hello");
                ("Дата-время", VStr "2024-05-01 09:00:07");
                ("Реакции", VInt 0); ("Комментарии", VInt 0); ("Просмотры", VInt 7);
                ("Количество репостов", VInt 0);
                ("Ссылка на оригинальный пост", VStr "");
                ("Ссылка в посте", VNone) ]
              "tg_posts_parser")
    as (row & link & R & L & N & _).
  - left. split; [reflexivity|].
    exists sample_client, "https://t.me/a", (plain_message 1). reflexivity.
  - exists row, link. split; [exact R|]. split; [|exact N].
    injection L as <-. reflexivity.
Defined.

(** ** Pagination *)

Section Pagination.

Variable Item : Type.
Variable server : nat -> option string -> result (Notion.Page Item).

Lemma yielded_app (t1 t2 : list (Notion.Event Item)) :
  Notion.yielded (t1 ++ t2) = (Notion.yielded t1 ++ Notion.yielded t2)%list.
Proof.
  induction t1 as [|[c|r|l] t1 IH]; simpl; auto. now rewrite IH.
Qed.

Lemma yielded_map_Yield (rs : list Item) :
  Notion.yielded (map (@Notion.Yield Item) rs) = rs.
Proof. induction rs; simpl; congruence. Qed.

Lemma requested_app (t1 t2 : list (Notion.Event Item)) :
  Notion.requested (t1 ++ t2) = (Notion.requested t1 ++ Notion.requested t2)%list.
Proof.
  induction t1 as [|[c|r|l] t1 IH]; simpl; auto. now rewrite IH.
Qed.

Lemma requested_map_Yield (rs : list Item) :
  Notion.requested (map (@Notion.Yield Item) rs) = [].
Proof. induction rs; simpl; congruence. Qed.

Lemma yielded_pages_trace (ps : list (Notion.Page Item)) :
  forall cursor,
    Notion.yielded (Notion.pages_trace cursor ps)
    = List.concat (map (@Notion.items_of Item) ps).
Proof.
  induction ps as [|p ps IH]; intros cursor; simpl; [reflexivity|].
  now rewrite yielded_app, yielded_map_Yield, IH.
Qed.

Lemma requested_pages_trace (ps : list (Notion.Page Item)) :
  forall cursor,
    List.length (Notion.requested (Notion.pages_trace cursor ps))
    = List.length ps.
Proof.
  induction ps as [|p ps IH]; intros cursor; simpl; [reflexivity|].
  rewrite requested_app, requested_map_Yield. simpl. now rewrite IH.
Qed.

Lemma batch_loop_step (fuel n : nat) (cursor : option string) (counter : nat)
    (p : Notion.Page Item) (rs : list Item) :
  server n (Notion.payload_of cursor) = Ok p ->
  Notion.results p = Some rs ->
  Notion.batch_loop server (S fuel) n cursor counter =
  match Notion.has_more p with
  | Some true =>
      let (t, o) := Notion.batch_loop server fuel (S n) (Notion.next_cursor p)
                      (counter + List.length rs) in
      (Notion.Request Item (Notion.payload_of cursor)
         :: map (@Notion.Yield Item) rs ++ t, o)
  | _ =>
      (Notion.Request Item (Notion.payload_of cursor)
         :: map (@Notion.Yield Item) rs ++ [Notion.processed_line Item (counter + List.length rs)],
       Notion.Exhausted)
  end.
Proof.
  intros Hp Hr. cbn [Notion.batch_loop]. rewrite Hp, Hr. reflexivity.
Qed.

Lemma batch_loop_serves (ps : list (Notion.Page Item)) :
  forall fuel n cursor counter,
    Notion.serves server n cursor ps ->
    List.length ps <= fuel ->
    Notion.batch_loop server fuel n cursor counter =
    ((Notion.pages_trace cursor ps ++
        [Notion.processed_line Item (counter
                    + List.length (List.concat (map (@Notion.items_of Item) ps)))])%list,
     Notion.Exhausted).
Proof.
  induction ps as [|p ps IH]; intros fuel n cursor counter Hs Hf;
    [contradiction|].
  destruct fuel as [|fuel]; [simpl in Hf; lia|].
  destruct Hs as (Hp & Hr & Hm).
  destruct (Notion.results p) as [rs|] eqn:R; [|congruence].
  rewrite (batch_loop_step fuel n cursor counter p rs Hp R).
  assert (I : Notion.items_of p = rs) by (unfold Notion.items_of; now rewrite R).
  cbn [Notion.pages_trace map List.concat]. unfold Notion.page_trace.
  rewrite I, length_app.
  destruct ps as [|q ps].
  - cbn [Notion.pages_trace map List.concat List.length].
    rewrite app_nil_r, Nat.add_0_r.
    destruct (Notion.has_more p) as [[|]|]; [congruence| |]; reflexivity.
  - destruct Hm as (-> & Hs').
    rewrite (IH fuel (S n) (Notion.next_cursor p) (counter + List.length rs));
      [|exact Hs'|simpl in *; lia].
    rewrite Nat.add_assoc. now rewrite <- app_assoc.
Qed.

Lemma batch_loop_short (ps : list (Notion.Page Item)) :
  forall fuel n cursor counter,
    Notion.serves server n cursor ps ->
    fuel < List.length ps ->
    snd (Notion.batch_loop server fuel n cursor counter) = Notion.OutOfFuel.
Proof.
  induction ps as [|p ps IH]; intros fuel n cursor counter Hs Hf;
    [contradiction|].
  destruct fuel as [|fuel]; [reflexivity|].
  destruct Hs as (Hp & Hr & Hm).
  destruct (Notion.results p) as [rs|] eqn:R; [|congruence].
  rewrite (batch_loop_step fuel n cursor counter p rs Hp R).
  destruct ps as [|q ps]; [simpl in Hf; lia|].
  destruct Hm as (-> & Hs').
  specialize (IH fuel (S n) (Notion.next_cursor p) (counter + List.length rs) Hs').
  destruct (Notion.batch_loop server fuel (S n) (Notion.next_cursor p)
              (counter + List.length rs)) as [t o].
  simpl in *. apply IH. lia.
Qed.

(** C7. For a paginated source, [get_records_by_batch] sends one request per
    page, yields the records of a page before it asks for the next page,
    returns after the first page that does not report [has_more] true and
    not before, and yields every record of every page once, in order. *)
Theorem pagination_complete (db_name : string)
    (ps : list (Notion.Page Item)) (fuel : nat) :
  Notion.serves server 0 None ps ->
  List.length ps <= fuel ->
  (forall short, short < List.length ps ->
     snd (Notion.get_records_by_batch server db_name short) = Notion.OutOfFuel) /\
  Notion.get_records_by_batch server db_name fuel =
    ((Notion.Logged Item (Info ("Получение записей из базы " ++ db_name))
        :: Notion.pages_trace None ps ++
           [Notion.processed_line Item (List.length (List.concat (map (@Notion.items_of Item) ps)))])%list,
     Notion.Exhausted) /\
  Notion.yielded (fst (Notion.get_records_by_batch server db_name fuel))
    = List.concat (map (@Notion.items_of Item) ps) /\
  List.length (Notion.requested (fst (Notion.get_records_by_batch server db_name fuel)))
    = List.length ps.
Proof.
  intros Hs Hf. split.
  { intros short Hshort. unfold Notion.get_records_by_batch.
    pose proof (batch_loop_short ps short 0 None 0 Hs Hshort) as B.
    destruct (Notion.batch_loop server short 0 None 0). exact B. }
  unfold Notion.get_records_by_batch.
  rewrite (batch_loop_serves ps fuel 0 None 0 Hs Hf).
  cbn [fst Nat.add Notion.yielded Notion.requested].
  split; [reflexivity|].
  rewrite yielded_app, requested_app, yielded_pages_trace, length_app,
    requested_pages_trace.
  unfold Notion.processed_line. cbn [Notion.yielded Notion.requested List.length].
  now rewrite app_nil_r, Nat.add_0_r.
Qed.

End Pagination.

Lemma pagination_complete_witness :
  Notion.yielded (fst (Notion.get_records_by_batch three_pages "tasks" 3))
    = seq 1 24 /\
  NoDup (Notion.yielded (fst (Notion.get_records_by_batch three_pages "tasks" 3))) /\
  snd (Notion.get_records_by_batch three_pages "tasks" 3) = Notion.Exhausted /\
  Notion.requested (fst (Notion.get_records_by_batch three_pages "tasks" 3))
    = [None; Some "c1"; Some "c2"].
Proof.
  destruct (pagination_complete nat three_pages "tasks" [page1; page2; page3] 3)
    as (_ & E & Y & R).
  - simpl. repeat split; discriminate.
  - simpl. lia.
  - rewrite Y. split; [reflexivity|].
    split; [exact (seq_NoDup 24 1)|].
    rewrite E. split; reflexivity.
Defined.

(** ** Engagement columns *)

Lemma tg_message_info_fields (client : Tg.TelegramClient) (link : string)
    (m : Tg.Message) (info : dict) :
  Tg.message_info client link m = Ok info ->
  exists original when,
    Tg.original_channel_link client m = Ok original /\
    Tg.date_str m = Ok when /\
    info =
      [ ("Канал", VStr link);
        ("Пост", VStr (link ++ "/" ++ str_of_Z (Tg.id m)));
        ("Текст поста", of_opt_str (Tg.text m));
        ("Дата-время", VStr when);
        ("Реакции", VInt (match Tg.reactions m with
                          | Some counts => Tg.sum_Z counts
                          | None => 0%Z
                          end));
        ("Комментарии", VInt (match Tg.replies m with
                              | Some n => n
                              | None => 0%Z
                              end));
        ("Просмотры", of_opt_Z (Tg.views m));
        ("Количество репостов", of_opt_Z (Tg.forwards m));
        ("Ссылка на оригинальный пост",
          VStr (match original with
                | Some s => if String.eqb s "" then "" else s
                | None => ""
                end));
        ("Ссылка в посте", of_opt_str (Tg.links_in_post m)) ].
Proof.
  unfold Tg.message_info.
  destruct (Tg.original_channel_link client m) as [original|]; [|discriminate].
  destruct (Tg.date_str m) as [when|]; [|discriminate].
  cbn [rbind]. intros [= <-]. now exists original, when.
Qed.

Lemma vk_normalize_fields (api : Vk.Api) (link : string) (p : Vk.Post)
    (info : dict) (lines : list LogLine) :
  Vk.normalize api link p = Ok (Some info, lines) ->
  exists a b c d e f g,
    info =
      [ ("Группа", a); ("Пост", b); ("Текст оригинального поста", c);
        ("Дата-время", d);
        ("Лайки", Vk.counter (Vk.likes p));
        ("Репосты", Vk.counter (Vk.reposts p));
        ("Комментарии", Vk.counter (Vk.comments p));
        ("Просмотры", Vk.counter (Vk.views p));
        ("Текст репоста", e); ("Ссылка на оригинальный пост", f);
        ("Ссылка в посте", g) ].
Proof.
  unfold Vk.normalize.
  match goal with |- context [rbind ?x _] => destruct x as [[[a b] c]|] end;
    cbn [rbind]; [|discriminate].
  destruct (Vk.post_text p); cbn [rbind]; [|discriminate].
  match goal with |- context [Vk.post_info ?a ?b ?c ?d ?e ?f ?g ?h] =>
    destruct (Vk.post_info a b c d e f g h) as [i|] eqn:E end.
  - intros [= <- <-]. revert E. unfold Vk.post_info.
    destruct (Vk.wall_url _ _); cbn [rbind]; [|discriminate].
    destruct (Vk.date p); cbn [rbind]; [|discriminate].
    destruct (Vk.fromtimestamp api z); cbn [rbind]; [|discriminate].
    intros [= <-]. repeat eexists.
  - destruct (Vk.wall_url _ _); cbn [rbind]; discriminate.
Qed.

(** C6, as the code has it.  In a record of the Telegram normalizer the
    reactions and the comments are integers, 0 when the message has no
    reactions or no replies object; the views and the number of reposts are
    copied from the message, and are null when the message has none.  In a
    record of the VK normalizer each of the four counters is 0 when its
    object is absent or empty, and else the ["count"] of the object: null
    when the object has no count. *)
Theorem engagement_columns :
  (forall client link m info,
      Tg.message_info client link m = Ok info ->
      dict_get info "Реакции"
        = Some (VInt (match Tg.reactions m with
                      | Some counts => Tg.sum_Z counts
                      | None => 0%Z
                      end)) /\
      dict_get info "Комментарии"
        = Some (VInt (match Tg.replies m with Some n => n | None => 0%Z end)) /\
      dict_get info "Просмотры" = Some (of_opt_Z (Tg.views m)) /\
      dict_get info "Количество репостов" = Some (of_opt_Z (Tg.forwards m)))
  /\
  (forall api link p info lines,
      Vk.normalize api link p = Ok (Some info, lines) ->
      dict_get info "Лайки" = Some (Vk.counter (Vk.likes p)) /\
      dict_get info "Репосты" = Some (Vk.counter (Vk.reposts p)) /\
      dict_get info "Комментарии" = Some (Vk.counter (Vk.comments p)) /\
      dict_get info "Просмотры" = Some (Vk.counter (Vk.views p)))
  /\
  Vk.counter None = VInt 0 /\
  Vk.counter (Some []) = VInt 0 /\
  (forall d v, d <> [] -> dict_get d "count" = Some v -> Vk.counter (Some d) = v) /\
  (forall d, d <> [] -> dict_get d "count" = None -> Vk.counter (Some d) = VNone).
Proof.
  split; [|split].
  - intros client link m info H.
    apply tg_message_info_fields in H as (original & when & _ & _ & ->).
    repeat split.
  - intros api link p info lines H.
    apply vk_normalize_fields in H as (a & b & c & d & e & f & g & ->).
    repeat split.
  - repeat split.
    + intros [|x d] v Hd Hv; [congruence|]. unfold Vk.counter. now rewrite Hv.
    + intros [|x d] Hd Hv; [congruence|]. unfold Vk.counter. now rewrite Hv.
Qed.

Lemma engagement_columns_witness :
  (exists info,
     Tg.message_info sample_client "https://t.me/a" forwarded_from_channel
       = Ok info /\
     dict_get info "Реакции" = Some (VInt 6) /\
     dict_get info "Комментарии" = Some (VInt 4) /\
     dict_get info "Просмотры" = Some (VInt 9) /\
     dict_get info "Количество репостов" = Some (VInt 1)) /\
  (exists info,
     Vk.normalize sample_api "https://vk.com/ok" sample_vk_post
       = Ok (Some info, []) /\
     dict_get info "Лайки" = Some (VInt 3) /\
     dict_get info "Репосты" = Some (VInt 0) /\
     dict_get info "Комментарии" = Some VNone /\
     dict_get info "Просмотры" = Some (VInt 0)).
Proof.
  destruct engagement_columns as (T & V & _).
  split.
  - eexists. split; [reflexivity|].
    exact (T sample_client "https://t.me/a" forwarded_from_channel _ eq_refl).
  - eexists. split; [reflexivity|].
    exact (V sample_api "https://vk.com/ok" sample_vk_post _ [] eq_refl).
Defined.

(** C6 fails as stated: a Telegram message without views and without a
    number of forwards gives a record where both columns are null. *)
Lemma tg_views_null :
  Tg.views forwarded_from_user = None /\
  Tg.forwards forwarded_from_user = None /\
  exists info,
    Tg.message_info sample_client "https://t.me/a" forwarded_from_user = Ok info /\
    dict_get info "Просмотры" = Some VNone /\
    dict_get info "Количество репостов" = Some VNone.
Proof. repeat split. eexists. repeat split. Qed.

(** ** Reposts *)

(** C8, as the code has it.  For a forward from a source that is not a
    channel and has the name [name], the link to the original post is the
    text ["Репост от "] followed by [name]; for a forward of post [n] of a
    channel that resolves to the username [u], it is [https://t.me/u/n]. *)
Theorem repost_reference (client : Tg.TelegramClient) (link : string)
    (m : Tg.Message) (f : Tg.Forward) (d : datetime) :
  Tg.forward m = Some f ->
  Tg.date m = Some d ->
  (Tg.is_channel f = false ->
   forall name, Tg.from_name f = Some name -> name <> "" ->
     exists info,
       Tg.message_info client link m = Ok info /\
       dict_get info "Ссылка на оригинальный пост"
         = Some (VStr ("Репост от " ++ name))) /\
  (Tg.is_channel f = true ->
   forall cid channel u n,
     Tg.from_id f = Some (Tg.PeerChannel cid) ->
     Tg.get_entity_by_id client cid = Ok channel ->
     Tg.username channel = Some u ->
     Tg.channel_post f = Some n ->
     exists info,
       Tg.message_info client link m = Ok info /\
       dict_get info "Ссылка на оригинальный пост"
         = Some (VStr ("https://t.me/" ++ u ++ "/" ++ str_of_Z n))).
Proof.
  intros Hf Hd. split.
  - intros Hc name Hn Hne.
    unfold Tg.message_info, Tg.original_channel_link, Tg.date_str.
    rewrite Hf, Hc, Hd, Hn. cbn [truthy_str].
    destruct (String.eqb name "") eqn:E;
      [apply String.eqb_eq in E; contradiction|].
    cbn [negb rbind Tg.opt_str]. eexists. split; [reflexivity|]. reflexivity.
  - intros Hc cid channel u n Hid He Hu Hn.
    unfold Tg.message_info, Tg.original_channel_link, Tg.date_str.
    rewrite Hf, Hc, Hd, Hid. cbn [Tg.channel_id_of rbind].
    rewrite He. cbn [rbind]. rewrite Hu, Hn.
    cbn [rbind Tg.opt_str Tg.opt_Z_str].
    eexists. split; [reflexivity|]. reflexivity.
Qed.

Lemma repost_reference_witness :
  (exists info,
     Tg.message_info sample_client "https://t.me/a" forwarded_from_user = Ok info /\
     dict_get info "Ссылка на оригинальный пост" = Some (VStr "Репост от X")) /\
  (exists info,
     Tg.message_info sample_client "https://t.me/a" forwarded_from_channel
       = Ok info /\
     dict_get info "Ссылка на оригинальный пост"
       = Some (VStr "https://t.me/c/5")).
Proof.
  split.
  - refine (proj1 (repost_reference sample_client "https://t.me/a"
                     forwarded_from_user _ sample_date eq_refl eq_refl)
                  eq_refl "X" eq_refl _).
    discriminate.
  - exact (proj2 (repost_reference sample_client "https://t.me/a"
                    forwarded_from_channel _ sample_date eq_refl eq_refl)
                 eq_refl 100%Z (Tg.mkChannel (Some "c")) "c" 5%Z
                 eq_refl eq_refl eq_refl eq_refl).
Defined.

(** C8 fails as stated: the placeholder is the Russian text, not
    ["Repost from X"]. *)
Lemma repost_placeholder_text :
  Tg.original_channel_link sample_client forwarded_from_user
    = Ok (Some "Репост от X") /\
  String.eqb "Репост от X" "Repost from X" = false /\
  exists info,
    Tg.message_info sample_client "https://t.me/a" forwarded_from_user = Ok info /\
    dict_get info "Ссылка на оригинальный пост" = Some (VStr "Репост от X").
Proof. repeat split. eexists. repeat split. Qed.

(** ** Links in a Telegram post *)

(** C9. The pattern of the Telegram parser finds [http://a.co] and
    [https://b.co], in this order, in the text
    [see http://a.co and [link](https://b.co)]: the link in markdown comes
    without its brackets, and the matches joined by [", "] are
    [http://a.co, https://b.co]. *)
Theorem tg_link_extraction :
  Re.findall Tg.tg_links_pattern false
    "see http://a.co and [link](https://b.co)"
    = ["http://a.co"; "https://b.co"] /\
  Re.join ", " (Re.findall Tg.tg_links_pattern false
                  "see http://a.co and [link](https://b.co)")
    = "http://a.co, https://b.co" /\
  (forall m,
     Tg.text m = Some "see http://a.co and [link](https://b.co)" ->
     Tg.links_in_post m = Some "http://a.co, https://b.co").
Proof.
  split; [vm_compute; reflexivity|].
  split; [vm_compute; reflexivity|].
  intros m H. unfold Tg.links_in_post. rewrite H. vm_compute. reflexivity.
Qed.

Lemma tg_link_extraction_witness :
  Tg.links_in_post forwarded_from_user = Some "http://a.co, https://b.co".
Proof.
  exact (proj2 (proj2 tg_link_extraction) forwarded_from_user eq_refl).
Defined.

(** ** Failure isolation in the Telegram loops *)

Section TgIsolation.

Variable client : Tg.TelegramClient.

Lemma messages_loop_acc (l : string) (ms : list Tg.Message) :
  forall acc,
    Tg.messages_loop client l ms acc =
    ((acc ++ fst (Tg.messages_loop client l ms []))%list,
     snd (Tg.messages_loop client l ms [])).
Proof.
  induction ms as [|m ms IH]; intros acc; simpl.
  - now rewrite app_nil_r.
  - destruct (Tg.passed_over m); [apply IH|].
    destruct (Tg.message_info client l m) as [info|e]; simpl.
    + rewrite (IH (acc ++ [info])%list), (IH [info]). simpl.
      now rewrite <- app_assoc.
    + now rewrite app_nil_r.
Qed.

Lemma channel_posts_acc (l : string) (acc : list dict) :
  Tg.channel_posts client l acc =
  ((acc ++ fst (Tg.channel_posts client l []))%list,
   snd (Tg.channel_posts client l [])).
Proof.
  unfold Tg.channel_posts.
  destruct (Tg.get_entity client l) as [ch|e]; simpl;
    [|now rewrite app_nil_r].
  destruct (Tg.get_messages client ch) as [ms|e]; simpl;
    [|now rewrite app_nil_r].
  apply messages_loop_acc.
Qed.

Lemma posts_loop_records (links : list string) :
  forall counter acc out,
    fst (Tg.posts_loop client links counter acc out) =
    (acc ++ flat_map (fun l => fst (Tg.channel_posts client l [])) links)%list.
Proof.
  induction links as [|l links IH]; intros counter acc out; simpl.
  - now rewrite app_nil_r.
  - rewrite (channel_posts_acc l acc).
    destruct (snd (Tg.channel_posts client l [])); rewrite IH;
      now rewrite <- app_assoc.
Qed.

Lemma posts_loop_log_keeps (links : list string) :
  forall counter acc out x,
    In x out -> In x (snd (Tg.posts_loop client links counter acc out)).
Proof.
  induction links as [|l links IH]; intros counter acc out x Hx; simpl; auto.
  destruct (Tg.channel_posts client l acc) as [r [e|]]; apply IH;
    repeat (apply in_or_app; left); exact Hx.
Qed.

Lemma posts_loop_log_error (links : list string) :
  forall counter acc out l e,
    In l links ->
    snd (Tg.channel_posts client l []) = Some e ->
    In (Tg.channel_error_line l e)
       (snd (Tg.posts_loop client links counter acc out)).
Proof.
  induction links as [|l0 links IH]; intros counter acc out l e Hin He;
    [contradiction|].
  simpl. rewrite (channel_posts_acc l0 acc).
  destruct Hin as [->|Hin].
  - rewrite He. apply posts_loop_log_keeps. apply in_or_app. right. now left.
  - destruct (snd (Tg.channel_posts client l0 [])); now apply IH.
Qed.

Lemma messages_loop_ok (l : string) (ms : list Tg.Message) :
  Forall (normalizes client l) ms ->
  forall acc,
    Tg.messages_loop client l ms acc = ((acc ++ normalized client l ms)%list, None).
Proof.
  induction 1 as [|m ms Hm _ IH]; intros acc; simpl.
  - now rewrite app_nil_r.
  - destruct (Tg.passed_over m) eqn:P; [apply IH|].
    destruct Hm as [Hm|(info & Hm)]; [congruence|].
    rewrite Hm, IH. simpl. now rewrite <- app_assoc.
Qed.

Lemma messages_loop_raise (l : string) (ms1 ms2 : list Tg.Message)
    (m : Tg.Message) (e : exn) :
  Forall (normalizes client l) ms1 ->
  Tg.passed_over m = false ->
  Tg.message_info client l m = Raise e ->
  forall acc,
    Tg.messages_loop client l (ms1 ++ m :: ms2) acc =
    ((acc ++ normalized client l ms1)%list, Some e).
Proof.
  intros H1 Hp He. induction H1 as [|m1 ms1 Hm _ IH]; intros acc; simpl.
  - now rewrite Hp, He, app_nil_r.
  - destruct (Tg.passed_over m1) eqn:P; [apply IH|].
    destruct Hm as [Hm|(info & Hm)]; [congruence|].
    rewrite Hm, IH. simpl. now rewrite <- app_assoc.
Qed.

Lemma channels_loop_records (now : nat -> datetime) (links : list string) :
  forall k counter acc out,
    fst (Tg.channels_loop client now links k counter acc out) =
    (acc ++ channel_records client now k links)%list.
Proof.
  induction links as [|l links IH]; intros k counter acc out; simpl.
  - now rewrite app_nil_r.
  - destruct (Tg.get_full_channel client l); rewrite IH; [|reflexivity].
    now rewrite <- app_assoc.
Qed.

Lemma channels_loop_log_keeps (now : nat -> datetime) (links : list string) :
  forall k counter acc out x,
    In x out -> In x (snd (Tg.channels_loop client now links k counter acc out)).
Proof.
  induction links as [|l links IH]; intros k counter acc out x Hx; simpl; auto.
  destruct (Tg.get_full_channel client l); apply IH;
    repeat (apply in_or_app; left); exact Hx.
Qed.

Lemma channels_loop_log_error (now : nat -> datetime) (links : list string) :
  forall k counter acc out l e,
    In l links ->
    Tg.get_full_channel client l = Raise e ->
    In (Tg.channel_error_line l e)
       (snd (Tg.channels_loop client now links k counter acc out)).
Proof.
  induction links as [|l0 links IH]; intros k counter acc out l e Hin He;
    [contradiction|].
  simpl. destruct Hin as [->|Hin].
  - rewrite He. apply channels_loop_log_keeps. apply in_or_app. right. now left.
  - destruct (Tg.get_full_channel client l0); now apply IH.
Qed.

(** C5, as the Telegram loops have it.  Every link is handled, whatever
    happened at the links before it: the posts of a run are, link after
    link, what the link added before it finished or raised.  A link whose
    retrieval raises adds nothing; a link where a message raises keeps the
    records of the messages before it and skips the rest; the exception is
    printed with the link.  The channels of a run are the records of the
    links whose request did not raise, and each exception is printed with
    its link. *)
Theorem tg_failure_isolation (now : nat -> datetime) (links : list string) :
  fst (Tg.tg_posts_info_list client links)
    = flat_map (fun l => fst (Tg.channel_posts client l [])) links /\
  (forall l e,
     In l links ->
     snd (Tg.channel_posts client l []) = Some e ->
     In (Print ("Произошла ошибка при обработке канала " ++ l ++ ": "
                ++ exn_str e))
        (snd (Tg.tg_posts_info_list client links))) /\
  (forall l e,
     Tg.get_entity client l = Raise e ->
     Tg.channel_posts client l [] = ([], Some e)) /\
  (forall l channel e,
     Tg.get_entity client l = Ok channel ->
     Tg.get_messages client channel = Raise e ->
     Tg.channel_posts client l [] = ([], Some e)) /\
  (forall l channel ms,
     Tg.get_entity client l = Ok channel ->
     Tg.get_messages client channel = Ok ms ->
     Forall (normalizes client l) ms ->
     Tg.channel_posts client l [] = (normalized client l ms, None)) /\
  (forall l channel ms1 m ms2 e,
     Tg.get_entity client l = Ok channel ->
     Tg.get_messages client channel = Ok (ms1 ++ m :: ms2)%list ->
     Forall (normalizes client l) ms1 ->
     Tg.passed_over m = false ->
     Tg.message_info client l m = Raise e ->
     Tg.channel_posts client l [] = (normalized client l ms1, Some e)) /\
  fst (Tg.tg_channels_info_list client now links)
    = channel_records client now 0 links /\
  (forall l e,
     In l links ->
     Tg.get_full_channel client l = Raise e ->
     In (Print ("Произошла ошибка при обработке канала " ++ l ++ ": "
                ++ exn_str e))
        (snd (Tg.tg_channels_info_list client now links))).
Proof.
  repeat split.
  - unfold Tg.tg_posts_info_list. now rewrite posts_loop_records.
  - intros l e Hin He. now apply posts_loop_log_error.
  - intros l e He. unfold Tg.channel_posts. now rewrite He.
  - intros l ch e H1 H2. unfold Tg.channel_posts. now rewrite H1, H2.
  - intros l ch ms H1 H2 HF. unfold Tg.channel_posts. rewrite H1, H2.
    now rewrite messages_loop_ok.
  - intros l ch ms1 m ms2 e H1 H2 HF Hp He. unfold Tg.channel_posts.
    rewrite H1, H2. now rewrite (messages_loop_raise l ms1 ms2 m e HF Hp He).
  - unfold Tg.tg_channels_info_list. now rewrite channels_loop_records.
  - intros l e Hin He. now apply channels_loop_log_error.
Qed.

End TgIsolation.

Lemma tg_failure_isolation_witness :
  map (fun d => dict_get d "Пост")
      (fst (Tg.tg_posts_info_list sample_client sample_links))
    = [Some (VStr "https://t.me/a/1"); Some (VStr "https://t.me/b/4")] /\
  In (Print "Произошла ошибка при обработке канала https://t.me/gone: No user has gone as username")
     (snd (Tg.tg_posts_info_list sample_client sample_links)) /\
  Tg.channel_posts sample_client "https://t.me/a" []
    = (normalized sample_client "https://t.me/a" [plain_message 1],
       Some (AttributeError "'NoneType' object has no attribute 'strftime'")) /\
  map (fun d => dict_get d "Канал")
      (fst (Tg.tg_channels_info_list sample_client (fun _ => sample_date)
              sample_links))
    = [Some (VStr "https://t.me/a"); Some (VStr "https://t.me/b")] /\
  In (Print "Произошла ошибка при обработке канала https://t.me/gone: No user has gone as username")
     (snd (Tg.tg_channels_info_list sample_client (fun _ => sample_date)
             sample_links)).
Proof.
  destruct (tg_failure_isolation sample_client (fun _ => sample_date) sample_links)
    as (P & PE & _ & _ & _ & PR & C & CE).
  split; [rewrite P; reflexivity|].
  split;
    [apply (PE "https://t.me/gone" (ValueError "No user has gone as username"));
       [simpl; auto|reflexivity]|].
  split.
  - apply (PR "https://t.me/a" (Tg.mkChannel (Some "https://t.me/a"))
              [plain_message 1] (undated_message 2) [plain_message 3]);
      try reflexivity.
    constructor; [|constructor]. right. eexists. reflexivity.
  - split; [rewrite C; reflexivity|].
    apply (CE "https://t.me/gone" (ValueError "No user has gone as username"));
      [simpl; auto|reflexivity].
Defined.

(** C5 fails as stated: the second message of the channel a raises, the
    record of its first message stays in the result. *)
Lemma tg_partial_channel_kept :
  snd (Tg.channel_posts sample_client "https://t.me/a" [])
    = Some (AttributeError "'NoneType' object has no attribute 'strftime'") /\
  map (fun d => dict_get d "Пост")
      (fst (Tg.tg_posts_info_list sample_client
              ["https://t.me/a"; "https://t.me/b"]))
    = [Some (VStr "https://t.me/a/1"); Some (VStr "https://t.me/b/4")].
Proof. split; reflexivity. Qed.

(** The VK loop: a wall whose request raises is logged without its link,
    [_get_vk_wall] returns [None], and the loop over it raises: the run ends
    there, with no record. *)
Lemma vk_wall_failure_aborts :
  Vk._get_vk_wall sample_api "down"
    = (Vk.Finished None,
       [Error "Ошибка при получении постов: Connection refused"]) /\
  Vk.vk_posts_info_list sample_api
    ["https://vk.com/ok"; "https://vk.com/down"; "https://vk.com/ok"]
  = (Vk.Crashed (TypeError "'NoneType' object is not iterable"),
     [ Info "Получение постов из группы ok.Осталось 2 групп(-ы, -а).";
       Info "Получение постов из группы down.Осталось 1 групп(-ы, -а).";
       Error "Ошибка при получении постов: Connection refused" ]).
Proof. split; reflexivity. Qed.

(** * Further properties *)

(** ** The upsert as a whole *)

Lemma get_existing_posts_eq (sid : string) (w : World) :
  _get_existing_posts sid w =
  (Ok (snapshot_of (sheet w (reads w) "Лист1!B2:B")), after_snapshot sid w).
Proof.
  unfold _get_existing_posts, try_except, bind, values_get, write_log, ret, lift,
    after_snapshot, snapshot_of, snapshot_log.
  destruct (sheet w (reads w) "Лист1!B2:B") as [msg|[[|r rs]|]];
    cbv beta iota zeta; cbn [sheet reads issued log];
    try (rewrite app_nil_r; reflexivity); try reflexivity.
  destruct (first_cells (r :: rs)); cbv beta iota zeta;
    cbn [sheet reads issued log]; [rewrite app_nil_r|]; reflexivity.
Qed.

Lemma project_length (post : dict) (keys : list string) (row : list value) :
  project post keys = Ok row -> List.length row = List.length keys.
Proof.
  revert row. induction keys as [|k ks IH]; intros row; simpl.
  - now intros [= <-].
  - destruct (getitem post k); simpl; [|discriminate].
    destruct (project post ks) as [vs|]; simpl; [|discriminate].
    intros [= <-]. simpl. f_equal. now apply IH.
Qed.

(** What a record of a posts normalizer gives to the upsert: a row as long
    as the record, with the identity at index 1, and a column letter. *)
Lemma produced_row (post : dict) (parser_flag : string) :
  produced post parser_flag ->
  exists row link letter,
    _get_row_from_post post parser_flag = Ok (Some row) /\
    getitem post "Пост" = Ok link /\
    row_item1 (Some row) = Ok link /\
    List.length row = List.length post /\
    column_letters (List.length post) = Ok letter.
Proof.
  assert (G : forall keys0 k0 ks letter,
             keys0 = k0 :: "Пост" :: ks ->
             column_letters (List.length keys0) = Ok letter ->
             map fst post = keys0 ->
             exists row link letter,
               project post keys0 = Ok row /\
               getitem post "Пост" = Ok link /\
               row_item1 (Some row) = Ok link /\
               List.length row = List.length post /\
               column_letters (List.length post) = Ok letter).
  { intros keys0 k0 ks letter K C H.
    destruct (project_total post keys0) as (row & P);
      [rewrite H; apply incl_refl|].
    pose proof P as P'. rewrite K in P'.
    destruct (project_posts_item1 _ _ _ _ P') as (link & L & N).
    exists row, link, letter. repeat split; auto.
    - unfold row_item1. now rewrite N.
    - rewrite (project_length _ _ _ P), <- H. now rewrite length_map.
    - rewrite <- (length_map fst post), H. exact C. }
  intros [[-> (client & l & m & H)]|[-> (api & l & p & lines & H)]].
  - apply tg_message_info_keys in H.
    destruct (G tg_posts_columns _ _ "J" eq_refl eq_refl H)
      as (row & link & letter & P & R).
    exists row, link, letter. rewrite get_row_tg_posts, P. auto.
  - apply vk_normalize_keys in H.
    destruct (G vk_posts_columns _ _ "K" eq_refl eq_refl H)
      as (row & link & letter & P & R).
    exists row, link, letter. rewrite get_row_vk_posts, P. auto.
Qed.

Lemma produced_has_identity (post : dict) (parser_flag : string) :
  produced post parser_flag -> has_identity post.
Proof.
  intros H. destruct (produced_row _ _ H) as (row & link & letter & _ & L & _).
  unfold has_identity. unfold getitem in L.
  destruct (dict_get post "Пост"); [discriminate|discriminate L].
Qed.

Lemma make_sheet_ready_produced (parser_flag : string) (posts : list dict) :
  Forall (fun p => produced p parser_flag) posts ->
  exists data,
    _make_sheet_ready_data posts parser_flag = Ok data /\
    Forall2 row_of posts data.
Proof.
  induction 1 as [|p posts Hp _ (data & E & F)]; simpl.
  - exists []. split; [reflexivity|constructor].
  - destruct (produced_row _ _ Hp) as (row & link & letter & R & L & I & _).
    rewrite R, E. simpl. eexists. split; [reflexivity|].
    constructor; [|exact F]. now exists link.
Qed.

Lemma contains_index (existing : list string) (link : value) :
  contains existing link = true -> exists i, index existing link = Some i.
Proof.
  unfold contains. induction existing as [|t l IH]; simpl; [discriminate|].
  destruct (value_eqb link (VStr t)); [now eexists|]. simpl.
  intros H. destruct (IH H) as (i & ->). now eexists.
Qed.

Lemma matched_row (existing : list string) (post : dict)
    (row : option (list value)) (link : value) :
  getitem post "Пост" = Ok link ->
  matched existing post = contains existing link.
Proof.
  unfold getitem, matched. destruct (dict_get post "Пост"); [|discriminate].
  now intros [= ->].
Qed.

(** The requests of [update_loop]: one for each row whose identity is in the
    snapshot, in the order of the rows. *)
Lemma update_loop_total (existing : list string) (letter : string)
    (posts : list dict) (data : list (option (list value))) :
  Forall2 row_of posts data ->
  forall acc,
  exists new,
    update_loop existing letter data acc = Ok (acc ++ new)%list /\
    List.length new = List.length (filter (matched existing) posts).
Proof.
  induction 1 as [|p row posts data (link & L & R) _ IH]; intros acc; simpl.
  - exists []. now rewrite app_nil_r.
  - rewrite R. simpl. rewrite (matched_row existing p row link L).
    destruct (contains existing link) eqn:C.
    + destruct (contains_index _ _ C) as (i & I).
      unfold update_row_index. rewrite I. simpl.
      destruct (IH (acc ++ [mkValueRange (update_range (i + 2) letter) "ROWS" [row]])%list)
        as (new & -> & Len).
      eexists. rewrite <- app_assoc. split; [reflexivity|]. simpl. now rewrite Len.
    + apply IH.
Qed.

Lemma filter_none {A} (f : A -> bool) (l : list A) :
  Forall (fun x => f x = false) l -> filter f l = [].
Proof.
  induction 1 as [|x l Hx _ IH]; simpl; [reflexivity|]. now rewrite Hx.
Qed.

Lemma filter_all {A} (f : A -> bool) (l : list A) :
  Forall (fun x => f x = true) l -> filter f l = l.
Proof.
  induction 1 as [|x l Hx _ IH]; simpl; [reflexivity|]. now rewrite Hx, IH.
Qed.

Lemma partition_loop_eq (existing : list string) (posts : list dict) :
  Forall has_identity posts ->
  partition_loop existing posts [] [] =
  Ok (filter (matched existing) posts,
      filter (fun p => negb (matched existing p)) posts).
Proof. intros H. now rewrite partition_loop_filter. Qed.

(** X1. With no record to reconcile, [run_google_upsert] reads the identity
    column once, writes nothing and returns. *)
Theorem upsert_of_nothing (sid parser_flag : string) (w : World) :
  fst (run_google_upsert sid [] parser_flag w) = Ok tt /\
  issued (snd (run_google_upsert sid [] parser_flag w))
    = (issued w ++ [Get sid "Лист1!B2:B"])%list /\
  reads (snd (run_google_upsert sid [] parser_flag w)) = S (reads w).
Proof.
  unfold run_google_upsert, bind. rewrite get_existing_posts_eq.
  repeat split.
Qed.

(** X2. When the read of the identity column gives no identity (the request
    raises, a row has no cell, or the column is empty), nothing is updated
    and every record is appended below the last row of column A. *)
Theorem no_snapshot_inserts_all (sid parser_flag : string) (posts : list dict)
    (w : World) (data : list (option (list value)))
    (v : option (list (list string))) :
  snapshot_of (sheet w (reads w) "Лист1!B2:B") = [] ->
  Forall has_identity posts ->
  posts <> [] ->
  _make_sheet_ready_data posts parser_flag = Ok data ->
  sheet w (S (reads w)) "Лист1!A:A" = Values v ->
  fst (run_google_upsert sid posts parser_flag w) = Ok tt /\
  issued (snd (run_google_upsert sid posts parser_flag w))
    = (issued w ++
         [ Get sid "Лист1!B2:B";
           Get sid "Лист1!A:A";
           BatchUpdate sid "USER_ENTERED"
             [ mkValueRange ("Лист1!A" ++ str_of_nat (last_row v)) "ROWS" data ] ])%list.
Proof.
  intros Hs Hid Hne Hdata Ha.
  assert (E : exists lg,
             run_google_upsert sid posts parser_flag w =
             (Ok tt,
              mkWorld (sheet w) (S (S (reads w)))
                (issued w ++
                   [ Get sid "Лист1!B2:B";
                     Get sid "Лист1!A:A";
                     BatchUpdate sid "USER_ENTERED"
                       [ mkValueRange ("Лист1!A" ++ str_of_nat (last_row v))
                                      "ROWS" data ] ])
                lg)).
  { unfold run_google_upsert, bind at 1. rewrite get_existing_posts_eq, Hs.
    unfold bind at 1, lift at 1. rewrite (partition_loop_eq [] posts Hid).
    rewrite filter_none, filter_all;
      [| apply Forall_forall; intros p _; unfold matched, contains;
         now destruct (dict_get p "Пост")
       | apply Forall_forall; intros p _; unfold matched, contains;
         now destruct (dict_get p "Пост") ].
    destruct posts as [|p posts]; [congruence|].
    unfold bind, write_log, ret, _insert_new_rows, bind, lift, values_get,
      values_batchUpdate, write_log, after_snapshot.
    rewrite Hdata. cbn [sheet reads issued log]. rewrite Ha.
    cbn [sheet reads issued log]. rewrite <- ?app_assoc. cbn [app].
    eexists. reflexivity. }
  destruct E as (lg & ->). split; reflexivity.
Qed.

(** [_update_existing_rows] on records of a posts normalizer: it reads the
    identity column, and writes one batch if any of the records is found. *)
Lemma update_existing_rows_eq (sid parser_flag : string) (p : dict)
    (rows : list dict) (w : World) :
  Forall (fun q => produced q parser_flag) (p :: rows) ->
  exists new,
    List.length new
      = List.length (filter (matched (snapshot_of (sheet w (reads w) "Лист1!B2:B")))
                            (p :: rows)) /\
    _update_existing_rows sid (p :: rows) parser_flag w =
    match new with
    | [] => (Ok tt, after_snapshot sid w)
    | _ :: _ =>
        (Ok tt,
         mkWorld (sheet w) (S (reads w))
           (issued (after_snapshot sid w)
              ++ [BatchUpdate sid "USER_ENTERED" new])
           (log (after_snapshot sid w)
              ++ [Info ("Успешно обновлены строки: "
                        ++ str_of_nat (List.length new))]))
    end.
Proof.
  intros H.
  destruct (make_sheet_ready_produced parser_flag (p :: rows) H) as (data & D & F).
  inversion H as [|? ? Hp _]; subst.
  destruct (produced_row _ _ Hp) as (row & link & letter & _ & _ & _ & _ & C).
  destruct (update_loop_total (snapshot_of (sheet w (reads w) "Лист1!B2:B"))
              letter (p :: rows) data F []) as (new & U & Len).
  exists new. split; [exact Len|].
  unfold _update_existing_rows, bind, lift. rewrite C, D, get_existing_posts_eq, U.
  cbn [app]. destruct new; reflexivity.
Qed.

(** X3. A record that the first read of the identity column finds and the
    second read no longer finds is neither updated nor appended: when this
    holds for all the records of a run, the run reads the column twice,
    writes nothing and returns. *)
Theorem vanished_identities_are_dropped (sid parser_flag : string)
    (posts : list dict) (w : World) :
  Forall (fun p => produced p parser_flag) posts ->
  posts <> [] ->
  Forall (fun p => matched (snapshot_of (sheet w (reads w) "Лист1!B2:B")) p = true)
         posts ->
  Forall (fun p => matched (snapshot_of (sheet w (S (reads w)) "Лист1!B2:B")) p = false)
         posts ->
  fst (run_google_upsert sid posts parser_flag w) = Ok tt /\
  issued (snd (run_google_upsert sid posts parser_flag w))
    = (issued w ++ [Get sid "Лист1!B2:B"; Get sid "Лист1!B2:B"])%list.
Proof.
  intros Hp Hne H1 H2.
  assert (E : exists lg,
             run_google_upsert sid posts parser_flag w =
             (Ok tt,
              mkWorld (sheet w) (S (S (reads w)))
                (issued w ++ [Get sid "Лист1!B2:B"; Get sid "Лист1!B2:B"])
                lg)).
  { unfold run_google_upsert, bind at 1. rewrite get_existing_posts_eq.
    unfold bind at 1, lift at 1.
    rewrite partition_loop_eq
      by (eapply Forall_impl; [|exact Hp]; intros a; apply produced_has_identity).
    rewrite (filter_all _ _ H1).
    rewrite filter_none
      by (eapply Forall_impl; [|exact H1]; intros a Ha; simpl in Ha; now rewrite Ha).
    destruct posts as [|p posts]; [congruence|].
    unfold bind at 1. unfold write_log at 1. unfold bind at 1.
    match goal with
    | |- context [_update_existing_rows sid (p :: posts) parser_flag ?w0] =>
        destruct (update_existing_rows_eq sid parser_flag p posts w0 Hp)
          as (new & Len & ->)
    end.
    cbn [sheet reads issued log after_snapshot] in Len.
    rewrite (filter_none _ _ H2) in Len.
    destruct new; [|discriminate Len].
    unfold ret, after_snapshot. cbn [sheet reads issued log].
    rewrite <- ?app_assoc. cbn [app]. eexists. reflexivity. }
  destruct E as (lg & ->). split; reflexivity.
Qed.

Lemma insert_new_rows_outcome (sid parser_flag : string) (rows : list dict)
    (w : World) (data : list (option (list value))) :
  _make_sheet_ready_data rows parser_flag = Ok data ->
  fst (_insert_new_rows sid rows parser_flag w) = Ok tt \/
  exists msg, fst (_insert_new_rows sid rows parser_flag w) = Raise (HttpError msg).
Proof.
  intros D. unfold _insert_new_rows, bind, lift, values_get. rewrite D.
  destruct (sheet w (reads w) "Лист1!A:A") as [msg|v]; cbn [fst].
  - right. now exists msg.
  - left. reflexivity.
Qed.

Lemma upsert_of_produced (sid parser_flag : string) (posts : list dict)
    (w : World) :
  Forall (fun p => produced p parser_flag) posts ->
  fst (run_google_upsert sid posts parser_flag w) = Ok tt \/
  exists msg,
    fst (run_google_upsert sid posts parser_flag w) = Raise (HttpError msg).
Proof.
  intros Hp.
  set (e1 := snapshot_of (sheet w (reads w) "Лист1!B2:B")).
  assert (Hu : Forall (fun p => produced p parser_flag) (filter (matched e1) posts)).
  { apply Forall_forall. intros x Hx. apply filter_In in Hx as [Hx _].
    revert x Hx. now apply Forall_forall. }
  assert (Hi : Forall (fun p => produced p parser_flag)
                      (filter (fun p => negb (matched e1 p)) posts)).
  { apply Forall_forall. intros x Hx. apply filter_In in Hx as [Hx _].
    revert x Hx. now apply Forall_forall. }
  assert (E : exists w1,
             run_google_upsert sid posts parser_flag w =
             match filter (fun p => negb (matched e1 p)) posts with
             | [] => ret tt
             | _ :: _ =>
                 _insert_new_rows sid (filter (fun p => negb (matched e1 p)) posts)
                                  parser_flag
             end w1).
  { unfold run_google_upsert, bind at 1. rewrite get_existing_posts_eq.
    unfold bind at 1, lift at 1.
    rewrite partition_loop_eq
      by (eapply Forall_impl; [|exact Hp]; intros a; apply produced_has_identity).
    fold e1.
    unfold bind at 1. unfold write_log at 1. unfold bind at 1.
    match goal with
    | |- context [match filter (matched e1) posts with
                  | [] => ret tt
                  | _ :: _ => _ end ?w0] =>
        assert (U : exists w1,
                   match filter (matched e1) posts with
                   | [] => ret tt
                   | _ :: _ =>
                       _update_existing_rows sid (filter (matched e1) posts)
                                             parser_flag
                   end w0 = (Ok tt, w1))
    end.
    { destruct (filter (matched e1) posts) as [|p rows]; [now eexists|].
      match goal with
      | |- exists _, _update_existing_rows _ _ _ ?w0 = _ =>
          destruct (update_existing_rows_eq sid parser_flag p rows w0 Hu)
            as (new & _ & ->)
      end.
      destruct new; now eexists. }
    destruct U as (w1 & ->). now exists w1. }
  destruct E as (w1 & ->).
  destruct (filter (fun p => negb (matched e1 p)) posts) as [|q rows];
    [now left|].
  destruct (make_sheet_ready_produced parser_flag (q :: rows) Hi) as (data & D & _).
  apply (insert_new_rows_outcome sid parser_flag (q :: rows) w1 data D).
Qed.

(** X4. The upsert of records of the Telegram or the VK posts normalizer
    raises no [KeyError], [IndexError] or [TypeError]: with writes that the
    sheet accepts it returns, unless the read of column A for the append
    raises. *)
Theorem normalized_upsert_is_safe (sid parser_flag : string)
    (posts : list dict) (w : World) :
  Forall (fun p => produced p parser_flag) posts ->
  fst (run_google_upsert sid posts parser_flag w) = Ok tt \/
  exists msg,
    fst (run_google_upsert sid posts parser_flag w) = Raise (HttpError msg).
Proof. exact (upsert_of_produced sid parser_flag posts w). Qed.

(** ** The run of the Telegram posts parser *)

Lemma messages_loop_produced (client : Tg.TelegramClient) (l : string)
    (ms : list Tg.Message) :
  forall acc,
    Forall (fun p => produced p "tg_posts_parser") acc ->
    Forall (fun p => produced p "tg_posts_parser")
           (fst (Tg.messages_loop client l ms acc)).
Proof.
  induction ms as [|m ms IH]; intros acc H; simpl; [exact H|].
  destruct (Tg.passed_over m); [now apply IH|].
  destruct (Tg.message_info client l m) as [info|e] eqn:E; [|exact H].
  apply IH. apply Forall_app. split; [exact H|].
  constructor; [|constructor]. left. split; [reflexivity|].
  now exists client, l, m.
Qed.

Lemma posts_loop_produced (client : Tg.TelegramClient) (links : list string) :
  forall counter acc out,
    Forall (fun p => produced p "tg_posts_parser") acc ->
    Forall (fun p => produced p "tg_posts_parser")
           (fst (Tg.posts_loop client links counter acc out)).
Proof.
  induction links as [|l links IH]; intros counter acc out H; simpl; [exact H|].
  assert (C : Forall (fun p => produced p "tg_posts_parser")
                     (fst (Tg.channel_posts client l acc))).
  { unfold Tg.channel_posts.
    destruct (Tg.get_entity client l) as [channel|e]; [|exact H].
    destruct (Tg.get_messages client channel) as [ms|e]; [|exact H].
    now apply messages_loop_produced. }
  destruct (Tg.channel_posts client l acc) as [posts [e|]]; now apply IH.
Qed.

(** X24. Whatever the requests to Telegram answer, the run of the Telegram
    posts parser ends without a [KeyError], an [IndexError] or a
    [TypeError]: with writes that the sheet accepts it returns, or it raises
    the error of the read of column A before the append. *)
Theorem tg_posts_run_is_safe (client : Tg.TelegramClient)
    (channel_links : list string) (sid : string) (w : World) :
  fst (TgRun.run_tg_posts_parser client channel_links sid w) = Ok tt \/
  exists msg,
    fst (TgRun.run_tg_posts_parser client channel_links sid w)
      = Raise (HttpError msg).
Proof.
  unfold TgRun.run_tg_posts_parser, Tg.tg_posts_info_list.
  pose proof (posts_loop_produced client channel_links
                (Z.of_nat (List.length channel_links)) [] [] (Forall_nil _)) as H.
  destruct (Tg.posts_loop client channel_links
              (Z.of_nat (List.length channel_links)) [] []) as [posts out].
  apply upsert_of_produced. exact H.
Qed.

(** X5. For a record of a posts normalizer, the range of an update is as
    wide as the row it writes: the row has 10 cells and the range ends in
    column J for the Telegram parser, 11 cells and column K for the VK
    parser, the letter that [column_letters] gives for the size of the
    record.  For a record whose identity stands first at position [i] of
    the identity column, the request of [_update_existing_rows] is the range
    from [A] to this letter in row [i + 2], with this row. *)
Theorem update_range_spans_row (post : dict) (parser_flag : string)
    (existing : list string) (i : nat) :
  produced post parser_flag ->
  (exists link, getitem post "Пост" = Ok link /\ index existing link = Some i) ->
  exists row letter,
    _get_row_from_post post parser_flag = Ok (Some row) /\
    column_letters (List.length post) = Ok letter /\
    letter = String (ascii_of_nat (64 + List.length row)) "" /\
    (parser_flag = "tg_posts_parser" /\ List.length row = 10 /\ letter = "J" \/
     parser_flag = "vk_posts_parser" /\ List.length row = 11 /\ letter = "K") /\
    update_loop existing letter [Some row] []
      = Ok [ mkValueRange ("Лист1!A" ++ str_of_nat (i + 2) ++ ":" ++ letter
                             ++ str_of_nat (i + 2))
                          "ROWS" [Some row] ].
Proof.
  intros H (link & L & I).
  destruct (produced_row _ _ H) as (row & link' & letter & R & L' & R1 & Len & C).
  rewrite L in L'. injection L' as <-.
  assert (K : parser_flag = "tg_posts_parser" /\ List.length post = 10 \/
              parser_flag = "vk_posts_parser" /\ List.length post = 11).
  { destruct H as [[-> (client & l & m & H)]|[-> (api & l & p & lines & H)]].
    - left. split; [reflexivity|]. apply tg_message_info_keys in H.
      now rewrite <- (length_map fst post), H.
    - right. split; [reflexivity|]. apply vk_normalize_keys in H.
      now rewrite <- (length_map fst post), H. }
  exists row, letter. split; [exact R|]. split; [exact C|].
  assert (U : update_loop existing letter [Some row] []
              = Ok [ mkValueRange ("Лист1!A" ++ str_of_nat (i + 2) ++ ":"
                                     ++ letter ++ str_of_nat (i + 2))
                                  "ROWS" [Some row] ]).
  { cbn [update_loop]. rewrite R1. cbn [rbind].
    rewrite (index_contains existing link i I).
    unfold update_row_index. rewrite I. reflexivity. }
  destruct K as [(F & N)|(F & N)]; rewrite N in C; rewrite Len, N;
    injection C as <-; (split; [reflexivity|]); (split; [|exact U]);
    [left|right]; auto.
Qed.

(** ** Identities of Telegram posts *)

Lemma str_of_Z_inj (a b : Z) : str_of_Z a = str_of_Z b -> a = b.
Proof.
  unfold str_of_Z. intros H.
  assert (N : forall z, Z.to_int z <> Decimal.Pos Decimal.Nil /\
                        Z.to_int z <> Decimal.Neg Decimal.Nil).
  { intros [|p|p]; simpl; split; try discriminate;
      intros [= E]; now apply (DecimalPos.Unsigned.to_uint_nonnil p). }
  apply DecimalZ.to_int_inj.
  assert (S : Some (Z.to_int a) = Some (Z.to_int b)).
  { rewrite <- (NilZero.isi (Z.to_int a)), <- (NilZero.isi (Z.to_int b));
      try apply N. now rewrite H. }
  now injection S.
Qed.

Lemma append_inj_l (p s t : string) : p ++ s = p ++ t -> s = t.
Proof. induction p; simpl; [auto|]. intros [= H]. auto. Qed.

(** X6. Two messages of one channel link get the same identity only if they
    have the same id: within a channel the identity column tells the posts
    apart. *)
Theorem tg_identity_injective (client : Tg.TelegramClient) (link : string)
    (m1 m2 : Tg.Message) (d1 d2 : dict) :
  Tg.message_info client link m1 = Ok d1 ->
  Tg.message_info client link m2 = Ok d2 ->
  dict_get d1 "Пост" = dict_get d2 "Пост" ->
  Tg.id m1 = Tg.id m2.
Proof.
  intros H1 H2.
  apply tg_message_info_fields in H1 as (o1 & w1 & _ & _ & ->).
  apply tg_message_info_fields in H2 as (o2 & w2 & _ & _ & ->).
  cbn [dict_get String.eqb Ascii.eqb Bool.eqb]. simpl dict_get.
  intros [= E]. apply append_inj_l in E. apply (append_inj_l "/") in E.
  now apply str_of_Z_inj.
Qed.

(** ** The run of the Telegram channels parser *)

Lemma channel_records_rows (client : Tg.TelegramClient) (now : nat -> datetime)
    (links : list string) :
  forall k,
    _make_sheet_ready_data (channel_records client now k links) "tg_channel_parser"
    = Ok (map row_of_record (channel_records client now k links)).
Proof.
  induction links as [|l links IH]; intros k; [reflexivity|].
  cbn [channel_records]. destruct (Tg.get_full_channel client l); [|apply IH].
  cbn [_make_sheet_ready_data map]. rewrite IH. reflexivity.
Qed.

(** X7. [run_tg_channels_parser] never reads the identity column and never
    updates a row: it reads column A once and appends one row for each
    channel whose request did not raise, below the last row.  The append
    is issued even when no channel answered. *)
Theorem tg_channels_always_appended (client : Tg.TelegramClient)
    (now : nat -> datetime) (links : list string) (sid : string) (w : World)
    (v : option (list (list string))) :
  sheet w (reads w) "Лист1!A:A" = Values v ->
  fst (TgRun.run_tg_channels_parser client now links sid w) = Ok tt /\
  issued (snd (TgRun.run_tg_channels_parser client now links sid w))
    = (issued w ++
         [ Get sid "Лист1!A:A";
           BatchUpdate sid "USER_ENTERED"
             [ mkValueRange ("Лист1!A" ++ str_of_nat (last_row v)) "ROWS"
                 (map row_of_record (channel_records client now 0 links)) ] ])%list.
Proof.
  intros Ha.
  assert (E : exists lg,
             TgRun.run_tg_channels_parser client now links sid w =
             (Ok tt,
              mkWorld (sheet w) (S (reads w))
                (issued w ++
                   [ Get sid "Лист1!A:A";
                     BatchUpdate sid "USER_ENTERED"
                       [ mkValueRange ("Лист1!A" ++ str_of_nat (last_row v)) "ROWS"
                           (map row_of_record (channel_records client now 0 links)) ] ])
                lg)).
  { unfold TgRun.run_tg_channels_parser.
    pose proof (channels_loop_records client now links 0
                  (Z.of_nat (List.length links)) [] []) as R.
    unfold Tg.tg_channels_info_list.
    destruct (Tg.channels_loop client now links 0
                (Z.of_nat (List.length links)) [] []) as [records out].
    cbn [fst app] in R. subst records.
    unfold _insert_new_rows, bind, lift, values_get, values_batchUpdate,
      write_log, TgRun.with_output.
    rewrite channel_records_rows. cbn [sheet reads issued log]. rewrite Ha.
    cbn [sheet reads issued log]. rewrite <- ?app_assoc. cbn [app].
    eexists. reflexivity. }
  destruct E as (lg & ->). split; reflexivity.
Qed.

(** ** Errors in the VK posts loop *)

Lemma vk_normalize_unfold (api : Vk.Api) (link : string) (post : Vk.Post) :
  Vk.normalize api link post =
  (repost <- repost_of post ;;
   let '(original_post_text, repost_text, original_post_url) := repost in
   post_text <- Vk.post_text post ;;
   let links := Vk.links_in_post post_text original_post_text repost_text in
   match Vk.post_info api link post original_post_text post_text repost_text
                      original_post_url links with
   | Ok info => Ok (Some info, [])
   | Raise error =>
       url <- Vk.wall_url (Vk.owner_id post) (Vk.id post) ;;
       Ok (None, [Error ("Ошибка при получении постов: " ++ exn_str error
                         ++ "," ++ String (ascii_of_nat 10) ""
                         ++ "Проблемный пост: " ++ url)])
   end)%result.
Proof. reflexivity. Qed.

Lemma plain_vk_post_parts (post : Vk.Post) :
  plain_vk_post post ->
  repost_of post = Ok (None, None, None) /\
  Vk.post_text post = Ok (Vk.text post).
Proof.
  intros [Hc Ha]. unfold repost_of, Vk.post_text. rewrite Hc, Ha.
  now rewrite andb_false_r.
Qed.

Lemma video_match (A : Type) (ty : option string) (X Y : A) :
  match ty with Some "video" => X | _ => Y end
  = if match ty with Some t => String.eqb t "video" | None => false end
    then X else Y.
Proof.
  destruct ty as [t|]; [|reflexivity].
  do 5 (destruct t as [|[[] [] [] [] [] [] [] []] t]; try reflexivity).
  destruct t; reflexivity.
Qed.

(** What the statements on a repost give, case by case. *)
Lemma repost_of_cases (post : Vk.Post) :
  (original_is_whole post /\ exists r, repost_of post = Ok r) \/
  (Vk.truthy_list (Vk.copy_history post) = true /\
   Vk.o_owner_id (original_of post) = None /\
   repost_of post = Raise (KeyError "owner_id")) \/
  (Vk.truthy_list (Vk.copy_history post) = true /\
   Vk.o_owner_id (original_of post) <> None /\
   Vk.o_id (original_of post) = None /\
   repost_of post = Raise (KeyError "id")).
Proof.
  unfold repost_of, original_is_whole. fold (original_of post).
  destruct (Vk.truthy_list (Vk.copy_history post)) eqn:T.
  - unfold Vk.wall_url.
    destruct (Vk.o_owner_id (original_of post)) as [o|] eqn:O.
    + destruct (Vk.o_id (original_of post)) as [i|] eqn:I.
      * left. split; [intros _; split; discriminate|]. eexists. reflexivity.
      * right. right. repeat split; auto; discriminate.
    + right. left. auto.
  - left. split; [discriminate|]. eexists. reflexivity.
Qed.

(** What the statements on the text give, case by case. *)
Lemma post_text_cases (post : Vk.Post) :
  (video_is_there post /\ exists t, Vk.post_text post = Ok t) \/
  (~ video_is_there post /\ Vk.post_text post = Raise (KeyError "video")).
Proof.
  unfold Vk.post_text, video_is_there.
  destruct (truthy_str (Vk.text post)) eqn:T; cbn [negb andb].
  { left. split; [discriminate|]. eexists. reflexivity. }
  destruct (Vk.attachments post) as [[|a l]|] eqn:A; cbn [Vk.truthy_list].
  - left. split; [intros _ a l [=]|]. eexists. reflexivity.
  - rewrite video_match.
    destruct (Vk.a_type a) as [t|] eqn:Ty.
    + destruct (String.eqb t "video") eqn:V.
      * apply String.eqb_eq in V. subst t.
        destruct (Vk.a_video a) as [d|] eqn:D.
        -- left. split; [|eexists; reflexivity].
           intros _ a' l' [= <- <-] _. congruence.
        -- right. split; [|reflexivity].
           intros H. now apply (H eq_refl a l eq_refl Ty).
      * left. split; [|eexists; reflexivity].
        intros _ a' l' [= <- <-] Ty'. rewrite Ty in Ty'. injection Ty' as ->.
        discriminate V.
    + left. split; [|eexists; reflexivity].
      intros _ a' l' [= <- <-] Ty'. congruence.
  - left. split; [intros _ a l [=]|]. eexists. reflexivity.
Qed.

(** X8. A post of a wall that has its owner and its id but no date, or whose
    date is refused, and for which the statements before [try] do not raise
    (the original of a repost has its owner and its id, a video that is
    asked for is there), is logged with its own link and left out; the loop
    goes on with the next post of the wall. *)
Theorem vk_post_failure_is_isolated (api : Vk.Api) (link : string)
    (post : Vk.Post) (rest : list Vk.Post) (acc : list dict)
    (out : list LogLine) (o i : Z) (e : exn) :
  reaches_try post ->
  Vk.owner_id post = Some o ->
  Vk.id post = Some i ->
  (Vk.date post = None /\ e = KeyError "date") \/
  (exists d, Vk.date post = Some d /\ Vk.fromtimestamp api d = Raise e) ->
  Vk.wall_loop api link (post :: rest) acc out =
  Vk.wall_loop api link rest acc (out ++ [vk_post_error_line e o i]).
Proof.
  intros (Hw & Hv) Ho Hi Hd. cbn [Vk.wall_loop]. rewrite vk_normalize_unfold.
  destruct (repost_of_cases post) as [(_ & [[ot rt] ou] & ->)|[(T & O & _)|(T & _ & I & _)]];
    [|destruct (Hw T) as (W & _); now destruct (W O)
     |destruct (Hw T) as (_ & W); now destruct (W I)].
  destruct (post_text_cases post) as [(_ & pt & ->)|(V & _)];
    [|now destruct (V Hv)].
  cbn [rbind].
  unfold Vk.post_info, Vk.wall_url. rewrite Ho, Hi. cbn [Vk.need rbind].
  destruct Hd as [(Hd & ->)|(d & Hd & Hf)]; rewrite Hd; cbn [rbind];
    try rewrite Hf; reflexivity.
Qed.

(** X9. A post without its owner ends the loop over the wall with a
    [KeyError], and no line is logged for it.  When the statements before
    [try] do not raise, the key is [owner_id]: the handler of the exception
    formats the link of the post and raises in turn.  Otherwise the
    exception is the one of the statements before [try]: for a repost whose
    original has its owner but no id, the key is [id]. *)
Theorem vk_post_without_owner_is_fatal (api : Vk.Api) (link : string)
    (post : Vk.Post) (rest : list Vk.Post) (acc : list dict)
    (out : list LogLine) :
  Vk.owner_id post = None ->
  exists key,
    Vk.normalize api link post = Raise (KeyError key) /\
    Vk.wall_loop api link (post :: rest) acc out = (Raise (KeyError key), out) /\
    (reaches_try post -> key = "owner_id") /\
    (Vk.truthy_list (Vk.copy_history post) = true ->
     Vk.o_owner_id (original_of post) <> None ->
     Vk.o_id (original_of post) = None ->
     key = "id").
Proof.
  intros Ho.
  assert (N : exists key,
             Vk.normalize api link post = Raise (KeyError key) /\
             (reaches_try post -> key = "owner_id") /\
             (Vk.truthy_list (Vk.copy_history post) = true ->
              Vk.o_owner_id (original_of post) <> None ->
              Vk.o_id (original_of post) = None ->
              key = "id")).
  { rewrite vk_normalize_unfold.
    destruct (repost_of_cases post)
      as [(Hw & [[ot rt] ou] & ->)|[(T & O & ->)|(T & O & I & ->)]].
    - destruct (post_text_cases post) as [(_ & pt & ->)|(V & ->)]; cbn [rbind].
      + exists "owner_id". unfold Vk.post_info, Vk.wall_url. rewrite Ho.
        split; [reflexivity|]. split; [reflexivity|].
        intros T _ I. destruct (Hw T) as (_ & W). now destruct (W I).
      + exists "video". split; [reflexivity|]. split.
        * intros (_ & Hv). now destruct (V Hv).
        * intros T _ I. destruct (Hw T) as (_ & W). now destruct (W I).
    - exists "owner_id". split; [reflexivity|]. split; [reflexivity|].
      intros _ W. now destruct (W O).
    - exists "id". split; [reflexivity|]. split; [|reflexivity].
      intros (Hw & _). destruct (Hw T) as (_ & W). now destruct (W I). }
  destruct N as (key & N & A & B). exists key.
  split; [exact N|]. split; [|split; [exact A|exact B]].
  cbn [Vk.wall_loop]. now rewrite N.
Qed.

(** X10. A wall whose request raises, or whose answer has no items, ends the
    run with a [TypeError], and a wall answered with a status other than 200
    ends it with [sys.exit]: in both cases the records gathered from the
    links before it are not returned. *)
Theorem vk_wall_failure_is_fatal (api : Vk.Api) (link : string)
    (rest : list string) (counter : Z) (acc : list dict) (out : list LogLine)
    (domain : list ascii) :
  Re.search_group Vk.vk_domain_pattern [] (list_ascii_of_string link)
    = Some (Some domain) ->
  (forall e,
     Vk.requests_get api (string_of_list_ascii domain) = Raise e ->
     fst (Vk.links_loop api (link :: rest) counter acc out)
       = Vk.Crashed (TypeError "'NoneType' object is not iterable")) /\
  (forall r e,
     Vk.requests_get api (string_of_list_ascii domain) = Ok r ->
     Vk.status_code r = 200 ->
     Vk.items r = Raise e ->
     fst (Vk.links_loop api (link :: rest) counter acc out)
       = Vk.Crashed (TypeError "'NoneType' object is not iterable")) /\
  (forall r,
     Vk.requests_get api (string_of_list_ascii domain) = Ok r ->
     Vk.status_code r <> 200 ->
     fst (Vk.links_loop api (link :: rest) counter acc out)
       = Vk.Exit ("Статус код не равен 200. Получен статус: "
                  ++ str_of_nat (Vk.status_code r))).
Proof.
  intros Hd. repeat split.
  - intros e He. cbn [Vk.links_loop]. rewrite Hd. unfold Vk._get_vk_wall.
    rewrite He. reflexivity.
  - intros r e Hr Hs Hi. cbn [Vk.links_loop]. rewrite Hd. unfold Vk._get_vk_wall.
    rewrite Hr, Hs, Hi. reflexivity.
  - intros r Hr Hs. cbn [Vk.links_loop]. rewrite Hd. unfold Vk._get_vk_wall.
    rewrite Hr. apply Nat.eqb_neq in Hs. rewrite Hs. reflexivity.
Qed.

(** ** The columns of a VK record *)

Lemma vk_normalize_inv (api : Vk.Api) (link : string) (post : Vk.Post)
    (info : dict) (lines : list LogLine) :
  Vk.normalize api link post = Ok (Some info, lines) ->
  exists original_post_text repost_text original_post_url post_text url when,
    repost_of post = Ok (original_post_text, repost_text, original_post_url) /\
    Vk.post_text post = Ok post_text /\
    info =
      [ ("Группа", VStr link);
        ("Пост", VStr url);
        ("Текст оригинального поста",
          VStr ("'" ++ py_str (of_opt_str (if truthy_str original_post_text
                                           then original_post_text
                                           else post_text))));
        ("Дата-время", VStr (strftime when));
        ("Лайки", Vk.counter (Vk.likes post));
        ("Репосты", Vk.counter (Vk.reposts post));
        ("Комментарии", Vk.counter (Vk.comments post));
        ("Просмотры", Vk.counter (Vk.views post));
        ("Текст репоста", of_opt_str repost_text);
        ("Ссылка на оригинальный пост", of_opt_str original_post_url);
        ("Ссылка в посте",
          of_opt_str (Vk.links_in_post post_text original_post_text repost_text)) ].
Proof.
  rewrite vk_normalize_unfold.
  destruct (repost_of post) as [[[ot rt] ou]|]; cbn [rbind]; [|discriminate].
  destruct (Vk.post_text post) as [pt|]; cbn [rbind]; [|discriminate].
  destruct (Vk.post_info api link post ot pt rt ou (Vk.links_in_post pt ot rt))
    as [i|] eqn:E.
  - intros [= <- <-]. revert E. unfold Vk.post_info.
    destruct (Vk.wall_url _ _) as [url|]; cbn [rbind]; [|discriminate].
    destruct (Vk.date post); cbn [rbind]; [|discriminate].
    destruct (Vk.fromtimestamp api z) as [when|]; cbn [rbind]; [|discriminate].
    intros [= <-]. exists ot, rt, ou, pt, url, when. auto.
  - destruct (Vk.wall_url _ _); cbn [rbind]; discriminate.
Qed.

Lemma links_of_falsy (t : option string) :
  truthy_str t = false -> Vk.links_of t = [].
Proof. unfold Vk.links_of. now intros ->. Qed.

Lemma links_in_post_collector (a b c : option string) :
  of_opt_str (Vk.links_in_post a b c) = joined_links (links_collector a b c).
Proof.
  unfold Vk.links_in_post, links_collector.
  destruct (truthy_str a) eqn:A; cbn [orb].
  - now destruct (Vk.links_of a ++ Vk.links_of b ++ Vk.links_of c)%list.
  - destruct (truthy_str b) eqn:B; cbn [orb].
    + now destruct (Vk.links_of a ++ Vk.links_of b ++ Vk.links_of c)%list.
    + destruct (truthy_str c) eqn:C.
      * now destruct (Vk.links_of a ++ Vk.links_of b ++ Vk.links_of c)%list.
      * now rewrite !links_of_falsy.
Qed.

(** X11. In the record of a repost that has a text of its own, the links of
    this text are listed twice: once as links of the post and once as links
    of the repost, around the links of the original post. *)
Theorem vk_repost_links_listed_twice (api : Vk.Api) (link : string)
    (post : Vk.Post) (info : dict) (lines : list LogLine) :
  Vk.normalize api link post = Ok (Some info, lines) ->
  Vk.truthy_list (Vk.copy_history post) = true ->
  truthy_str (Vk.text post) = true ->
  let original :=
    last (match Vk.copy_history post with Some h => h | None => [] end)
         (Vk.mkOriginal None None None) in
  dict_get info "Ссылка в посте"
    = Some (joined_links
              (Vk.links_of (Vk.text post) ++ Vk.links_of (Vk.o_text original)
                 ++ Vk.links_of (Vk.text post))) /\
  (forall l,
     count_occ string_dec
       (Vk.links_of (Vk.text post) ++ Vk.links_of (Vk.o_text original)
          ++ Vk.links_of (Vk.text post)) l
     = 2 * count_occ string_dec (Vk.links_of (Vk.text post)) l
       + count_occ string_dec (Vk.links_of (Vk.o_text original)) l).
Proof.
  intros H Hc Ht original.
  apply vk_normalize_inv in H
    as (ot & rt & ou & pt & url & when & R & P & ->).
  split.
  - unfold repost_of in R. rewrite Hc in R. fold original in R.
    destruct (Vk.wall_url _ _); cbn [rbind] in R; [|discriminate].
    injection R as <- <- <-.
    unfold Vk.post_text in P. rewrite Ht in P. cbn [negb andb] in P.
    injection P as <-.
    cbn [dict_get]. simpl dict_get. now rewrite links_in_post_collector.
  - intros l. rewrite !count_occ_app. lia.
Qed.

(** X12. The text column of a VK record is never null: it is a string that
    begins with an apostrophe.  For a post that is no repost and has no
    attachment the apostrophe is followed by the text of the post, and by
    [None] when the post has no text key. *)
Theorem vk_text_column_is_quoted (api : Vk.Api) (link : string)
    (post : Vk.Post) (info : dict) (lines : list LogLine) :
  Vk.normalize api link post = Ok (Some info, lines) ->
  exists s,
    dict_get info "Текст оригинального поста" = Some (VStr (String "'" s)) /\
    (plain_vk_post post ->
     s = match Vk.text post with Some t => t | None => "None" end).
Proof.
  intros H.
  apply vk_normalize_inv in H
    as (ot & rt & ou & pt & url & when & R & P & ->).
  eexists. split; [reflexivity|].
  intros Hp. destruct (plain_vk_post_parts post Hp) as (R' & P').
  rewrite R' in R. rewrite P' in P. injection R as <- <- <-. injection P as <-.
  cbn [truthy_str]. now destruct (Vk.text post).
Qed.

(** ** What the patterns match *)

Lemma starts_with_app (p l l' : list ascii) :
  Re.starts_with p l = Some l' -> l = (p ++ l')%list.
Proof.
  revert l. induction p as [|a p IH]; intros [|b l]; simpl; try discriminate.
  - now intros [= <-].
  - now intros [= <-].
  - destruct (Ascii.eqb_spec a b) as [->|]; [|discriminate].
    intros H. now rewrite (IH _ H).
Qed.

Lemma starts_with_refl (p l : list ascii) :
  Re.starts_with p (p ++ l) = Some l.
Proof.
  induction p as [|a p IH]; simpl; [now destruct l|].
  now rewrite Ascii.eqb_refl.
Qed.

Lemma rep_sound (f : ascii -> bool) (after : list ascii) :
  forall lo hi before k ans,
    Re.rep f lo hi before after k = Some ans ->
    exists s after',
      after = (s ++ after')%list /\
      Forall (fun c => f c = true) s /\
      lo <= List.length s /\
      match hi with Some h => List.length s <= h | None => True end /\
      k (rev s ++ before)%list after' = Some ans.
Proof.
  assert (Stop : forall lo (hi : option nat) before after0
                        (k : list ascii -> list ascii -> option Re.answer) ans,
             (if Nat.eqb lo 0 then k before after0 else None) = Some ans ->
             exists s after',
               after0 = (s ++ after')%list /\
               Forall (fun c => f c = true) s /\
               lo <= List.length s /\
               match hi with Some h => List.length s <= h | None => True end /\
               k (rev s ++ before)%list after' = Some ans).
  { intros lo hi before after0 k ans H.
    destruct (Nat.eqb_spec lo 0) as [->|]; [|discriminate].
    exists [], after0. split; [reflexivity|]. split; [constructor|].
    split; [simpl; lia|]. split; [destruct hi; simpl; [lia|exact I]|exact H]. }
  induction after as [|c after IH]; intros lo hi before k ans; simpl.
  - apply Stop.
  - destruct (f c && Re.hi_open hi) eqn:G; [|apply Stop].
    destruct (Re.rep f (pred lo) (Re.dec_hi hi) (c :: before) after k) as [a|] eqn:E;
      [|apply Stop].
    intros [= <-]. apply IH in E as (s & after' & -> & Fs & Lo & Hi & K).
    apply andb_prop in G as [Fc Ho].
    exists (c :: s), after'. repeat split.
    + now constructor.
    + simpl. lia.
    + destruct hi as [[|h]|]; simpl in *; try discriminate; try exact I. lia.
    + simpl. now rewrite <- app_assoc.
Qed.

Lemma rep_at_sound (f : list ascii -> bool) (after : list ascii) :
  forall lo before k ans,
    Re.rep_at f lo before after k = Some ans ->
    exists s after',
      after = (s ++ after')%list /\
      all_at f s after' /\
      lo <= List.length s /\
      k (rev s ++ before)%list after' = Some ans.
Proof.
  assert (Stop : forall lo before after0
                        (k : list ascii -> list ascii -> option Re.answer) ans,
             (if Nat.eqb lo 0 then k before after0 else None) = Some ans ->
             exists s after',
               after0 = (s ++ after')%list /\
               all_at f s after' /\
               lo <= List.length s /\
               k (rev s ++ before)%list after' = Some ans).
  { intros lo before after0 k ans H.
    destruct (Nat.eqb_spec lo 0) as [->|]; [|discriminate].
    exists [], after0. split; [reflexivity|]. split; [exact I|].
    split; [simpl; lia|exact H]. }
  induction after as [|c after IH]; intros lo before k ans; simpl.
  - apply Stop.
  - destruct (f (c :: after)) eqn:G; [|apply Stop].
    destruct (Re.rep_at f (pred lo) (c :: before) after k) as [a|] eqn:E;
      [|apply Stop].
    intros [= <-]. apply IH in E as (s & after' & -> & Fs & Lo & K).
    exists (c :: s), after'. split; [reflexivity|].
    split; [split; [exact G|exact Fs]|].
    split; [simpl; lia|]. simpl. now rewrite <- app_assoc.
Qed.

(** Whatever [rmatch] hands to its continuation, it has consumed a string of
    the pattern. *)
Lemma rmatch_sound (r : Re.regex) :
  forall before after cap k ans,
    Re.rmatch r before after cap k = Some ans ->
    exists s after' cap',
      after = (s ++ after')%list /\
      consumes r s after' /\
      k (rev s ++ before)%list after' cap' = Some ans.
Proof.
  induction r as [t|f|f lo hi|f lo|r1 IH1 r2 IH2|r1 IH1 r2 IH2|r1 IH1|t|t|];
    intros before after cap k ans; simpl.
  - destruct (Re.starts_with t after) as [after'|] eqn:E; [|discriminate].
    intros H. exists t, after', cap. split; [now apply starts_with_app|]. auto.
  - destruct after as [|c after]; [discriminate|].
    destruct (f c) eqn:F; [|discriminate].
    intros H. exists [c], after, cap. repeat split; eauto.
  - intros H. apply rep_sound in H as (s & after' & -> & Fs & Lo & Hi & K).
    exists s, after', cap. auto.
  - intros H. apply rep_at_sound in H as (s & after' & -> & Fs & Lo & K).
    exists s, after', cap. auto.
  - intros H. apply IH1 in H as (s1 & a1 & c1 & -> & C1 & H).
    apply IH2 in H as (s2 & a2 & c2 & -> & C2 & H).
    exists (s1 ++ s2)%list, a2, c2. rewrite <- app_assoc. split; [reflexivity|].
    split; [now exists s1, s2|]. now rewrite rev_app_distr, <- app_assoc.
  - destruct (Re.rmatch r1 before after cap k) as [a|] eqn:E.
    + intros [= <-]. apply IH1 in E as (s & a' & c' & -> & C & K).
      exists s, a', c'. auto.
    + intros H. apply IH2 in H as (s & a' & c' & -> & C & K).
      exists s, a', c'. auto.
  - intros H. apply IH1 in H as (s & a' & c' & -> & C & K).
    eexists s, a', _. split; [reflexivity|]. split; [exact C|exact K].
  - destruct (Re.starts_with (rev t) before); [|discriminate].
    intros H. exists [], after, cap. auto.
  - destruct (Re.starts_with t after); [|discriminate].
    intros H. exists [], after, cap. auto.
  - destruct after; [|discriminate].
    intros H. exists [], [], cap. auto.
Qed.

Lemma match_here_sound (r : Re.regex) (before after b a : list ascii)
    (cap : option (list ascii)) :
  Re.match_here r before after = Some (b, a, cap) ->
  exists s,
    after = (s ++ a)%list /\ b = (rev s ++ before)%list /\ consumes r s a /\
    Re.found false before (b, a, cap) = s.
Proof.
  unfold Re.match_here. intros H.
  apply rmatch_sound in H as (s & a' & c' & -> & C & [= <- <- <-]).
  exists s. repeat split; auto.
  unfold Re.found. rewrite length_app, length_rev, Nat.add_sub.
  rewrite <- (length_rev s), firstn_app, Nat.sub_diag, firstn_all, firstn_O,
    app_nil_r.
  apply rev_involutive.
Qed.

(** Each string listed by a scan without a group is a string of the pattern
    and a piece of the text. *)
Lemma scan_sound (r : Re.regex) (after : list ascii) :
  forall skip before x,
    In x (Re.scan r false skip before after) ->
    exists p q,
      (rev before ++ after = p ++ x ++ q)%list /\ consumes r x q.
Proof.
  induction after as [|c after IH]; intros skip before x; simpl.
  - destruct skip; [|contradiction].
    destruct (Re.match_here r before []) as [[[b a] cap]|] eqn:E; [|contradiction].
    intros [<-|[]]. apply match_here_sound in E as (s & Ea & _ & C & ->).
    exists (rev before), a. split; [now rewrite <- Ea|exact C].
  - destruct skip as [|skip].
    + destruct (Re.match_here r before (c :: after)) as [[[b a] cap]|] eqn:E.
      * intros [<-|H].
        -- apply match_here_sound in E as (s & Ea & _ & C & ->).
           exists (rev before), a. split; [now rewrite Ea|exact C].
        -- apply IH in H as (p & q & P & C).
           exists p, q. split; [|exact C]. rewrite <- P. simpl.
           now rewrite <- app_assoc.
      * intros H. apply IH in H as (p & q & P & C).
        exists p, q. split; [|exact C]. rewrite <- P. simpl.
        now rewrite <- app_assoc.
    + intros H. apply IH in H as (p & q & P & C).
      exists p, q. split; [|exact C]. rewrite <- P. simpl.
      now rewrite <- app_assoc.
Qed.

Lemma string_of_list_ascii_app (a b : list ascii) :
  string_of_list_ascii (a ++ b) = string_of_list_ascii a ++ string_of_list_ascii b.
Proof. induction a; simpl; congruence. Qed.

Lemma list_ascii_of_string_app (a b : string) :
  list_ascii_of_string (a ++ b)
  = (list_ascii_of_string a ++ list_ascii_of_string b)%list.
Proof. induction a; simpl; congruence. Qed.

Lemma consumes_url (s after : list ascii) :
  consumes Re.url s after ->
  exists rest,
    (s = list_ascii_of_string "http://" ++ rest \/
     s = list_ascii_of_string "https://" ++ rest)%list /\
    rest <> [] /\
    all_at Re.not_space rest after.
Proof.
  unfold Re.url, Re.lit. cbn [consumes].
  intros (s1 & s2 & -> & -> & s3 & s4 & -> & (F3 & _ & L3) & s5 & s6 & -> & -> &
          (F6 & L6)).
  exists s6. split; [|split].
  - destruct s3 as [|c [|c' s3]]; [now left| |simpl in L3; lia].
    right. inversion F3 as [|? ? Fc _]; subst.
    unfold Re.is_char in Fc. apply Ascii.eqb_eq in Fc. now subst.
  - destruct s6; [simpl in L6; lia|discriminate].
  - exact F6.
Qed.

Lemma all_at_app (f : list ascii -> bool) (a s after : list ascii) :
  all_at f (a ++ s) after -> all_at f s after.
Proof. induction a as [|c a IH]; simpl; [auto|]. intros [_ H]. auto. Qed.

(** A run of [\S] holds no whitespace of ASCII and no other whitespace of
    Unicode. *)
Lemma not_space_run (rest after : list ascii) :
  all_at Re.not_space rest after ->
  Forall (fun c => Re.is_space c = false) rest /\
  forall w a b, In w Re.wide_spaces -> rest <> (a ++ w ++ b)%list.
Proof.
  intros H. split.
  - induction rest as [|c rest IH]; [constructor|].
    destruct H as [Hc H]. constructor; [|now apply IH].
    unfold Re.not_space, Re.space_at in Hc.
    apply negb_true_iff, orb_false_iff in Hc. apply Hc.
  - intros w a b Hw E. subst rest. apply all_at_app in H.
    assert (N : w <> []).
    { intros ->. revert Hw. unfold Re.wide_spaces. cbn [map In].
      intuition discriminate. }
    destruct w as [|c w]; [congruence|].
    destruct H as [Hc _]. unfold Re.not_space in Hc.
    apply negb_true_iff in Hc. cbn [app Re.space_at] in Hc.
    apply orb_false_iff in Hc as [_ Hc].
    assert (T : existsb (fun w0 => Re.begins w0 (c :: (w ++ b) ++ after)%list)
                        Re.wide_spaces = true).
    { apply existsb_exists. exists (c :: w). split; [exact Hw|].
      unfold Re.begins.
      change (c :: (w ++ b) ++ after)%list with ((c :: w) ++ b ++ after)%list
        || (rewrite <- app_assoc;
            change (c :: w ++ b ++ after)%list
              with ((c :: w) ++ b ++ after)%list).
      now rewrite starts_with_refl. }
    congruence.
Qed.

(** X13. Every link that the pattern of the Telegram parser finds in a text
    is a piece of the text that begins with [http://] or [https://], goes
    on with at least one more character and holds no whitespace: none of
    ASCII, and none of the other whitespace of Unicode, read in UTF-8. *)
Theorem tg_links_are_urls (text link : string) :
  In link (Re.findall Tg.tg_links_pattern false text) ->
  exists rest,
    (link = "http://" ++ rest \/ link = "https://" ++ rest) /\
    rest <> "" /\
    Forall (fun c => Re.is_space c = false) (list_ascii_of_string rest) /\
    (forall w, In w Re.wide_spaces -> ~ occurs (string_of_list_ascii w) rest) /\
    occurs link text.
Proof.
  unfold Re.findall. intros H. apply in_map_iff in H as (x & <- & H).
  apply scan_sound in H as (p & q & P & C).
  assert (U : consumes Re.url x q).
  { destruct C as [(s1 & s2 & -> & -> & s3 & s4 & -> & U & ->)|U]; [|exact U].
    simpl. now rewrite app_nil_r. }
  apply consumes_url in U as (rest & E & Ne & Fs).
  apply not_space_run in Fs as (Fa & Fw).
  exists (string_of_list_ascii rest). split; [|split; [|split; [|split]]].
  - destruct E as [->| ->]; [left|right];
      now rewrite string_of_list_ascii_app.
  - destruct rest; [congruence|discriminate].
  - now rewrite list_ascii_of_string_of_list_ascii.
  - intros w Hw (a & b & O). apply (Fw w (list_ascii_of_string a)
                                        (list_ascii_of_string b) Hw).
    rewrite <- (list_ascii_of_string_of_list_ascii rest), O.
    now rewrite !list_ascii_of_string_app, list_ascii_of_string_of_list_ascii.
  - exists (string_of_list_ascii p), (string_of_list_ascii q).
    rewrite <- !string_of_list_ascii_app. simpl in P. rewrite <- P.
    now rewrite string_of_list_ascii_of_string.
Qed.

Lemma rep_star_pass (f : ascii -> bool) (y : list ascii) :
  forall b (k : list ascii -> list ascii -> option Re.answer),
    (forall y1 y2, y = (y1 ++ y2)%list -> y1 <> [] ->
                   k (rev y1 ++ b)%list y2 = None) ->
    Re.rep f 0 None b y k = k b y.
Proof.
  induction y as [|c y IH]; intros b k Hk; [reflexivity|].
  cbn [Re.rep Nat.eqb pred Re.dec_hi].
  destruct (f c && Re.hi_open None); [|reflexivity].
  rewrite IH.
  - assert (H0 : k (c :: b) y = None)
      by (apply (Hk [c] y eq_refl); discriminate).
    now rewrite H0.
  - intros y1 y2 -> Hy.
    assert (H1 : k (rev (c :: y1) ++ b)%list y2 = None)
      by (apply (Hk (c :: y1) y2 eq_refl); discriminate).
    rewrite <- H1. simpl. now rewrite <- app_assoc.
Qed.

(** A greedy star over a text it can read to the end gives way to the last
    position where the rest of the pattern matches. *)
Lemma rep_star_last (f : ascii -> bool) (x y : list ascii) :
  forall b (k : list ascii -> list ascii -> option Re.answer) ans,
    Forall (fun c => f c = true) x ->
    (forall y1 y2, y = (y1 ++ y2)%list -> y1 <> [] ->
                   k (rev y1 ++ rev x ++ b)%list y2 = None) ->
    k (rev x ++ b)%list y = Some ans ->
    Re.rep f 0 None b (x ++ y)%list k = Some ans.
Proof.
  induction x as [|c x IH]; intros b k ans Fx Hk Hs.
  - simpl in *. now rewrite rep_star_pass.
  - inversion Fx as [|? ? Fc Fx']; subst.
    cbn [app Re.rep Nat.eqb pred Re.dec_hi]. rewrite Fc. cbn [Re.hi_open andb].
    rewrite (IH (c :: b) k ans Fx').
    + reflexivity.
    + intros y1 y2 E Hy. rewrite <- (Hk y1 y2 E Hy). simpl.
      now rewrite <- !app_assoc.
    + rewrite <- Hs. simpl. now rewrite <- app_assoc.
Qed.

Lemma no_later_vk (d y1 y2 : list ascii) :
  (forall a b, d <> a ++ list_ascii_of_string "vk.com/" ++ b)%list ->
  (list_ascii_of_string "vk.com/" ++ d = y1 ++ y2)%list ->
  y1 <> [] ->
  Re.starts_with (list_ascii_of_string "vk.com/") y2 = None.
Proof.
  intros Hd E Hy.
  destruct (Re.starts_with (list_ascii_of_string "vk.com/") y2) as [r|] eqn:S;
    [|reflexivity].
  exfalso. apply starts_with_app in S. subst y2.
  simpl in E.
  do 7 (destruct y1 as [|? y1];
        [first [congruence | simpl in E; congruence]|];
        simpl in E; injection E as <- E).
  apply (Hd y1 r). exact E.
Qed.

(** X14. For a link on one line, the domain that the VK parser asks about is
    what follows the last [vk.com/] of the link, to its end: a slash at the
    end of the link is part of the domain. *)
Theorem vk_domain_is_the_rest (pre d : string) :
  one_line pre ->
  one_line d ->
  ~ occurs "vk.com/" d ->
  Re.search_group Vk.vk_domain_pattern []
    (list_ascii_of_string (pre ++ "vk.com/" ++ d))
  = Some (Some (list_ascii_of_string d)).
Proof.
  intros Hp Hd Ho.
  rewrite !list_ascii_of_string_app.
  set (x := list_ascii_of_string pre) in *.
  set (y := list_ascii_of_string d) in *.
  assert (Hy : forall a b, y <> (a ++ list_ascii_of_string "vk.com/" ++ b)%list).
  { intros a b E. apply Ho.
    exists (string_of_list_ascii a), (string_of_list_ascii b).
    rewrite <- (string_of_list_ascii_of_string d). fold y. rewrite E.
    now rewrite !string_of_list_ascii_app, string_of_list_ascii_of_string. }
  assert (M : Re.match_here Vk.vk_domain_pattern []
                (x ++ list_ascii_of_string "vk.com/" ++ y)%list
              = Some ((rev y ++ rev (list_ascii_of_string "vk.com/") ++ rev x ++ [])%list,
                      [], Some y)).
  { unfold Re.match_here, Vk.vk_domain_pattern, Re.lit.
    cbn [Re.rmatch].
    apply rep_star_last; [exact Hp| |].
    - intros y1 y2 E Hy1. now rewrite (no_later_vk y y1 y2 Hy E Hy1).
    - rewrite starts_with_refl.
      rewrite <- (app_nil_r y) at 1.
      apply rep_star_last; [exact Hd| |].
      + intros [|? ?] y2 E Hy1; [congruence|discriminate].
      + cbn [Re.rep Nat.eqb].
        rewrite length_app, Nat.add_sub.
        rewrite firstn_app, Nat.sub_diag, firstn_all, firstn_O.
        now rewrite ?app_nil_r, rev_involutive. }
  destruct (x ++ list_ascii_of_string "vk.com/" ++ y)%list eqn:T;
    cbn [Re.search_group]; now rewrite M.
Qed.

Lemma string_app_assoc (a b c : string) : (a ++ b) ++ c = a ++ b ++ c.
Proof. induction a; simpl; congruence. Qed.

Lemma search_group_sound (r : Re.regex) (after : list ascii) :
  forall before cap,
    Re.search_group r before after = Some cap ->
    exists x p q,
      consumes r x q /\ (rev before ++ after = p ++ x ++ q)%list.
Proof.
  induction after as [|c after IH]; intros before cap; simpl.
  - destruct (Re.match_here r before []) as [[[b a] cp]|] eqn:E; [|discriminate].
    intros _. apply match_here_sound in E as (s & Ea & _ & C & _).
    exists s, (rev before), a. now rewrite <- Ea.
  - destruct (Re.match_here r before (c :: after)) as [[[b a] cp]|] eqn:E.
    + intros _. apply match_here_sound in E as (s & Ea & _ & C & _).
      exists s, (rev before), a. now rewrite Ea.
    + intros H. apply IH in H as (x & p & q & C & P).
      exists x, p, q. split; [exact C|]. rewrite <- P. simpl.
      now rewrite <- app_assoc.
Qed.

Lemma consumes_vk_domain (x after : list ascii) :
  consumes Vk.vk_domain_pattern x after ->
  exists a b, (x = a ++ list_ascii_of_string "vk.com/" ++ b)%list.
Proof.
  unfold Vk.vk_domain_pattern, Re.lit. cbn [consumes].
  intros (s1 & s2 & -> & _ & s3 & s4 & -> & -> & _). now exists s1, s4.
Qed.

Lemma no_vk_no_match (link : string) :
  ~ occurs "vk.com/" link ->
  Re.search_group Vk.vk_domain_pattern [] (list_ascii_of_string link) = None /\
  Re.match_here Vk.vk_domain_pattern [] (list_ascii_of_string link) = None.
Proof.
  intros Ho.
  assert (F : forall x p q,
             consumes Vk.vk_domain_pattern x q ->
             (list_ascii_of_string link = p ++ x ++ q)%list -> False).
  { intros x p q C P. apply consumes_vk_domain in C as (a & b & ->).
    apply Ho.
    exists (string_of_list_ascii (p ++ a)), (string_of_list_ascii (b ++ q)).
    rewrite <- (string_of_list_ascii_of_string link), P.
    rewrite !string_of_list_ascii_app, string_of_list_ascii_of_string.
    now rewrite !string_app_assoc. }
  split.
  - destruct (Re.search_group _ _ _) as [cap|] eqn:E; [|reflexivity].
    apply search_group_sound in E as (x & p & q & C & P). destruct (F x p q C P).
  - destruct (Re.match_here _ _ _) as [[[b a] cap]|] eqn:E; [|reflexivity].
    apply match_here_sound in E as (s & Ea & _ & C & _).
    destruct (F s [] a C Ea).
Qed.

(** X15. A link that does not hold [vk.com/] ends the run of the VK posts
    parser, and of the VK channels parser, with an [AttributeError]: the
    pattern finds nothing and [group] is asked of [None], outside any
    [try]. *)
Theorem vk_link_without_domain_is_fatal (link : string) :
  ~ occurs "vk.com/" link ->
  (forall api rest counter acc out,
     Vk.links_loop api (link :: rest) counter acc out
     = (Vk.Crashed (AttributeError "'NoneType' object has no attribute 'group'"),
        out)) /\
  (forall api now rest k counter acc out,
     VkChannel.channels_loop api now (link :: rest) k counter acc out
     = (Vk.Crashed (AttributeError "'NoneType' object has no attribute 'group'"),
        out)).
Proof.
  intros Ho. destruct (no_vk_no_match link Ho) as (S & M). split.
  - intros. cbn [Vk.links_loop]. now rewrite S.
  - intros. cbn [VkChannel.channels_loop]. now rewrite M.
Qed.

(** ** The links sheet *)

Lemma rows_loop_flat_map (data : list (list string)) :
  forall posts channels,
    Links.rows_loop data posts channels =
    ((posts ++ flat_map posts_of_row data)%list,
     (channels ++ flat_map channels_of_row data)%list).
Proof.
  induction data as [|elem data IH]; intros posts channels; simpl.
  - now rewrite !app_nil_r.
  - destruct elem as [|a [|b [|c elem]]]; rewrite IH; simpl;
      try reflexivity.
    + now rewrite <- app_assoc.
    + destruct (String.eqb a ""); simpl; now rewrite <- ?app_assoc.
Qed.

(** X16. [get_links_from_google] never raises.  From a sheet with rows it
    returns the first cells of the rows of one cell and the first cells,
    when not empty, of the rows of two cells as links to posts, and the
    second cells of the rows of two cells as links to channels, in the order
    of the rows; rows of any other length give nothing.  When the request
    raises or the sheet has no rows it logs an error and returns [None], not
    two empty lists. *)
Theorem links_sheet_reading (sid : string) (w : World) :
  (forall data,
     sheet w (reads w) "Лист1!A2:B" = Values (Some data) ->
     fst (Links.get_links_from_google sid w)
       = Ok (Some (flat_map posts_of_row data, flat_map channels_of_row data)) /\
     log (snd (Links.get_links_from_google sid w)) = log w) /\
  (sheet w (reads w) "Лист1!A2:B" = Values None ->
   fst (Links.get_links_from_google sid w) = Ok None /\
   log (snd (Links.get_links_from_google sid w))
     = (log w ++
          [Error "Ошибка при получении существующих данных из Google Sheets: 'NoneType' object is not iterable"])%list) /\
  (forall msg,
     sheet w (reads w) "Лист1!A2:B" = HttpFail msg ->
     fst (Links.get_links_from_google sid w) = Ok None /\
     log (snd (Links.get_links_from_google sid w))
       = (log w ++
            [Error ("Ошибка при получении существующих данных из Google Sheets: "
                    ++ msg)])%list).
Proof.
  unfold Links.get_links_from_google, try_except, bind, values_get, lift, ret,
    write_log.
  repeat split; intros; rewrite H; cbn [fst snd log];
    try rewrite rows_loop_flat_map; reflexivity.
Qed.

(** ** Answers to the VK channels parser *)

(** X17. For a channel whose request is answered with an error and no
    response, the VK channels parser leaves the channel out only when the
    message is that the group hides its members; for any other error it
    adds a record with 0 subscribers. *)
Theorem vk_channel_error_rows (api : VkChannel.Api) (now : nat -> datetime)
    (link domain : string) (rest : list string) (k : nat) (counter : Z)
    (acc : list dict) (out : list LogLine) (r : VkChannel.HttpResponse)
    (e : dict) :
  matched_domain link domain ->
  VkChannel.requests_get api domain = Ok r ->
  VkChannel.status_code r = 200 ->
  VkChannel.json r = Ok (VkChannel.mkChannelData (Some e) None) ->
  e <> [] ->
  (dict_get e "error_msg" = Some (VStr "Access denied: group hide members") ->
   VkChannel.channels_loop api now (link :: rest) k counter acc out
   = VkChannel.channels_loop api now rest (S k) (counter - 1) acc
       (out ++ [Info ("Получение подписчиков канала: " ++ domain
                      ++ ". Осталось " ++ str_of_Z (counter - 1)
                      ++ " канал(-а, -ов).");
                Info ("Канал " ++ domain ++ " скрыл количество подписчиков.")])) /\
  (dict_get e "error_msg" <> Some (VStr "Access denied: group hide members") ->
   VkChannel.channels_loop api now (link :: rest) k counter acc out
   = VkChannel.channels_loop api now rest (S k) (counter - 1)
       (acc ++ [[ ("Канал", VStr link);
                  ("Дата-время", VStr (strftime (now k)));
                  ("Количество подписчиков", VInt 0) ]])
       (out ++ [Info ("Получение подписчиков канала: " ++ domain
                      ++ ". Осталось " ++ str_of_Z (counter - 1)
                      ++ " канал(-а, -ов).")])).
Proof.
  intros (b & a & g & M & ->) Hr Hs Hj He.
  assert (T : VkChannel.truthy_dict (Some e) = true)
    by (destruct e; [congruence|reflexivity]).
  split; intros Hm; cbn [VkChannel.channels_loop]; rewrite M;
    unfold VkChannel.get_channel_info; rewrite Hr, Hs, Hj;
    cbn [Nat.eqb negb VkChannel.error VkChannel.response]; rewrite T;
    cbn [andb VkChannel.get].
  - rewrite Hm. cbn [value_eqb]. rewrite String.eqb_refl.
    rewrite !app_nil_r, <- app_assoc. reflexivity.
  - assert (V : value_eqb
                  match dict_get e "error_msg" with Some v => v | None => VNone end
                  (VStr "Access denied: group hide members") = false).
    { destruct (dict_get e "error_msg") as [[|z|s]|]; try reflexivity.
      cbn [value_eqb]. destruct (String.eqb_spec s "Access denied: group hide members");
        [subst; congruence|reflexivity]. }
    rewrite V. now rewrite !app_nil_r.
Qed.

(** ** The Notion tables *)

Lemma mapM_nth {A B} (f : A -> result B) (l : list A) (r : list B) :
  mapM f l = Ok r ->
  List.length r = List.length l /\
  forall i a, nth_error l i = Some a ->
              exists b, nth_error r i = Some b /\ f a = Ok b.
Proof.
  revert r. induction l as [|x l IH]; intros r; simpl.
  - intros [= <-]. split; [reflexivity|]. intros [|i] a; discriminate.
  - destruct (f x) as [b|] eqn:F; simpl; [|discriminate].
    destruct (mapM f l) as [bs|]; simpl; [|discriminate].
    intros [= <-]. destruct (IH bs eq_refl) as (L & N).
    split; [simpl; now rewrite L|].
    intros [|i] a; simpl.
    + intros [= <-]. now exists b.
    + apply N.
Qed.

(** X18. For the flags [tasks] and [urls], a row of [_get_row_from_table]
    has as many cells as the header row of [_get_table_headers], and the
    cell at each position is the value the record holds under the label at
    this position of the header. *)
Theorem notion_row_follows_header (parser_flag : string)
    (row : NotionTables.record) (cells : list json) :
  parser_flag = "tasks" \/ parser_flag = "urls" ->
  NotionTables._get_row_from_table parser_flag row = Ok (Some cells) ->
  exists header,
    NotionTables._get_table_headers parser_flag = Some [header] /\
    List.length cells = List.length header /\
    forall i label,
      nth_error header i = Some label ->
      exists v, nth_error cells i = Some v /\ lookup row label = Some v.
Proof.
  assert (G : forall header,
             mapM (NotionTables.row_item row) header = Ok cells ->
             List.length cells = List.length header /\
             forall i label,
               nth_error header i = Some label ->
               exists v, nth_error cells i = Some v /\ lookup row label = Some v).
  { intros header H. apply mapM_nth in H as (L & N). split; [exact L|].
    intros i label Hi. destruct (N i label Hi) as (v & Nv & R).
    exists v. split; [exact Nv|]. unfold NotionTables.row_item in R.
    destruct (lookup row label); [now injection R as ->|discriminate]. }
  intros [-> | ->]; unfold NotionTables._get_row_from_table;
    cbn [String.eqb Ascii.eqb Bool.eqb]; simpl String.eqb; cbv iota;
    fold NotionTables.tasks_headers; fold NotionTables.urls_headers;
    intros H.
  - exists NotionTables.tasks_headers. split; [reflexivity|]. apply G.
    destruct (mapM _ _); [now injection H as ->|discriminate].
  - exists NotionTables.urls_headers. split; [reflexivity|]. apply G.
    destruct (mapM _ _); [now injection H as ->|discriminate].
Qed.

Lemma mapM_keys (properties : json)
    (columns : list (string * (json -> result json)))
    (data : NotionTables.record) :
  mapM (fun column : string * (json -> result json) =>
          let (name, extract) := column in
          (p <- item properties name ;; v <- extract p ;; Ok (name, v))%result)
       columns = Ok data ->
  map fst data = map fst columns.
Proof.
  revert data. induction columns as [|[name extract] columns IH]; intros data;
    cbn [mapM].
  - now intros [= <-].
  - destruct (item properties name) as [p|]; cbn [rbind]; [|discriminate].
    destruct (extract p) as [v|]; cbn [rbind]; [|discriminate].
    destruct (mapM _ columns) as [rest|]; cbn [rbind]; [|discriminate].
    intros [= <-]. simpl. f_equal. now apply IH.
Qed.

Lemma tasks_record_keys (rec : json) (data : NotionTables.record) :
  NotionTables.tasks_record rec = Ok data ->
  map fst data = NotionTables.tasks_headers.
Proof.
  unfold NotionTables.tasks_record.
  destruct (item rec "properties") as [properties|]; cbn [rbind]; [|discriminate].
  intros H. now apply mapM_keys in H.
Qed.

Lemma mapM_row_item_fresh (k : string) (v : json) (d : NotionTables.record)
    (keys : list string) :
  ~ In k keys ->
  mapM (NotionTables.row_item ((k, v) :: d)) keys
  = mapM (NotionTables.row_item d) keys.
Proof.
  induction keys as [|k' keys IH]; intros Hk; [reflexivity|].
  cbn [mapM]. rewrite IH by (intros F; apply Hk; now right).
  unfold NotionTables.row_item at 1 3. cbn [lookup].
  destruct (String.eqb_spec k k') as [->|]; [|reflexivity].
  exfalso. apply Hk. now left.
Qed.

Lemma mapM_row_item_all (d : NotionTables.record) :
  NoDup (map fst d) ->
  mapM (NotionTables.row_item d) (map fst d) = Ok (map snd d).
Proof.
  induction d as [|[k v] d IH]; intros Hn; [reflexivity|].
  inversion Hn as [|? ? Hk Hd]; subst.
  cbn [map fst snd mapM]. rewrite (mapM_row_item_fresh k v d _ Hk), (IH Hd).
  unfold NotionTables.row_item. cbn [lookup]. now rewrite String.eqb_refl.
Qed.

Lemma tasks_headers_NoDup : NoDup NotionTables.tasks_headers.
Proof.
  unfold NotionTables.tasks_headers.
  repeat (constructor; [cbn [In]; intuition discriminate|]). constructor.
Qed.

Lemma tasks_record_fills_row_aux (rec : json) (data : NotionTables.record) :
  NotionTables.tasks_record rec = Ok data ->
  NotionTables._get_row_from_table "tasks" data = Ok (row_of_table_record data).
Proof.
  intros H. apply tasks_record_keys in H.
  unfold NotionTables._get_row_from_table. cbn [String.eqb Ascii.eqb Bool.eqb].
  simpl String.eqb. cbv iota. fold NotionTables.tasks_headers.
  rewrite <- H, mapM_row_item_all; [reflexivity|].
  rewrite H. apply tasks_headers_NoDup.
Qed.

(** X19. A record of the tasks normalizer has the twenty keys of the header
    row, in their order, so its row is read without a [KeyError] and is the
    list of its twenty values. *)
Theorem tasks_record_fills_row (rec : json) (data : NotionTables.record) :
  NotionTables.tasks_record rec = Ok data ->
  map fst data = NotionTables.tasks_headers /\
  NotionTables._get_row_from_table "tasks" data = Ok (row_of_table_record data) /\
  List.length (map snd data) = 20.
Proof.
  intros H. split; [exact (tasks_record_keys rec data H)|].
  split; [exact (tasks_record_fills_row_aux rec data H)|].
  apply tasks_record_keys in H.
  rewrite length_map, <- (length_map fst), H. reflexivity.
Qed.










(** ** Names in a Notion record *)



(** ** Missing values in a Notion record *)


(** * Instances of the further properties *)

Lemma no_snapshot_inserts_all_witness :
  fst (run_google_upsert "sheet" [sample_post (VStr "x")] "tg_posts_parser"
         (fresh_world unreadable_sheet)) = Ok tt /\
  issued (snd (run_google_upsert "sheet" [sample_post (VStr "x")]
                 "tg_posts_parser" (fresh_world unreadable_sheet)))
    = [ Get "sheet" "Лист1!B2:B";
        Get "sheet" "Лист1!A:A";
        BatchUpdate "sheet" "USER_ENTERED"
          [ mkValueRange "Лист1!A3" "ROWS" [sample_row "x"] ] ].
Proof.
  apply (no_snapshot_inserts_all "sheet" "tg_posts_parser"
           [sample_post (VStr "x")] (fresh_world unreadable_sheet)
           [sample_row "x"] (Some [["Канал"]; ["c"]])).
  - reflexivity.
  - repeat constructor; discriminate.
  - discriminate.
  - reflexivity.
  - reflexivity.
Defined.

Lemma vanished_identities_are_dropped_witness :
  fst (run_google_upsert "sheet" [sample_tg_record] "tg_posts_parser"
         (fresh_world emptied_sheet)) = Ok tt /\
  issued (snd (run_google_upsert "sheet" [sample_tg_record] "tg_posts_parser"
                 (fresh_world emptied_sheet)))
    = [Get "sheet" "Лист1!B2:B"; Get "sheet" "Лист1!B2:B"].
Proof.
  apply (vanished_identities_are_dropped "sheet" "tg_posts_parser"
           [sample_tg_record] (fresh_world emptied_sheet)).
  - constructor; [|constructor]. left. split; [reflexivity|].
    exists sample_client, "https://t.me/a", (plain_message 1). reflexivity.
  - discriminate.
  - repeat constructor.
  - repeat constructor.
Defined.

Lemma normalized_upsert_is_safe_witness :
  fst (run_google_upsert "sheet" [sample_tg_record] "tg_posts_parser"
         (fresh_world (fixed_sheet [["Канал"]] []))) = Ok tt \/
  exists msg,
    fst (run_google_upsert "sheet" [sample_tg_record] "tg_posts_parser"
           (fresh_world (fixed_sheet [["Канал"]] []))) = Raise (HttpError msg).
Proof.
  apply (normalized_upsert_is_safe "sheet" "tg_posts_parser" [sample_tg_record]
           (fresh_world (fixed_sheet [["Канал"]] []))).
  constructor; [|constructor]. left. split; [reflexivity|].
  exists sample_client, "https://t.me/a", (plain_message 1). reflexivity.
Defined.

Lemma update_range_spans_row_witness :
  exists row,
    _get_row_from_post sample_tg_record "tg_posts_parser" = Ok (Some row) /\
    List.length row = 10 /\
    column_letters (List.length sample_tg_record) = Ok "J" /\
    update_loop ["x"; "https://t.me/a/1"] "J" [Some row] []
      = Ok [mkValueRange "Лист1!A3:J3" "ROWS" [Some row]].
Proof.
  destruct (update_range_spans_row sample_tg_record "tg_posts_parser"
              ["x"; "https://t.me/a/1"] 1)
    as (row & letter & R & C & _ & [(_ & N & ->)|(F & _)] & U).
  - left. split; [reflexivity|].
    exists sample_client, "https://t.me/a", (plain_message 1). reflexivity.
  - exists (VStr "https://t.me/a/1"). split; reflexivity.
  - exists row. split; [exact R|]. split; [exact N|]. split; [exact C|exact U].
  - discriminate F.
Defined.

Lemma tg_identity_injective_witness :
  Tg.id (plain_message 1) = Tg.id edited_message.
Proof.
  refine (tg_identity_injective sample_client "https://t.me/a"
            (plain_message 1) edited_message sample_tg_record _ _ _ _);
    reflexivity.
Defined.

Lemma tg_channels_always_appended_witness :
  fst (TgRun.run_tg_channels_parser sample_client (fun _ => sample_date)
         sample_links "sheet" (fresh_world (fixed_sheet [["Канал"]] [])))
    = Ok tt /\
  issued (snd (TgRun.run_tg_channels_parser sample_client
                 (fun _ => sample_date) sample_links "sheet"
                 (fresh_world (fixed_sheet [["Канал"]] []))))
    = [ Get "sheet" "Лист1!A:A";
        BatchUpdate "sheet" "USER_ENTERED"
          [ mkValueRange "Лист1!A2" "ROWS"
              [ Some [VStr "https://t.me/a"; VStr "2024-05-01 09:00:07"; VInt 10];
                Some [VStr "https://t.me/b"; VStr "2024-05-01 09:00:07"; VInt 10] ] ] ].
Proof.
  apply (tg_channels_always_appended sample_client (fun _ => sample_date)
           sample_links "sheet" (fresh_world (fixed_sheet [["Канал"]] []))
           (Some [["Канал"]])).
  reflexivity.
Defined.

Lemma vk_post_failure_is_isolated_witness :
  Vk.wall_loop sample_api "https://vk.com/club1"
    [undated_vk_repost; sample_vk_post] [] [] =
  Vk.wall_loop sample_api "https://vk.com/club1" [sample_vk_post] []
    [vk_post_error_line (KeyError "date") (-1) 5].
Proof.
  apply (vk_post_failure_is_isolated sample_api "https://vk.com/club1"
           undated_vk_repost [sample_vk_post] [] [] (-1)%Z 5%Z (KeyError "date")).
  - split; [intros _; split; discriminate|discriminate].
  - reflexivity.
  - reflexivity.
  - left. split; reflexivity.
Defined.

Lemma vk_post_without_owner_is_fatal_witness :
  Vk.wall_loop sample_api "https://vk.com/club1"
    [ownerless_vk_post; sample_vk_post] [] []
    = (Raise (KeyError "owner_id"), []) /\
  Vk.wall_loop sample_api "https://vk.com/club1"
    [ownerless_vk_repost; sample_vk_post] [] []
    = (Raise (KeyError "id"), []).
Proof.
  split.
  - destruct (vk_post_without_owner_is_fatal sample_api "https://vk.com/club1"
                ownerless_vk_post [sample_vk_post] [] [] eq_refl)
      as (key & _ & W & A & _).
    rewrite W, A; [reflexivity|].
    split; [discriminate|discriminate].
  - destruct (vk_post_without_owner_is_fatal sample_api "https://vk.com/club1"
                ownerless_vk_repost [sample_vk_post] [] [] eq_refl)
      as (key & _ & W & _ & B).
    rewrite W, B; [reflexivity|reflexivity|discriminate|reflexivity].
Defined.

Lemma vk_wall_failure_is_fatal_witness :
  fst (Vk.links_loop sample_api ["https://vk.com/down"; "https://vk.com/club1"]
         2 [] [])
    = Vk.Crashed (TypeError "'NoneType' object is not iterable") /\
  fst (Vk.links_loop sample_api ["https://vk.com/limited"] 1 [] [])
    = Vk.Exit "Статус код не равен 200. Получен статус: 429".
Proof.
  split.
  - apply (proj1 (vk_wall_failure_is_fatal sample_api "https://vk.com/down"
                    ["https://vk.com/club1"] 2 [] []
                    (list_ascii_of_string "down") eq_refl)
             (HttpError "Connection refused")).
    reflexivity.
  - apply (proj2 (proj2 (vk_wall_failure_is_fatal sample_api
                           "https://vk.com/limited" [] 1 [] []
                           (list_ascii_of_string "limited") eq_refl))
             (Vk.mkHttpResponse 429 (Raise (KeyError "response")))).
    + reflexivity.
    + discriminate.
Defined.

Lemma vk_repost_links_listed_twice_witness :
  exists info,
    Vk.normalize sample_api "https://vk.com/club1" reposted_vk_post
      = Ok (Some info, []) /\
    dict_get info "Ссылка в посте"
      = Some (VStr "https://a.co, https://b.co, https://a.co").
Proof.
  destruct (Vk.normalize sample_api "https://vk.com/club1" reposted_vk_post)
    as [[[info|] lines]|e] eqn:E; try discriminate E.
  exists info.
  destruct (vk_repost_links_listed_twice sample_api "https://vk.com/club1"
              reposted_vk_post info lines E eq_refl eq_refl) as (L & _).
  split.
  - vm_compute in E. now injection E as _ <-.
  - exact L.
Defined.

Lemma vk_text_column_is_quoted_witness :
  exists info s,
    Vk.normalize sample_api "https://vk.com/club1" sample_vk_post
      = Ok (Some info, []) /\
    dict_get info "Текст оригинального поста" = Some (VStr (String "'" s)) /\
    s = "text vk.com/x".
Proof.
  destruct (Vk.normalize sample_api "https://vk.com/club1" sample_vk_post)
    as [[[info|] lines]|e] eqn:E; try discriminate E.
  destruct (vk_text_column_is_quoted sample_api "https://vk.com/club1"
              sample_vk_post info lines E) as (s & T & P).
  exists info, s. split; [|split].
  - vm_compute in E. now injection E as _ <-.
  - exact T.
  - apply P. split; reflexivity.
Defined.

Lemma tg_links_are_urls_witness :
  Re.findall Tg.tg_links_pattern false ("docs http://a.co" ++ nbsp ++ "and more")
    = ["http://a.co"] /\
  exists rest,
    ("http://a.co" = "http://" ++ rest \/ "http://a.co" = "https://" ++ rest) /\
    rest <> "" /\
    Forall (fun c => Re.is_space c = false) (list_ascii_of_string rest) /\
    (forall w, In w Re.wide_spaces -> ~ occurs (string_of_list_ascii w) rest) /\
    occurs "http://a.co" ("docs http://a.co" ++ nbsp ++ "and more").
Proof.
  split; [reflexivity|].
  apply (tg_links_are_urls ("docs http://a.co" ++ nbsp ++ "and more")
           "http://a.co").
  left. reflexivity.
Defined.

Lemma vk_domain_is_the_rest_witness :
  Re.search_group Vk.vk_domain_pattern []
    (list_ascii_of_string ("https://" ++ "vk.com/" ++ "club1/"))
  = Some (Some (list_ascii_of_string "club1/")).
Proof.
  apply (vk_domain_is_the_rest "https://" "club1/").
  - repeat constructor.
  - repeat constructor.
  - intros H. absent H.
Defined.

Lemma vk_link_without_domain_is_fatal_witness :
  Vk.links_loop sample_api ["vk.ru/x"; "https://vk.com/club1"] 2 [] []
    = (Vk.Crashed (AttributeError "'NoneType' object has no attribute 'group'"),
       []) /\
  VkChannel.channels_loop sample_channel_api (fun _ => sample_date)
    ["vk.ru/x"] 0 1 [] []
    = (Vk.Crashed (AttributeError "'NoneType' object has no attribute 'group'"),
       []).
Proof.
  assert (N : ~ occurs "vk.com/" "vk.ru/x") by (intros H; absent H).
  split.
  - apply (proj1 (vk_link_without_domain_is_fatal "vk.ru/x" N)).
  - apply (proj2 (vk_link_without_domain_is_fatal "vk.ru/x" N)).
Defined.

Lemma links_sheet_reading_witness :
  fst (Links.get_links_from_google "sheet" (fresh_world links_sheet))
    = Ok (Some (["p1"; "p2"], ["c2"; "c3"])) /\
  fst (Links.get_links_from_google "sheet" (fresh_world unreadable_sheet_all))
    = Ok None.
Proof.
  split.
  - apply (proj1 (links_sheet_reading "sheet" (fresh_world links_sheet))
             [["p1"]; ["p2"; "c2"]; [""; "c3"]; ["p4"; "c4"; "x"]] eq_refl).
  - apply (proj2 (proj2 (links_sheet_reading "sheet"
                           (fresh_world unreadable_sheet_all))) "503" eq_refl).
Defined.

Lemma vk_channel_error_rows_witness :
  VkChannel.channels_loop sample_channel_api (fun _ => sample_date)
    ["vk.com/closed"; "vk.com/open"] 0 2 [] []
  = VkChannel.channels_loop sample_channel_api (fun _ => sample_date)
      ["vk.com/open"] 1 1 []
      [Info "Получение подписчиков канала: closed. Осталось 1 канал(-а, -ов).";
       Info "Канал closed скрыл количество подписчиков."] /\
  VkChannel.channels_loop sample_channel_api (fun _ => sample_date)
    ["vk.com/banned"; "vk.com/open"] 0 2 [] []
  = VkChannel.channels_loop sample_channel_api (fun _ => sample_date)
      ["vk.com/open"] 1 1
      [[ ("Канал", VStr "vk.com/banned");
         ("Дата-время", VStr "2024-05-01 09:00:07");
         ("Количество подписчиков", VInt 0) ]]
      [Info "Получение подписчиков канала: banned. Осталось 1 канал(-а, -ов)."].
Proof.
  split.
  - refine (proj1 (vk_channel_error_rows sample_channel_api
                     (fun _ => sample_date) "vk.com/closed" "closed"
                     ["vk.com/open"] 0 2 [] [] _ _ _ eq_refl eq_refl eq_refl _)
              eq_refl).
    + eexists _, _, _. split; reflexivity.
    + discriminate.
  - refine (proj2 (vk_channel_error_rows sample_channel_api
                     (fun _ => sample_date) "vk.com/banned" "banned"
                     ["vk.com/open"] 0 2 [] [] _ _ _ eq_refl eq_refl eq_refl _)
              _).
    + eexists _, _, _. split; reflexivity.
    + discriminate.
    + discriminate.
Defined.

Lemma notion_row_follows_header_witness :
  exists header,
    NotionTables._get_table_headers "tasks" = Some [header] /\
    List.length (map snd sample_task_record) = List.length header /\
    forall i label,
      nth_error header i = Some label ->
      exists v, nth_error (map snd sample_task_record) i = Some v /\
                lookup sample_task_record label = Some v.
Proof.
  apply (notion_row_follows_header "tasks" sample_task_record
           (map snd sample_task_record)).
  - left. reflexivity.
  - reflexivity.
Defined.

Lemma tasks_record_fills_row_witness :
  map fst sample_task_record = NotionTables.tasks_headers /\
  NotionTables._get_row_from_table "tasks" sample_task_record
    = Ok (row_of_table_record sample_task_record) /\
  List.length (map snd sample_task_record) = 20.
Proof.
  apply (tasks_record_fills_row (sample_task (JArr [])) sample_task_record).
  reflexivity.
Defined.





